(** * Job portal backend: authorization, uniqueness and cascade rules

    A shallow embedding of the request handlers of the job portal
    (Express + Mongoose, TypeScript) and of the part of the document store
    they rely on, followed by the properties of the specification.

    Conventions of the embedding.
    - A Mongoose collection is a finite map from [_id] to document.
    - A handler is a function from the store to a result and a store: an
      exception keeps the store as it was when it was thrown.
    - Mongo query objects are embedded as boolean predicates on documents.
    - bcrypt and jsonwebtoken are external: a hash is a symbolic value of
      the key bcrypt reads and a token is a record of its payload, signing
      secret and expiry; neither has collisions or forgeries.
    - Text is a string of bytes (UTF-8). The character classes of the
      regular expressions and [length] are those of JavaScript on ASCII
      text; the properties that depend on them are stated for ASCII text.
    - Ids in bodies, paths and tokens are well-formed ObjectIds, and body
      fields have the type the schema casts them to; the driver's
      CastError on other input is outside the model. *)

From stdpp Require Import gmap strings list fin_maps sorting.
From Stdlib Require Import ZArith Ascii.

Local Open Scope Z_scope.
Local Open Scope string_scope.

(** ** Errors ([utils/errors.ts], and what the driver throws) *)

Inductive Exception :=
  | ValidationError (message : string) (errors : list string)
  | AuthenticationError (message : string)
  | AuthorizationError (message : string)
  | NotFoundError (message : string)
  | ConflictError (message : string)
  (* jsonwebtoken: bad signature or malformed token; expired token *)
  | JsonWebTokenError
  | TokenExpiredError
  (* the driver, on a unique index violation (code 11000) *)
  | MongoDuplicateKey (index : string)
  (* Mongoose, when a document fails schema validation at [path] *)
  | MongooseValidationError (path : string)
  (* the driver, refusing a cursor option; its class and message are the
     driver's own and no handler of the repository reads them *)
  | DriverError
  (* a plain [Error], as jsonwebtoken throws when it is given no secret to
     sign with *)
  | GenericError (message : string).

(** The status [errorHandler] answers with: the [statusCode] the error
    classes set, and its mapping of the library errors. *)
Definition statusCode (e : Exception) : Z :=
  match e with
  | ValidationError _ _ => 400
  | AuthenticationError _ => 401
  | AuthorizationError _ => 403
  | NotFoundError _ => 404
  | ConflictError _ => 409
  | JsonWebTokenError => 401
  | TokenExpiredError => 401
  | MongoDuplicateKey _ => 409
  | MongooseValidationError _ => 400
  | DriverError => 500
  | GenericError _ => 500
  end.

Inductive Result (A : Type) :=
  | Ok (a : A)
  | Err (e : Exception).
Arguments Ok {A} a.
Arguments Err {A} e.

(** ** Data model ([models/User.ts], [models/Job.ts], [models/Application.ts]) *)

Abbreviation ObjectId := nat.
Abbreviation Date := Z.

Inductive Role := admin | employer | candidate.

(** [jobStatus] is a string of the store. The enum of the schema,
    ["Active"] or ["Inactive"], is checked when a document is saved, not
    by [findByIdAndUpdate], which stores whatever string it is given. *)
Abbreviation JobStatus := string (only parsing).
Definition Active : JobStatus := "Active".
Definition Inactive : JobStatus := "Inactive".

Inductive ApplicationStatus := pending | accepted | rejected.

#[global] Instance Role_eq_dec : EqDecision Role.
Proof. solve_decision. Defined.
#[global] Instance ApplicationStatus_eq_dec : EqDecision ApplicationStatus.
Proof. solve_decision. Defined.

(** The result of [bcrypt.hash]: symbolic in the key bcrypt reads, which
    is the first 72 bytes of the password (for a password without a NUL
    byte; bcrypt ends a shorter key with NUL). [bcrypt.compare] succeeds on
    every password with the key the hash was made from. *)
Inductive PasswordHash := Bcrypt (key : string).

Definition bcrypt_key (password : string) : string := String.substring 0 72 password.

Definition bcrypt_hash (password : string) : PasswordHash :=
  Bcrypt (bcrypt_key password).

Record User := {
  email : string;
  password : PasswordHash;
  firstName : option string;
  lastName : option string;
  company : option string;
  role : Role;
  isBanned : bool;
  u_createdAt : Date;
  u_updatedAt : Date
}.

Record Job := {
  title : string;
  description : string;
  companyName : string;
  location : string;
  jobType : string;
  salaryRange : option (option Z * option Z);
  skills : list string;
  createdBy : ObjectId;
  jobStatus : JobStatus;
  j_createdAt : Date;
  j_updatedAt : Date
}.

Record Application := {
  jobId : ObjectId;
  candidateId : ObjectId;
  coverLetter : option string;
  resume : option string;
  applicationStatus : ApplicationStatus;
  appliedAt : Date;
  a_createdAt : Date;
  a_updatedAt : Date
}.

Definition role_of_string (s : string) : option Role :=
  if decide (s = "admin") then Some admin
  else if decide (s = "employer") then Some employer
  else if decide (s = "candidate") then Some candidate
  else None.

(** ** The document store *)

Abbreviation Collection D := (gmap ObjectId D).

Record Db := {
  users : gmap ObjectId User;
  jobs : gmap ObjectId Job;
  applications : gmap ObjectId Application
}.

(** *** Indexes declared by a schema *)

Inductive IndexValue :=
  | KString (s : string)
  | KId (i : ObjectId).

#[global] Instance IndexValue_eq_dec : EqDecision IndexValue.
Proof. solve_decision. Defined.

Record Index (D : Type) := {
  idx_name : string;
  idx_key : D -> list IndexValue;
  idx_unique : bool
}.
Arguments idx_name {D} _.
Arguments idx_key {D} _ _.
Arguments idx_unique {D} _.

(** [UserSchema]: [email: { type: String, required: true, unique: true }];
    no other path carries an index option and the schema has no
    [lowercase] or [trim] setter. *)
Definition UserSchema_indexes : list (Index User) :=
  [ {| idx_name := "email_1";
       idx_key := fun u => [KString (email u)];
       idx_unique := true |} ].

(** [JobSchema] declares no index. *)
Definition JobSchema_indexes : list (Index Job) := [].

(** [ApplicationSchema] declares no index: neither a path option nor a
    call of [ApplicationSchema.index]. *)
Definition ApplicationSchema_indexes : list (Index Application) := [].

(** *** Collection operations *)

Section Collection.
Context {D : Type}.

Definition findById (id : ObjectId) (c : gmap ObjectId D) : option D :=
  c !! id.

(** The documents a query selects, as a sub-collection. *)
Definition select (q : D -> bool) (c : gmap ObjectId D) : gmap ObjectId D :=
  filter (fun kv => q kv.2 = true) c.

Definition find (q : D -> bool) (c : gmap ObjectId D) : list (ObjectId * D) :=
  map_to_list (select q c).

Definition findOne (q : D -> bool) (c : gmap ObjectId D) : option (ObjectId * D) :=
  head (find q c).

Definition countDocuments (q : D -> bool) (c : gmap ObjectId D) : nat :=
  size (select q c).

Definition deleteMany (q : D -> bool) (c : gmap ObjectId D) : gmap ObjectId D :=
  filter (fun kv => q kv.2 <> true) c.

Definition findByIdAndDelete (id : ObjectId) (c : gmap ObjectId D) : gmap ObjectId D :=
  delete id c.

(** A unique index rejects a document whose key a stored document has. *)
Definition violates (ix : Index D) (d : D) (c : gmap ObjectId D) : bool :=
  idx_unique ix &&
  bool_decide (findOne (fun d' => bool_decide (idx_key ix d' = idx_key ix d)) c <> None).

Definition first_violation (ixs : list (Index D)) (d : D) (c : gmap ObjectId D)
  : option (Index D) :=
  List.find (fun ix => violates ix d c) ixs.

(** [new Model(doc).save()]: the driver picks an unused [_id]. *)
Definition insertOne (ixs : list (Index D)) (d : D) (c : gmap ObjectId D)
  : Result ObjectId * gmap ObjectId D :=
  match first_violation ixs d c with
  | Some ix => (Err (MongoDuplicateKey (idx_name ix)), c)
  | None => let id := fresh (dom c) in (Ok id, <[id := d]> c)
  end.
End Collection.

(** ** Handlers: store passing with exceptions *)

Definition M (A : Type) : Type := Db -> Result A * Db.

#[global] Instance M_ret : MRet M := fun A a db => (Ok a, db).

#[global] Instance M_bind : MBind M := fun A B f m db =>
  match m db with
  | (Ok a, db') => f a db'
  | (Err e, db') => (Err e, db')
  end.

Definition throw {A} (e : Exception) : M A := fun db => (Err e, db).

(** [if (cond) { throw e; }] *)
Definition throw_if (cond : bool) (e : Exception) : M unit :=
  if cond then throw e else mret tt.

Definition gets {A} (f : Db -> A) : M A := fun db => (Ok (f db), db).

Definition set_users (c : gmap ObjectId User) (db : Db) : Db :=
  {| users := c; jobs := jobs db; applications := applications db |}.
Definition set_jobs (c : gmap ObjectId Job) (db : Db) : Db :=
  {| users := users db; jobs := c; applications := applications db |}.
Definition set_applications (c : gmap ObjectId Application) (db : Db) : Db :=
  {| users := users db; jobs := jobs db; applications := c |}.

Definition update_users (f : gmap ObjectId User -> gmap ObjectId User) : M unit :=
  fun db => (Ok tt, set_users (f (users db)) db).
Definition update_jobs (f : gmap ObjectId Job -> gmap ObjectId Job) : M unit :=
  fun db => (Ok tt, set_jobs (f (jobs db)) db).
Definition update_applications
    (f : gmap ObjectId Application -> gmap ObjectId Application) : M unit :=
  fun db => (Ok tt, set_applications (f (applications db)) db).

(** ** Creating documents: [new Model(fields)] followed by [save()] *)

(** JavaScript truthiness of an optional string: [undefined] and the empty
    string are falsy. *)
Definition truthy (o : option string) : bool :=
  match o with
  | Some s => negb (bool_decide (s = ""))
  | None => false
  end.

(** What [new User({...})] is given by its callers; [role] is the string of
    the request body, checked against the schema's [enum] on [save]. *)
Record UserFields := {
  f_email : string;
  f_password : PasswordHash;
  f_role : string;
  f_isBanned : option bool
}.

(** [required: true] rejects an empty string; [isBanned] defaults to
    [false]; [timestamps: true] sets both dates on insertion. Validation
    runs before the document reaches the driver. *)
Definition User_save (now : Date) (f : UserFields) : M (ObjectId * User) :=
  fun db =>
    if bool_decide (f_email f = "") then (Err (MongooseValidationError "email"), db)
    else match role_of_string (f_role f) with
    | None => (Err (MongooseValidationError "role"), db)
    | Some r =>
        let u := {| email := f_email f; password := f_password f;
                    firstName := None; lastName := None; company := None;
                    role := r; isBanned := default false (f_isBanned f);
                    u_createdAt := now; u_updatedAt := now |} in
        match insertOne UserSchema_indexes u (users db) with
        | (Ok id, c) => (Ok (id, u), set_users c db)
        | (Err e, _) => (Err e, db)
        end
    end.

(** [Partial<IApplication>]: what [new Application({...})] is given. *)
Record ApplicationFields := {
  f_jobId : option ObjectId;
  f_candidateId : option ObjectId;
  f_coverLetter : option string;
  f_resume : option string;
  f_applicationStatus : option ApplicationStatus;
  f_appliedAt : option Date
}.

(** [jobId] and [candidateId] are required; [applicationStatus] defaults to
    [pending] and [appliedAt] to [Date.now]. *)
Definition Application_save (now : Date) (f : ApplicationFields)
  : M (ObjectId * Application) :=
  fun db =>
    match f_jobId f, f_candidateId f with
    | None, _ => (Err (MongooseValidationError "jobId"), db)
    | _, None => (Err (MongooseValidationError "candidateId"), db)
    | Some j, Some c =>
        let a := {| jobId := j; candidateId := c;
                    coverLetter := f_coverLetter f; resume := f_resume f;
                    applicationStatus := default pending (f_applicationStatus f);
                    appliedAt := default now (f_appliedAt f);
                    a_createdAt := now; a_updatedAt := now |} in
        match insertOne ApplicationSchema_indexes a (applications db) with
        | (Ok id, c') => (Ok (id, a), set_applications c' db)
        | (Err e, _) => (Err e, db)
        end
    end.

(** ** Requests *)

(** [req.user]: the stored user document with its [_id]. *)
Record IUser := {
  _id : ObjectId;
  doc : User
}.

Record Response (A : Type) := {
  status : Z;
  json : A
}.
Arguments status {A} _.
Arguments json {A} _.

(** [res.json(x)] answers with status 200. *)
Definition res_json {A} (x : A) : M (Response A) :=
  mret {| status := 200; json := x |}.

(** [process.env] *)
Record Env := {
  JWT_SECRET : option string;
  ADMIN_EMAIL : option string;
  ADMIN_PASSWORD : option string
}.

(** ** Tokens ([jsonwebtoken]) *)

Record Jwt := {
  jwt_userId : ObjectId;
  jwt_secret : string;
  jwt_exp : Z
}.

(** The bearer token of a request: a token some secret signed, or text
    that is no token at all. *)
Inductive Token :=
  | Signed (t : Jwt)
  | Malformed (s : string).

Definition seven_days : Z := 604800.

(** The secret the library is given, when it takes it: [!secret] holds
    of [undefined] and of the empty string. *)
Definition usable_secret (secret : option string) : option string :=
  match secret with
  | Some k => if bool_decide (k = "") then None else Some k
  | None => None
  end.

(** [jwt.sign({ userId }, secret, { expiresIn: "7d" })]; [exp] is in
    seconds. Without a secret the library throws a plain [Error]. *)
Definition jwt_sign (userId : ObjectId) (secret : option string) (now : Date)
  : Result Token :=
  match usable_secret secret with
  | Some k => Ok (Signed {| jwt_userId := userId; jwt_secret := k;
                            jwt_exp := now / 1000 + seven_days |})
  | None => Err (GenericError "secretOrPrivateKey must have a value")
  end.

(** [jwt.verify(token, secret)]; without a secret the library throws a
    [JsonWebTokenError]. *)
Definition jwt_verify (token : Token) (secret : option string) (now : Date)
  : Result ObjectId :=
  match token, usable_secret secret with
  | Signed t, Some k =>
      if negb (bool_decide (jwt_secret t = k)) then Err JsonWebTokenError
      else if bool_decide (jwt_exp t <= now / 1000) then Err TokenExpiredError
      else Ok (jwt_userId t)
  | _, _ => Err JsonWebTokenError
  end.

Definition lift {A} (r : Result A) : M A := fun db => (r, db).

(** [try { body } catch (error) { handler(error) }] *)
Definition try_catch {A} (body : M A) (handler : Exception -> M A) : M A :=
  fun db =>
    match body db with
    | (Ok a, db') => (Ok a, db')
    | (Err e, db') => handler e db'
    end.

(** ** Middlewares ([middlewares/auth.ts], [middlewares/validation.ts]) *)

(** [authorization] is the header with its ["Bearer "] prefix removed;
    [None] stands for an absent header or an empty token. A middleware that
    calls [next()] returns, one that calls [next(error)] throws. *)
Definition authenticate (env : Env) (now : Date) (authorization : option Token)
  : M IUser :=
  try_catch
    (match authorization with
     | None => throw (AuthenticationError "Access denied. No token provided.")
     | Some token =>
         userId ← lift (jwt_verify token (JWT_SECRET env) now);
         user ← gets (fun db => findById userId (users db));
         match user with
         | None => throw (AuthenticationError "Invalid token.")
         | Some u =>
             throw_if (isBanned u) (AuthenticationError "User is banned.");;
             mret {| _id := userId; doc := u |}
         end
     end)
    (fun error =>
       match error with
       | AuthenticationError _ => throw error
       | _ => throw (AuthenticationError "Invalid token.")
       end).

Definition authorize (roles : list Role) (user : option IUser) : M unit :=
  match user with
  | None => throw (AuthenticationError "Access denied.")
  | Some u =>
      throw_if (negb (bool_decide (role (doc u) ∈ roles)))
        (AuthorizationError "Insufficient permissions.")
  end.

(** The role of the principal, [req.user?.role]. *)
Definition user_role (user : option IUser) : option Role :=
  role ∘ doc <$> user.

Definition user_id (user : option IUser) : option ObjectId :=
  _id <$> user.

(** *** [/^[^\s@]+@[^\s@]+\.[^\s@]+$/] on ASCII text *)

Definition is_space (a : ascii) : bool :=
  bool_decide (a ∈ [" "; "009"; "010"; "011"; "012"; "013"]%char).

Definition plain (a : ascii) : bool :=
  negb (is_space a) && negb (bool_decide (a = "@"%char)).

Fixpoint span_plain (l : list ascii) : list ascii * list ascii :=
  match l with
  | a :: l' =>
      if plain a then let '(p, r) := span_plain l' in (a :: p, r) else ([], l)
  | [] => ([], [])
  end.

Definition emailRegex_test (s : string) : bool :=
  match span_plain (String.list_ascii_of_string s) with
  | (_ :: _, a :: d) =>
      bool_decide (a = "@"%char) && forallb plain d
      && existsb (fun c => bool_decide (c = "."%char)) (removelast (tail d))
  | _ => false
  end.

Record RegistrationBody := {
  b_email : option string;
  b_password : option string;
  b_role : option string
}.

(** [errors.push(...)] in the order of the source; [password.length] is
    the number of bytes, which it is on ASCII text. *)
Definition registration_errors (b : RegistrationBody) : list string :=
  (if truthy (b_email b) then [] else ["Email is required"]) ++
  (if truthy (b_password b) then [] else ["Password is required"]) ++
  (if truthy (b_role b) then [] else ["Role is required"]) ++
  (match b_email b with
   | Some e => if truthy (Some e) && negb (emailRegex_test e)
               then ["Invalid email format"] else []
   | None => []
   end) ++
  (match b_password b with
   | Some p => if truthy (Some p) && bool_decide (String.length p < 6)%nat
               then ["Password must be at least 6 characters long"] else []
   | None => []
   end) ++
  (match b_role b with
   | Some r => if truthy (Some r) && negb (bool_decide (is_Some (role_of_string r)))
               then ["Role must be admin, employer, or candidate"] else []
   | None => []
   end).

(** The body [validateRegistration] lets through has its three fields. *)
Definition validateRegistration (b : RegistrationBody) : M (string * string * string) :=
  match registration_errors b, b_email b, b_password b, b_role b with
  | [], Some e, Some p, Some r => mret (e, p, r)
  | errors, _, _, _ => throw (ValidationError "Validation failed" errors)
  end.

Record ApplicationBody := {
  b_jobId : option ObjectId;
  b_coverLetter : option string;
  b_resume : option string
}.

Definition validateApplication (b : ApplicationBody) : M unit :=
  throw_if (negb (bool_decide (is_Some (b_jobId b))))
    (ValidationError "Job ID is required" []).



(** ** Queries shared by the controllers *)

(** [.sort({ key: -1 })] *)
Definition sort_desc {A} (key : A -> Z) (l : list A) : list A :=
  @merge_sort A (fun x y => key y <= key x)
    (fun x y => decide (key y <= key x)) l.

(** [.limit(limit).skip(skip)]: the driver skips first; a limit of zero
    is no limit, a negative one counts as its absolute value. A negative
    skip is no cursor option: the driver refuses it, and what it answers
    is outside the model. *)
Definition paginate {A} (limit skip : Z) (l : list A) : Result (list A) :=
  if bool_decide (skip < 0) then Err DriverError
  else
    let l' := drop (Z.to_nat skip) l in
    Ok (if bool_decide (limit = 0) then l' else take (Z.to_nat (Z.abs limit)) l').

(** [Math.ceil(total / limit)]; [None] when the quotient is no number. *)
Definition ceil_div (total : nat) (limit : Z) : option Z :=
  if bool_decide (limit = 0) then None else Some (- ((- Z.of_nat total) / limit)).

Record Page (A : Type) := {
  items : list A;
  totalPages : option Z;
  currentPage : Z;
  total : nat
}.
Arguments items {A} _.
Arguments totalPages {A} _.
Arguments currentPage {A} _.
Arguments total {A} _.

(** [.populate("createdBy", "email")]: the reference is replaced by the
    selected fields of the user, or by [null] when the user is gone. *)
Record PopulatedJob := {
  pj_id : ObjectId;
  pj_job : Job;
  pj_createdBy : option (ObjectId * string)
}.

Definition populate_job (db : Db) (kv : ObjectId * Job) : PopulatedJob :=
  {| pj_id := kv.1; pj_job := kv.2;
     pj_createdBy := (fun u => (createdBy kv.2, email u)) <$> users db !! createdBy kv.2 |}.

(** [.populate("candidateId", "email").populate("jobId", "title companyName")] *)
Record PopulatedApplication := {
  pa_id : ObjectId;
  pa_application : Application;
  pa_candidateId : option (ObjectId * string);
  pa_jobId : option (ObjectId * string * string)
}.

Definition populate_application (db : Db) (kv : ObjectId * Application)
  : PopulatedApplication :=
  {| pa_id := kv.1; pa_application := kv.2;
     pa_candidateId :=
       (fun u => (candidateId kv.2, email u)) <$> users db !! candidateId kv.2;
     pa_jobId :=
       (fun j => (jobId kv.2, title j, companyName j)) <$> jobs db !! jobId kv.2 |}.

(** ** [controllers/authController.ts] *)

Record RegisterResponse := {
  r_token : Token;
  r_id : ObjectId;
  r_email : string;
  r_role : Role
}.

Definition register (env : Env) (now : Date) (body : string * string * string)
  : M (Response RegisterResponse) :=
  let '(email_, password_, role_) := body in
  existingUser ← gets (fun db =>
    findOne (fun u => bool_decide (email u = email_)) (users db));
  throw_if (bool_decide (is_Some existingUser)) (ConflictError "User already exists");;
  let hashedPassword := bcrypt_hash password_ in
  user ← User_save now {| f_email := email_; f_password := hashedPassword;
                          f_role := role_; f_isBanned := None |};
  token ← lift (jwt_sign user.1 (JWT_SECRET env) now);
  mret {| status := 201;
          json := {| r_token := token; r_id := user.1;
                     r_email := email user.2; r_role := role user.2 |} |}.

(** The route: [router.post("/register", validateRegistration, register)]. *)
Definition route_register (env : Env) (now : Date) (b : RegistrationBody)
  : M (Response RegisterResponse) :=
  body ← validateRegistration b;
  register env now body.

(** ** [controllers/applicationController.ts] *)

Definition applyForJob (now : Date) (user : option IUser) (body : ApplicationBody)
  : M (Response (ObjectId * Application)) :=
  throw_if (negb (bool_decide (is_Some (b_jobId body))))
    (ValidationError "Job ID is required" []);;
  throw_if (negb (truthy (b_coverLetter body)))
    (ValidationError "Cover letter is required" []);;
  throw_if (negb (truthy (b_resume body)))
    (ValidationError "Resume is required" []);;
  throw_if (negb (bool_decide (user_role user = Some candidate)))
    (AuthorizationError "Only candidates can apply for jobs");;
  (* Check if job exists and is active *)
  job ← gets (fun db => b_jobId body ≫= fun id => findById id (jobs db));
  match job with
  | None => throw (NotFoundError "Job not found")
  | Some job =>
      throw_if (negb (bool_decide (jobStatus job = Active)))
        (ValidationError "Job is not active" []);;
      (* Check if user already applied *)
      existingApplication ← gets (fun db =>
        findOne (fun a => bool_decide (Some (jobId a) = b_jobId body)
                          && bool_decide (Some (candidateId a) = user_id user))
                (applications db));
      throw_if (bool_decide (is_Some existingApplication))
        (ConflictError "Already applied for this job");;
      application ← Application_save now
        {| f_jobId := b_jobId body; f_candidateId := user_id user;
           f_coverLetter := b_coverLetter body; f_resume := b_resume body;
           f_applicationStatus := None; f_appliedAt := None |};
      mret {| status := 201; json := application |}
  end.

(** [applyForJob] up to its last [await]: the guards and the pre-check,
    which only read; what is left is [application.save()]. *)
Definition applyForJob_checks (user : option IUser) (body : ApplicationBody)
  : M ApplicationFields :=
  throw_if (negb (bool_decide (is_Some (b_jobId body))))
    (ValidationError "Job ID is required" []);;
  throw_if (negb (truthy (b_coverLetter body)))
    (ValidationError "Cover letter is required" []);;
  throw_if (negb (truthy (b_resume body)))
    (ValidationError "Resume is required" []);;
  throw_if (negb (bool_decide (user_role user = Some candidate)))
    (AuthorizationError "Only candidates can apply for jobs");;
  job ← gets (fun db => b_jobId body ≫= fun id => findById id (jobs db));
  match job with
  | None => throw (NotFoundError "Job not found")
  | Some job =>
      throw_if (negb (bool_decide (jobStatus job = Active)))
        (ValidationError "Job is not active" []);;
      existingApplication ← gets (fun db =>
        findOne (fun a => bool_decide (Some (jobId a) = b_jobId body)
                          && bool_decide (Some (candidateId a) = user_id user))
                (applications db));
      throw_if (bool_decide (is_Some existingApplication))
        (ConflictError "Already applied for this job");;
      mret {| f_jobId := b_jobId body; f_candidateId := user_id user;
              f_coverLetter := b_coverLetter body; f_resume := b_resume body;
              f_applicationStatus := None; f_appliedAt := None |}
  end.

(** Two requests of one candidate for one job, served so that both
    pre-checks run before either [save()]. *)
Definition applyForJob_twice_interleaved (now1 now2 : Date) (user : option IUser)
    (body : ApplicationBody)
  : M (Response (ObjectId * Application) * Response (ObjectId * Application)) :=
  f1 ← applyForJob_checks user body;
  f2 ← applyForJob_checks user body;
  a1 ← Application_save now1 f1;
  a2 ← Application_save now2 f2;
  mret ({| status := 201; json := a1 |}, {| status := 201; json := a2 |}).

Definition getJobApplications (user : option IUser) (jobId_ : ObjectId)
  : M (Response (list PopulatedApplication)) :=
  throw_if (negb (bool_decide (user_role user = Some employer))
            && negb (bool_decide (user_role user = Some admin)))
    (AuthorizationError "Only employers can view job applications");;
  (* Check if user owns the job (for employers) *)
  (if bool_decide (user_role user = Some employer) then
     job ← gets (fun db => findById jobId_ (jobs db));
     match job with
     | None => throw (NotFoundError "Job not found")
     | Some job =>
         throw_if (negb (bool_decide (Some (createdBy job) = user_id user)))
           (AuthorizationError "Not authorized to view applications for this job")
     end
   else mret tt);;
  applications ← gets (fun db =>
    populate_application db <$>
      sort_desc (fun kv => appliedAt kv.2)
        (find (fun a => bool_decide (jobId a = jobId_)) (applications db)));
  res_json applications.

Definition deleteApplication (user : option IUser) (id : ObjectId)
  : M (Response string) :=
  application ← gets (fun db => findById id (applications db));
  match application with
  | None => throw (NotFoundError "Application not found")
  | Some application =>
      throw_if (negb (bool_decide (Some (candidateId application) = user_id user))
                && negb (bool_decide (user_role user = Some admin)))
        (AuthorizationError "Not authorized to delete this application");;
      update_applications (findByIdAndDelete id);;
      res_json "Application deleted successfully"
  end.

(** ** [controllers/jobController.ts] *)

Record JobQuery := {
  q_page : option Z;
  q_limit : option Z;
  q_search : option string;
  q_location : option string;
  q_jobType : option string
}.

(** [req.body] of an update: the schema paths it may set. *)
Record JobUpdates := {
  upd_title : option string;
  upd_description : option string;
  upd_companyName : option string;
  upd_location : option string;
  upd_jobType : option string;
  upd_salaryRange : option (option Z * option Z);
  upd_skills : option (list string);
  upd_createdBy : option ObjectId;
  upd_jobStatus : option JobStatus
}.

(** [$set] of the given paths; [timestamps: true] refreshes [updatedAt]. *)
Definition apply_updates (now : Date) (u : JobUpdates) (j : Job) : Job :=
  {| title := default (title j) (upd_title u);
     description := default (description j) (upd_description u);
     companyName := default (companyName j) (upd_companyName u);
     location := default (location j) (upd_location u);
     jobType := default (jobType j) (upd_jobType u);
     salaryRange := from_option Some (salaryRange j) (upd_salaryRange u);
     skills := default (skills j) (upd_skills u);
     createdBy := default (createdBy j) (upd_createdBy u);
     jobStatus := default (jobStatus j) (upd_jobStatus u);
     j_createdAt := j_createdAt j;
     j_updatedAt := now |}.

(** [Job.findByIdAndUpdate(id, updates, { new: true })] *)
Definition Job_findByIdAndUpdate (now : Date) (id : ObjectId) (u : JobUpdates)
  : M (option Job) :=
  fun db =>
    match jobs db !! id with
    | Some j => let j' := apply_updates now u j in
                (Ok (Some j'), set_jobs (<[id := j']> (jobs db)) db)
    | None => (Ok None, db)
    end.

Section JobController.
(** [{ $regex: pattern, $options: "i" }] applied to a field: the regular
    expression engine of the store, left abstract. *)
Variable regex_i : string -> string -> bool.

(** The query object [getAllJobs] builds. *)
Definition getAllJobs_query (q : JobQuery) (j : Job) : bool :=
  bool_decide (jobStatus j = Active)
  && match q_search q with
     | Some s => if truthy (Some s)
                 then regex_i s (title j) || regex_i s (description j)
                      || regex_i s (companyName j)
                 else true
     | None => true
     end
  && match q_location q with
     | Some l => if truthy (Some l) then regex_i l (location j) else true
     | None => true
     end
  && match q_jobType q with
     | Some t => if truthy (Some t) then bool_decide (jobType j = t) else true
     | None => true
     end.

Definition getAllJobs (q : JobQuery) : M (Response (Page PopulatedJob)) :=
  let page := default 1 (q_page q) in
  let limit := default 10 (q_limit q) in
  let query := getAllJobs_query q in
  found ← gets (fun db => sort_desc (fun kv => j_createdAt kv.2) (find query (jobs db)));
  jobs_ ← lift (paginate (limit * 1) ((page - 1) * limit) found);
  populated ← gets (fun db => populate_job db <$> jobs_);
  total_ ← gets (fun db => countDocuments query (jobs db));
  res_json {| items := populated; totalPages := ceil_div total_ limit;
              currentPage := page; total := total_ |}.
End JobController.

Definition getJobById (id : ObjectId) : M (Response PopulatedJob) :=
  job ← gets (fun db => (fun j => populate_job db (id, j)) <$> findById id (jobs db));
  match job with
  | None => throw (NotFoundError "Job not found")
  | Some job => res_json job
  end.

Definition updateJob (now : Date) (user : option IUser) (id : ObjectId)
    (updates : JobUpdates) : M (Response (option Job)) :=
  job ← gets (fun db => findById id (jobs db));
  match job with
  | None => throw (NotFoundError "Job not found")
  | Some job =>
      (* Check if user owns the job or is admin *)
      throw_if (negb (bool_decide (Some (createdBy job) = user_id user))
                && negb (bool_decide (user_role user = Some admin)))
        (AuthorizationError "Not authorized to update this job");;
      updatedJob ← Job_findByIdAndUpdate now id updates;
      res_json updatedJob
  end.

Definition deleteJob (user : option IUser) (id : ObjectId) : M (Response string) :=
  job ← gets (fun db => findById id (jobs db));
  match job with
  | None => throw (NotFoundError "Job not found")
  | Some job =>
      (* Check if user owns the job or is admin *)
      throw_if (negb (bool_decide (Some (createdBy job) = user_id user))
                && negb (bool_decide (user_role user = Some admin)))
        (AuthorizationError "Not authorized to delete this job");;
      update_jobs (findByIdAndDelete id);;
      (* Also delete all applications for this job *)
      update_applications (deleteMany (fun a => bool_decide (jobId a = id)));;
      res_json "Job deleted successfully"
  end.

(** The routes: [router.put("/:id", authenticate, authorize("employer",
    "admin"), updateJob)] and the same gates before [deleteJob], from the
    authenticated principal on. *)
Definition route_updateJob (now : Date) (u : IUser) (id : ObjectId)
    (updates : JobUpdates) : M (Response (option Job)) :=
  authorize [employer; admin] (Some u);;
  updateJob now (Some u) id updates.

Definition route_deleteJob (u : IUser) (id : ObjectId) : M (Response string) :=
  authorize [employer; admin] (Some u);;
  deleteJob (Some u) id.

(** ** [controllers/adminController.ts] *)

(** [user.isBanned = b; await user.save()]: a save that modifies nothing
    writes nothing. *)
Definition set_isBanned (now : Date) (b : bool) (u : User) : User :=
  if bool_decide (isBanned u = b) then u
  else {| email := email u; password := password u; firstName := firstName u;
          lastName := lastName u; company := company u; role := role u;
          isBanned := b; u_createdAt := u_createdAt u; u_updatedAt := now |}.

Definition banUser (now : Date) (user : option IUser) (userId : ObjectId)
  : M (Response string) :=
  throw_if (negb (bool_decide (user_role user = Some admin)))
    (AuthorizationError "Only admins can ban users");;
  target ← gets (fun db => findById userId (users db));
  match target with
  | None => throw (NotFoundError "User not found")
  | Some target =>
      throw_if (bool_decide (role target = admin))
        (ValidationError "Cannot ban admin users" []);;
      update_users (insert userId (set_isBanned now true target));;
      res_json "User banned successfully"
  end.

Definition unbanUser (now : Date) (user : option IUser) (userId : ObjectId)
  : M (Response string) :=
  throw_if (negb (bool_decide (user_role user = Some admin)))
    (AuthorizationError "Only admins can unban users");;
  target ← gets (fun db => findById userId (users db));
  match target with
  | None => throw (NotFoundError "User not found")
  | Some target =>
      update_users (insert userId (set_isBanned now false target));;
      res_json "User unbanned successfully"
  end.

Definition deleteUser (user : option IUser) (userId : ObjectId)
  : M (Response string) :=
  throw_if (negb (bool_decide (user_role user = Some admin)))
    (AuthorizationError "Only admins can delete users");;
  target ← gets (fun db => findById userId (users db));
  match target with
  | None => throw (NotFoundError "User not found")
  | Some target =>
      throw_if (bool_decide (role target = admin))
        (ValidationError "Cannot delete admin users" []);;
      (* Delete user's jobs if employer *)
      (if bool_decide (role target = employer) then
         userJobs ← gets (fun db =>
           find (fun j => bool_decide (createdBy j = userId)) (jobs db));
         let jobIds := fst <$> userJobs in
         (* Delete applications for these jobs *)
         update_applications (deleteMany (fun a => bool_decide (jobId a ∈ jobIds)));;
         (* Delete the jobs *)
         update_jobs (deleteMany (fun j => bool_decide (createdBy j = userId)))
       else mret tt);;
      (* Delete user's applications if candidate *)
      (if bool_decide (role target = candidate) then
         update_applications (deleteMany (fun a => bool_decide (candidateId a = userId)))
       else mret tt);;
      (* Delete the user *)
      update_users (findByIdAndDelete userId);;
      res_json "User and associated data deleted successfully"
  end.

(** ** [services/applicationService.ts], [services/jobService.ts] *)

Definition ApplicationService_createApplication (now : Date)
    (applicationData : ApplicationFields) : M (ObjectId * Application) :=
  Application_save now applicationData.

Definition JobService_deleteJob (jobId_ : ObjectId) : M bool :=
  (* Delete all applications for this job first *)
  update_applications (deleteMany (fun a => bool_decide (jobId a = jobId_)));;
  result ← gets (fun db => findById jobId_ (jobs db));
  update_jobs (findByIdAndDelete jobId_);;
  mret (bool_decide (is_Some result)).

(** ** [utils/handshake.ts] *)

(** How a start-up routine ends: it returns, or it ends the process. *)
Inductive Completion :=
  | Returned
  | ProcessExit (code : Z).

Definition handshake (env : Env) (now : Date) (db : Db) : Completion * Db :=
  let body : M Completion :=
    (* Check if any admin user exists in the database *)
    existingAdmin ← gets (fun db =>
      findOne (fun u => bool_decide (role u = admin)) (users db));
    if bool_decide (is_Some existingAdmin) then mret Returned
    else
      (* No admin found, create default admin from environment variables *)
      match ADMIN_EMAIL env, ADMIN_PASSWORD env with
      | Some adminEmail, Some adminPassword =>
          if negb (truthy (Some adminEmail)) || negb (truthy (Some adminPassword))
          then mret (ProcessExit 1)
          else
            let hashedPassword := bcrypt_hash adminPassword in
            User_save now {| f_email := adminEmail; f_password := hashedPassword;
                             f_role := "admin"; f_isBanned := Some false |};;
            mret Returned
      | _, _ => mret (ProcessExit 1)
      end in
  match body db with
  | (Ok c, db') => (c, db')
  | (Err _, db') => (ProcessExit 1, db')
  end.

(** Start the process once at each of the given times, one after the other. *)
Fixpoint handshakes (times : list Date) (env : Env) (db : Db) : Db :=
  match times with
  | [] => db
  | now :: times' => handshakes times' env (handshake env now db).2
  end.

(** ** Vocabulary of the properties, and a store for examples *)

Definition is_ok {A} (r : Result A) : Prop :=
  match r with Ok _ => True | Err _ => False end.

Definition owns_or_admin (u : IUser) (job : Job) : Prop :=
  role (doc u) = admin \/ _id u = createdBy job.

(** A store for examples: admin 1; employers 2 and 3; candidates 4 and 5
    (5 is banned); employer 2 owns jobs 10 (Active) and 11 (Inactive),
    employer 3 owns job 12; job 10 has two applications, job 11 one. *)
Definition sample_user (e : string) (r : Role) (banned : bool) : User :=
  {| email := e; password := bcrypt_hash "secret1"; firstName := None;
     lastName := None; company := None; role := r; isBanned := banned;
     u_createdAt := 0; u_updatedAt := 0 |}.

Definition sample_job (t : string) (owner : ObjectId) (s : JobStatus) (at_ : Date) : Job :=
  {| title := t; description := "Build services"; companyName := "Acme";
     location := "Dhaka"; jobType := "full-time"; salaryRange := None;
     skills := []; createdBy := owner; jobStatus := s;
     j_createdAt := at_; j_updatedAt := at_ |}.

Definition sample_application (j c : ObjectId) (at_ : Date) : Application :=
  {| jobId := j; candidateId := c; coverLetter := Some "Dear team";
     resume := Some "https://example.com/cv.pdf"; applicationStatus := pending;
     appliedAt := at_; a_createdAt := at_; a_updatedAt := at_ |}.

Definition sample_db : Db :=
  {| users := list_to_map
       [ (1%nat, sample_user "root@x.com" admin false);
         (2%nat, sample_user "e@x.com" employer false);
         (3%nat, sample_user "f@x.com" employer false);
         (4%nat, sample_user "c@x.com" candidate false);
         (5%nat, sample_user "d@x.com" candidate true) ];
     jobs := list_to_map
       [ (10%nat, sample_job "Backend Engineer" 2%nat Active 100);
         (11%nat, sample_job "Data Engineer" 2%nat Inactive 200);
         (12%nat, sample_job "Designer" 3%nat Active 300) ];
     applications := list_to_map
       [ (20%nat, sample_application 10%nat 4%nat 400);
         (21%nat, sample_application 10%nat 5%nat 500);
         (22%nat, sample_application 11%nat 4%nat 600) ] |}.

Definition no_updates : JobUpdates :=
  {| upd_title := None; upd_description := None; upd_companyName := None;
     upd_location := None; upd_jobType := None; upd_salaryRange := None;
     upd_skills := None; upd_createdBy := None; upd_jobStatus := None |}.

(** An update that names another user as the creator of the job. *)
Definition hand_over (to : ObjectId) : JobUpdates :=
  {| upd_title := None; upd_description := None; upd_companyName := None;
     upd_location := None; upd_jobType := None; upd_salaryRange := None;
     upd_skills := None; upd_createdBy := Some to; upd_jobStatus := None |}.

(** The store after employer 2 updated its job 10 with candidate 4 as
    [createdBy]. *)
Definition handed_over_db : Db :=
  (route_updateJob 700 {| _id := 2%nat; doc := sample_user "e@x.com" employer false |}
     10%nat (hand_over 4%nat) sample_db).2.

(** Who the two job routes let through: an admin, or the employer that
    created the job. *)
Definition may_change_job (u : IUser) (job : Job) : Prop :=
  role (doc u) = admin \/ (role (doc u) = employer /\ _id u = createdBy job).

(** The document [applyForJob] stores. *)
Definition new_application (now : Date) (j c : ObjectId) (cl r : option string)
  : Application :=
  {| jobId := j; candidateId := c; coverLetter := cl; resume := r;
     applicationStatus := pending; appliedAt := now;
     a_createdAt := now; a_updatedAt := now |}.

(** The candidate already has an application for the job. *)
Definition already_applied (db : Db) (j c : ObjectId) : Prop :=
  exists aid a, applications db !! aid = Some a /\ jobId a = j /\ candidateId a = c.

Definition same_pair (j c : ObjectId) (a : Application) : bool :=
  bool_decide (jobId a = j) && bool_decide (candidateId a = c).

Definition is_admin (u : User) : bool := bool_decide (role u = admin).

Definition has_admin (db : Db) : Prop :=
  exists id u, users db !! id = Some u /\ role u = admin.

Definition email_taken (db : Db) (e : string) : Prop :=
  exists id u, users db !! id = Some u /\ email u = e.

(** The account [handshake] creates. *)
Definition bootstrap_admin (now : Date) (e p : string) : User :=
  {| email := e; password := bcrypt_hash p; firstName := None; lastName := None;
     company := None; role := admin; isBanned := false;
     u_createdAt := now; u_updatedAt := now |}.

Definition bootstrap_env : Env :=
  {| JWT_SECRET := Some "s3cret"; ADMIN_EMAIL := Some "admin@x.com";
     ADMIN_PASSWORD := Some "changeme1" |}.

Definition empty_db : Db := {| users := ∅; jobs := ∅; applications := ∅ |}.

(** No admin yet, and a candidate registered under the address the
    bootstrap is configured with. *)
Definition squatted_db : Db :=
  {| users := {[ 4%nat := sample_user "admin@x.com" candidate false ]};
     jobs := ∅; applications := ∅ |}.

(** [String.prototype.toLowerCase] on ASCII text. *)
Definition lower_ascii (a : ascii) : ascii :=
  let n := nat_of_ascii a in
  if bool_decide (65 <= n <= 90)%nat then ascii_of_nat (n + 32) else a.

Fixpoint toLowerCase (s : string) : string :=
  match s with
  | EmptyString => EmptyString
  | String a s' => String (lower_ascii a) (toLowerCase s')
  end.

(** What the listing answers with once the gates are passed. *)
Definition job_applications (db : Db) (jobId_ : ObjectId) : list PopulatedApplication :=
  populate_application db <$>
    sort_desc (fun kv => appliedAt kv.2)
      (find (fun a => bool_decide (jobId a = jobId_)) (applications db)).

(** The route: [authenticate, authorize("employer", "admin"), getJobApplications]. *)
Definition route_getJobApplications (env : Env) (now : Date)
    (authorization : option Token) (jobId_ : ObjectId)
  : M (Response (list PopulatedApplication)) :=
  user ← authenticate env now authorization;
  authorize [employer; admin] (Some user);;
  getJobApplications (Some user) jobId_.

(** A substring test, as an instance of the store's regular expressions. *)
Definition contains (pattern text : string) : bool :=
  bool_decide (is_Some (String.index 0 pattern text)).

Definition no_filter : JobQuery :=
  {| q_page := None; q_limit := None; q_search := None; q_location := None;
     q_jobType := None |}.

(** * Further handlers, services and helpers *)

(** ** [controllers/authController.ts]: login and profile *)

#[global] Instance PasswordHash_eq_dec : EqDecision PasswordHash.
Proof. solve_decision. Defined.

(** [bcrypt.compare(password, hash)]: the hash of the password, made
    again, is the stored one. *)
Definition bcrypt_compare (password_ : string) (h : PasswordHash) : bool :=
  bool_decide (h = bcrypt_hash password_).

(** [login]; the body is [{ email, password }], both strings. *)
Definition login (env : Env) (now : Date) (body : string * string)
  : M (Response RegisterResponse) :=
  let '(email_, password_) := body in
  (* Check if user exists *)
  user ← gets (fun db => findOne (fun u => bool_decide (email u = email_)) (users db));
  match user with
  | None => throw (AuthenticationError "Invalid credentials")
  | Some user =>
      (* Check if user is banned *)
      throw_if (isBanned user.2) (AuthenticationError "User is banned");;
      (* Validate password *)
      throw_if (negb (bcrypt_compare password_ (password user.2)))
        (AuthenticationError "Invalid credentials");;
      token ← lift (jwt_sign user.1 (JWT_SECRET env) now);
      res_json {| r_token := token; r_id := user.1;
                  r_email := email user.2; r_role := role user.2 |}
  end.

Record ProfileResponse := {
  pr_id : ObjectId;
  pr_email : string;
  pr_role : Role;
  pr_isBanned : bool
}.

Definition getProfile (user : IUser) : M (Response ProfileResponse) :=
  res_json {| pr_id := _id user; pr_email := email (doc user);
              pr_role := role (doc user); pr_isBanned := isBanned (doc user) |}.

(** [router.get("/profile", authenticate, getProfile)] *)
Definition route_getProfile (env : Env) (now : Date) (authorization : option Token)
  : M (Response ProfileResponse) :=
  user ← authenticate env now authorization;
  getProfile user.

(** ** [controllers/jobController.ts]: creating and listing one's jobs *)

Record JobBody := {
  jb_title : option string;
  jb_description : option string;
  jb_companyName : option string;
  jb_location : option string;
  jb_jobType : option string;
  jb_salaryRange : option (option Z * option Z);
  jb_skills : option (list string)
}.

(** [validateJobCreation] *)
Definition validateJobCreation (b : JobBody) : M unit :=
  let errors :=
    if negb (truthy (jb_title b)) || negb (truthy (jb_description b))
       || negb (truthy (jb_companyName b)) || negb (truthy (jb_location b))
       || negb (truthy (jb_jobType b))
    then ["Title, description, company name, location, and job type are required"]
    else [] in
  throw_if (bool_decide (0 < length errors)%nat)
    (ValidationError "Job validation failed" errors).

(** [new Job({...}).save()]: the five strings are [required] (an empty
    string fails the validator), [skills] defaults to the empty array,
    [jobStatus] to ["Active"]. *)
Definition Job_save (now : Date) (b : JobBody) (createdBy_ : ObjectId)
  : M (ObjectId * Job) :=
  fun db =>
    match jb_title b, jb_description b, jb_companyName b, jb_location b, jb_jobType b with
    | Some t, Some d, Some c, Some l, Some ty =>
        if bool_decide (t = "") then (Err (MongooseValidationError "title"), db)
        else if bool_decide (d = "") then (Err (MongooseValidationError "description"), db)
        else if bool_decide (c = "") then (Err (MongooseValidationError "companyName"), db)
        else if bool_decide (l = "") then (Err (MongooseValidationError "location"), db)
        else if bool_decide (ty = "") then (Err (MongooseValidationError "jobType"), db)
        else
          let j := {| title := t; description := d; companyName := c; location := l;
                      jobType := ty; salaryRange := jb_salaryRange b;
                      skills := default [] (jb_skills b); createdBy := createdBy_;
                      jobStatus := Active; j_createdAt := now; j_updatedAt := now |} in
          match insertOne JobSchema_indexes j (jobs db) with
          | (Ok id, c') => (Ok (id, j), set_jobs c' db)
          | (Err e, _) => (Err e, db)
          end
    | None, _, _, _, _ => (Err (MongooseValidationError "title"), db)
    | _, None, _, _, _ => (Err (MongooseValidationError "description"), db)
    | _, _, None, _, _ => (Err (MongooseValidationError "companyName"), db)
    | _, _, _, None, _ => (Err (MongooseValidationError "location"), db)
    | _, _, _, _, None => (Err (MongooseValidationError "jobType"), db)
    end.

Definition createJob (now : Date) (user : option IUser) (body : JobBody)
  : M (Response (ObjectId * Job)) :=
  throw_if (negb (bool_decide (user_role user = Some employer))
            && negb (bool_decide (user_role user = Some admin)))
    (AuthorizationError "Only employers can create jobs");;
  match user with
  | Some u =>
      job ← Job_save now body (_id u);
      mret {| status := 201; json := job |}
  | None => throw (AuthorizationError "Only employers can create jobs")
  end.

Definition getMyJobs (user : option IUser) : M (Response (list (ObjectId * Job))) :=
  throw_if (negb (bool_decide (user_role user = Some employer))
            && negb (bool_decide (user_role user = Some admin)))
    (AuthorizationError "Only employers can access this route");;
  jobs_ ← gets (fun db =>
    sort_desc (fun kv => j_createdAt kv.2)
      (find (fun j => bool_decide (Some (createdBy j) = user_id user)) (jobs db)));
  res_json jobs_.

(** ** [controllers/applicationController.ts]: the candidate's own list *)

(** [.populate("jobId", "title companyName location jobType")] *)
Record MyApplication := {
  ma_id : ObjectId;
  ma_application : Application;
  ma_jobId : option (ObjectId * string * string * string * string)
}.

Definition populate_my_application (db : Db) (kv : ObjectId * Application)
  : MyApplication :=
  {| ma_id := kv.1; ma_application := kv.2;
     ma_jobId := (fun j => (jobId kv.2, title j, companyName j, location j, jobType j))
                   <$> jobs db !! jobId kv.2 |}.

Definition getMyApplications (user : option IUser) : M (Response (list MyApplication)) :=
  throw_if (negb (bool_decide (user_role user = Some candidate)))
    (AuthorizationError "Only candidates can access this route");;
  applications_ ← gets (fun db =>
    populate_my_application db <$>
      sort_desc (fun kv => appliedAt kv.2)
        (find (fun a => bool_decide (Some (candidateId a) = user_id user))
           (applications db)));
  res_json applications_.

(** ** [controllers/adminController.ts] and the admin listing of applications *)

Definition Role_to_string (r : Role) : string :=
  match r with admin => "admin" | employer => "employer" | candidate => "candidate" end.

Definition JobStatus_to_string (s : JobStatus) : string := s.

Definition ApplicationStatus_to_string (s : ApplicationStatus) : string :=
  match s with pending => "pending" | accepted => "accepted" | rejected => "rejected" end.

(** [req.query] of the admin listings: the page, the limit and the one
    filter ([role] or [status]) the handler reads. *)
Record AdminQuery := {
  aq_page : option Z;
  aq_limit : option Z;
  aq_filter : option string
}.

(** [if (value && allowed.includes(value)) query.path = value]: the filter
    holds on a document whose path renders as the value; any other value
    leaves the query empty. *)
Definition optional_filter {D} (allowed : list string) (render : D -> string)
    (value : option string) (d : D) : bool :=
  match value with
  | Some v => if truthy (Some v) && bool_decide (v ∈ allowed)
              then bool_decide (render d = v) else true
  | None => true
  end.

(** [.limit(Number(limit) * 1).skip((Number(page) - 1) * Number(limit))]
    and the page object of the answer. *)
Definition respond_page {A} (page limit : Z) (found : list A) (total_ : nat)
  : M (Response (Page A)) :=
  items_ ← lift (paginate (limit * 1) ((page - 1) * limit) found);
  res_json {| items := items_; totalPages := ceil_div total_ limit;
              currentPage := page; total := total_ |}.

(** [.select("-password")] *)
Record UserView := {
  uv_id : ObjectId;
  uv_email : string;
  uv_firstName : option string;
  uv_lastName : option string;
  uv_company : option string;
  uv_role : Role;
  uv_isBanned : bool;
  uv_createdAt : Date;
  uv_updatedAt : Date
}.

Definition select_without_password (kv : ObjectId * User) : UserView :=
  {| uv_id := kv.1; uv_email := email kv.2; uv_firstName := firstName kv.2;
     uv_lastName := lastName kv.2; uv_company := company kv.2; uv_role := role kv.2;
     uv_isBanned := isBanned kv.2; uv_createdAt := u_createdAt kv.2;
     uv_updatedAt := u_updatedAt kv.2 |}.

Definition getAllUsers_query (q : AdminQuery) : User -> bool :=
  optional_filter ["admin"; "employer"; "candidate"] (Role_to_string ∘ role) (aq_filter q).

Definition getAllUsers (user : option IUser) (q : AdminQuery)
  : M (Response (Page UserView)) :=
  throw_if (negb (bool_decide (user_role user = Some admin)))
    (AuthorizationError "Only admins can access this route");;
  found ← gets (fun db =>
    select_without_password <$>
      sort_desc (fun kv => Z.of_nat kv.1) (find (getAllUsers_query q) (users db)));
  total_ ← gets (fun db => countDocuments (getAllUsers_query q) (users db));
  respond_page (default 1 (aq_page q)) (default 10 (aq_limit q)) found total_.

(** [.populate("jobId", "title companyName")
     .populate("candidateId", "firstName lastName email")] *)
Record AdminApplication := {
  aa_id : ObjectId;
  aa_application : Application;
  aa_jobId : option (ObjectId * string * string);
  aa_candidateId : option (ObjectId * option string * option string * string)
}.

Definition populate_admin_application (db : Db) (kv : ObjectId * Application)
  : AdminApplication :=
  {| aa_id := kv.1; aa_application := kv.2;
     aa_jobId := (fun j => (jobId kv.2, title j, companyName j)) <$> jobs db !! jobId kv.2;
     aa_candidateId :=
       (fun u => (candidateId kv.2, firstName u, lastName u, email u))
         <$> users db !! candidateId kv.2 |}.

Definition admin_getAllApplications_query (q : AdminQuery) : Application -> bool :=
  optional_filter ["pending"; "accepted"; "rejected"]
    (ApplicationStatus_to_string ∘ applicationStatus) (aq_filter q).

(** [adminController.getAllApplications] *)
Definition admin_getAllApplications (user : option IUser) (q : AdminQuery)
  : M (Response (Page AdminApplication)) :=
  throw_if (negb (bool_decide (user_role user = Some admin)))
    (AuthorizationError "Only admins can access this route");;
  found ← gets (fun db =>
    populate_admin_application db <$>
      sort_desc (fun kv => appliedAt kv.2)
        (find (admin_getAllApplications_query q) (applications db)));
  total_ ← gets (fun db =>
    countDocuments (admin_getAllApplications_query q) (applications db));
  respond_page (default 1 (aq_page q)) (default 10 (aq_limit q)) found total_.

(** [.populate("createdBy", "firstName lastName email company")] *)
Record AdminJob := {
  aj_id : ObjectId;
  aj_job : Job;
  aj_createdBy : option (ObjectId * option string * option string * string * option string)
}.

Definition populate_admin_job (db : Db) (kv : ObjectId * Job) : AdminJob :=
  {| aj_id := kv.1; aj_job := kv.2;
     aj_createdBy :=
       (fun u => (createdBy kv.2, firstName u, lastName u, email u, company u))
         <$> users db !! createdBy kv.2 |}.

Definition admin_getAllJobs_query (q : AdminQuery) : Job -> bool :=
  optional_filter ["Active"; "Inactive"] (JobStatus_to_string ∘ jobStatus) (aq_filter q).

(** [adminController.getAllJobs] *)
Definition admin_getAllJobs (user : option IUser) (q : AdminQuery)
  : M (Response (Page AdminJob)) :=
  throw_if (negb (bool_decide (user_role user = Some admin)))
    (AuthorizationError "Only admins can access this route");;
  found ← gets (fun db =>
    populate_admin_job db <$>
      sort_desc (fun kv => j_createdAt kv.2) (find (admin_getAllJobs_query q) (jobs db)));
  total_ ← gets (fun db => countDocuments (admin_getAllJobs_query q) (jobs db));
  respond_page (default 1 (aq_page q)) (default 10 (aq_limit q)) found total_.

(** [applicationController.getAllApplications]: no filter. *)
Definition getAllApplications (user : option IUser) (q : AdminQuery)
  : M (Response (Page PopulatedApplication)) :=
  throw_if (negb (bool_decide (user_role user = Some admin)))
    (AuthorizationError "Only admins can access this route");;
  found ← gets (fun db =>
    populate_application db <$>
      sort_desc (fun kv => appliedAt kv.2) (find (fun _ => true) (applications db)));
  total_ ← gets (fun db => countDocuments (fun _ => true) (applications db));
  respond_page (default 1 (aq_page q)) (default 10 (aq_limit q)) found total_.

Record DashboardStats := {
  totalUsers : nat;
  totalEmployers : nat;
  totalCandidates : nat;
  bannedUsers : nat;
  totalJobs : nat;
  activeJobs : nat;
  inactiveJobs : nat;
  totalApplications : nat;
  newUsers : nat;
  newJobs : nat;
  newApplications : nat
}.

(** [getDashboardStats]; [sevenDaysAgo] is the date the host's calendar
    gives for [new Date()] moved back seven days. *)
Definition getDashboardStats (sevenDaysAgo : Date) (user : option IUser)
  : M (Response DashboardStats) :=
  throw_if (negb (bool_decide (user_role user = Some admin)))
    (AuthorizationError "Only admins can access dashboard stats");;
  stats ← gets (fun db =>
    {| totalUsers := countDocuments (fun _ => true) (users db);
       totalEmployers := countDocuments (fun u => bool_decide (role u = employer)) (users db);
       totalCandidates := countDocuments (fun u => bool_decide (role u = candidate)) (users db);
       bannedUsers := countDocuments (fun u => bool_decide (isBanned u = true)) (users db);
       totalJobs := countDocuments (fun _ => true) (jobs db);
       activeJobs := countDocuments (fun j => bool_decide (jobStatus j = Active)) (jobs db);
       inactiveJobs := countDocuments (fun j => bool_decide (jobStatus j = Inactive)) (jobs db);
       totalApplications := countDocuments (fun _ => true) (applications db);
       newUsers := countDocuments (fun u => bool_decide (sevenDaysAgo <= u_createdAt u)) (users db);
       newJobs := countDocuments (fun j => bool_decide (sevenDaysAgo <= j_createdAt j)) (jobs db);
       newApplications :=
         countDocuments (fun a => bool_decide (sevenDaysAgo <= appliedAt a)) (applications db) |});
  res_json stats.

(** ** [services/userService.ts] *)

Definition UserService_createUser (now : Date) (email_ password_ role_ : string)
  : M (ObjectId * User) :=
  let hashedPassword := bcrypt_hash password_ in
  User_save now {| f_email := email_; f_password := hashedPassword;
                   f_role := role_; f_isBanned := None |}.

Definition UserService_findUserByEmail (email_ : string) : M (option (ObjectId * User)) :=
  gets (fun db => findOne (fun u => bool_decide (email u = email_)) (users db)).

Definition UserService_validatePassword (password_ : string) (hashedPassword : PasswordHash)
  : bool :=
  bcrypt_compare password_ hashedPassword.

Definition UserService_deleteUser (userId : ObjectId) : M bool :=
  result ← gets (fun db => findById userId (users db));
  update_users (findByIdAndDelete userId);;
  mret (bool_decide (is_Some result)).

Record UserStats := {
  us_total : nat;
  us_admins : nat;
  us_employers : nat;
  us_candidates : nat;
  us_banned : nat
}.

Definition UserService_getUserStats : M UserStats :=
  gets (fun db =>
    {| us_total := countDocuments (fun _ => true) (users db);
       us_admins := countDocuments (fun u => bool_decide (role u = admin)) (users db);
       us_employers := countDocuments (fun u => bool_decide (role u = employer)) (users db);
       us_candidates := countDocuments (fun u => bool_decide (role u = candidate)) (users db);
       us_banned := countDocuments (fun u => bool_decide (isBanned u = true)) (users db) |}).

(** ** [services/applicationService.ts] *)

Definition ApplicationService_checkExistingApplication (jobId_ candidateId_ : ObjectId)
  : M bool :=
  existing ← gets (fun db =>
    findOne (fun a => bool_decide (jobId a = jobId_)
                      && bool_decide (candidateId a = candidateId_))
      (applications db));
  mret (bool_decide (is_Some existing)).

Definition ApplicationService_deleteApplication (applicationId : ObjectId) : M bool :=
  result ← gets (fun db => findById applicationId (applications db));
  update_applications (findByIdAndDelete applicationId);;
  mret (bool_decide (is_Some result)).

Definition ApplicationService_getApplicationsByJob (jobId_ : ObjectId)
  : M (list (ObjectId * Application * option (ObjectId * string))) :=
  gets (fun db =>
    (fun kv => (kv, (fun u => (candidateId kv.2, email u)) <$> users db !! candidateId kv.2))
      <$> sort_desc (fun kv => appliedAt kv.2)
            (find (fun a => bool_decide (jobId a = jobId_)) (applications db))).

Definition ApplicationService_getApplicationsByEmployer (employerId : ObjectId)
  : M (list PopulatedApplication) :=
  (* First get all jobs created by the employer *)
  employerJobs ← gets (fun db =>
    find (fun j => bool_decide (createdBy j = employerId)) (jobs db));
  let jobIds := fst <$> employerJobs in
  gets (fun db =>
    populate_application db <$>
      sort_desc (fun kv => appliedAt kv.2)
        (find (fun a => bool_decide (jobId a ∈ jobIds)) (applications db))).

(** ** [services/jobService.ts] *)

Definition JobService_getJobsByEmployer (employerId : ObjectId)
  : M (list (ObjectId * Job)) :=
  gets (fun db =>
    sort_desc (fun kv => j_createdAt kv.2)
      (find (fun j => bool_decide (createdBy j = employerId)) (jobs db))).

Definition JobService_updateJob (now : Date) (jobId_ : ObjectId) (updates : JobUpdates)
  : M (option Job) :=
  Job_findByIdAndUpdate now jobId_ updates.

(** ** [utils/handshake.ts]: the other start-up helpers *)

(** What [handshakeWithCustomAdmin] throws: its own [Error]s, or what the
    save threw. *)
Inductive HandshakeError :=
  | PlainError (message : string)
  | Rethrown (e : Exception).

(** [handshakeWithCustomAdmin]; the pattern and [password.length] are
    those of JavaScript on ASCII text. *)
Definition handshakeWithCustomAdmin (now : Date) (email_ password_ : string) (db : Db)
  : (unit + HandshakeError) * Db :=
  (* Check if any admin user exists *)
  if bool_decide (is_Some (findOne (fun u => bool_decide (role u = admin)) (users db)))
  then (inl tt, db)
  (* Validate email format *)
  else if negb (emailRegex_test email_)
  then (inr (PlainError "Invalid email format provided"), db)
  (* Validate password strength *)
  else if bool_decide (String.length password_ < 8)%nat
  then (inr (PlainError "Password must be at least 8 characters long"), db)
  else
    let hashedPassword := bcrypt_hash password_ in
    match User_save now {| f_email := email_; f_password := hashedPassword;
                           f_role := "admin"; f_isBanned := Some false |} db with
    | (Ok _, db') => (inl tt, db')
    | (Err e, db') => (inr (Rethrown e), db')
    end.

Definition checkAdminExists (db : Db) : bool :=
  bool_decide (is_Some (findOne (fun u => bool_decide (role u = admin)) (users db))).

Definition getAdminCount (db : Db) : nat :=
  countDocuments (fun u => bool_decide (role u = admin)) (users db).

(** ** The socket middleware ([sockets/socketHandlers.ts]) *)

(** [io.use(...)]: [Some user] when it calls [next()] with [socket.user]
    set, [None] when it calls [next(new Error("Authentication error"))]. *)
Definition socket_authenticate (env : Env) (now : Date) (token : option Token) (db : Db)
  : option IUser :=
  match token with
  | None => None
  | Some token =>
      match jwt_verify token (JWT_SECRET env) now with
      | Ok userId =>
          match findById userId (users db) with
          | Some u => if isBanned u then None else Some {| _id := userId; doc := u |}
          | None => None
          end
      | Err _ => None
      end
  end.

(** ** [middlewares/errorHandler.ts] *)

(** The value of [err.errors]: the array of a [ValidationError] of
    [utils/errors.ts], or an object from path to message. *)
Inductive ErrorsField :=
  | ErrorsArray (l : list string)
  | ErrorsObject (l : list (string * string)).

Inductive Code :=
  | CodeNumber (n : Z)
  | CodeString (s : string).

#[global] Instance Code_eq_dec : EqDecision Code.
Proof. solve_decision. Defined.

(** The properties of a thrown value that [errorHandler] reads; [None] is
    [undefined]. *)
Record JsError := {
  e_constructor : string;
  e_name : string;
  e_message : string;
  e_statusCode : option Z;
  e_errors : option ErrorsField;
  e_code : option Code;
  e_keyValue : option (list string);
  e_type : option string;
  e_stack : option string
}.

(** [new AppError(message, statusCode, isOperational, code)] made through
    the class named [cls]: [this.name = this.constructor.name]. *)
Definition AppError_new (cls message : string) (statusCode_ : Z) (code : option string)
    (stack : option string) : JsError :=
  {| e_constructor := cls; e_name := cls; e_message := message;
     e_statusCode := Some statusCode_; e_errors := None;
     e_code := CodeString <$> code; e_keyValue := None; e_type := None;
     e_stack := stack |}.

Definition ValidationError_new (message : string) (errors : list string)
    (stack : option string) : JsError :=
  {| e_constructor := "ValidationError"; e_name := "ValidationError";
     e_message := message; e_statusCode := Some 400;
     e_errors := Some (ErrorsArray errors); e_code := None; e_keyValue := None;
     e_type := None; e_stack := stack |}.

Definition AuthenticationError_new (message : string) := AppError_new "AuthenticationError" message 401 None.
Definition AuthorizationError_new (message : string) := AppError_new "AuthorizationError" message 403 None.
Definition NotFoundError_new (message : string) := AppError_new "NotFoundError" message 404 None.
Definition ConflictError_new (message : string) := AppError_new "ConflictError" message 409 None.
Definition DatabaseError_new (message : string) := AppError_new "DatabaseError" message 500 None.
Definition ExternalServiceError_new (message : string) := AppError_new "ExternalServiceError" message 502 None.

Record ErrorResponse := {
  er_status : Z;
  er_message : string;
  er_errors : option (list string);
  er_code : option Code;
  er_stack : option string
}.

Definition truthy_number (o : option Z) : bool :=
  match o with Some n => negb (bool_decide (n = 0)) | None => false end.

Definition truthy_code (o : option Code) : bool :=
  match o with
  | Some (CodeNumber n) => negb (bool_decide (n = 0))
  | Some (CodeString s) => negb (bool_decide (s = ""))
  | None => false
  end.

(** The branch [errorHandler] takes: status, message, errors and code, or
    [None] where evaluating the branch throws a [TypeError]
    ([Object.values] or [Object.keys] of [undefined]). *)
Definition classify (err : JsError)
  : option (Z * string * option ErrorsField * option Code) :=
  if bool_decide (e_constructor err = "ValidationError")
     && bool_decide (is_Some (e_errors err))
  then Some (400, e_message err, e_errors err, None)
  else if bool_decide (e_constructor err = "AppError") || truthy_number (e_statusCode err)
  then Some (if truthy_number (e_statusCode err) then default 500 (e_statusCode err) else 500,
             e_message err, None, e_code err)
  else if bool_decide (e_name err = "ValidationError")
          && negb (bool_decide (is_Some (e_errors err)))
  then None
  else if bool_decide (e_code err = Some (CodeNumber 11000))
  then match e_keyValue err with
       | Some keys => Some (409, default "undefined" (head keys) +:+ " already exists",
                            None, Some (CodeString "DUPLICATE_FIELD"))
       | None => None
       end
  else if bool_decide (e_name err = "CastError")
  then Some (400, "Invalid ID format", None, Some (CodeString "INVALID_ID"))
  else if bool_decide (e_name err = "JsonWebTokenError")
  then Some (401, "Invalid token", None, Some (CodeString "INVALID_TOKEN"))
  else if bool_decide (e_name err = "TokenExpiredError")
  then Some (401, "Token expired", None, Some (CodeString "TOKEN_EXPIRED"))
  else if bool_decide (e_name err = "MongooseError") || bool_decide (e_name err = "MongoError")
  then Some (500, "Database operation failed", None, Some (CodeString "DATABASE_ERROR"))
  else if bool_decide (e_type err = Some "entity.parse.failed")
  then Some (400, "Invalid JSON format", None, Some (CodeString "INVALID_JSON"))
  else if bool_decide (e_code err = Some (CodeString "LIMIT_FILE_SIZE"))
  then Some (413, "File too large", None, Some (CodeString "FILE_TOO_LARGE"))
  else if bool_decide (e_code err = Some (CodeString "ECONNREFUSED"))
  then Some (503, "Service temporarily unavailable", None,
             Some (CodeString "SERVICE_UNAVAILABLE"))
  else Some (500, "Internal Server Error", None, None).

(** [errorHandler]; [development] is [process.env.NODE_ENV === "development"].
    [errors] is listed when [errors.length > 0], which an object never is. *)
Definition errorHandler (development : bool) (err : JsError) : option ErrorResponse :=
  '(statusCode_, message, errors, code) ← classify err;
  Some {| er_status := statusCode_; er_message := message;
          er_errors := match errors with
                       | Some (ErrorsArray l) =>
                           if bool_decide (0 < length l)%nat then Some l else None
                       | _ => None
                       end;
          er_code := if truthy_code code then code else None;
          er_stack := if development then e_stack err else None |}.

(** The object a handler's exception is, for the classes of
    [utils/errors.ts]. *)
Definition thrown_object (e : Exception) (stack : option string) : option JsError :=
  match e with
  | ValidationError m es => Some (ValidationError_new m es stack)
  | AuthenticationError m => Some (AuthenticationError_new m stack)
  | AuthorizationError m => Some (AuthorizationError_new m stack)
  | NotFoundError m => Some (NotFoundError_new m stack)
  | ConflictError m => Some (ConflictError_new m stack)
  | GenericError m =>
      Some {| e_constructor := "Error"; e_name := "Error"; e_message := m;
              e_statusCode := None; e_errors := None; e_code := None;
              e_keyValue := None; e_type := None; e_stack := stack |}
  | _ => None
  end.

(** ** Helpers ([utils/helpers.ts]) *)






Definition validateEmail (email_ : string) : bool := emailRegex_test email_.

(** *** [generateSlug] on ASCII text *)

(** [\w] *)
Definition is_word (a : ascii) : bool :=
  let n := nat_of_ascii a in
  bool_decide (48 <= n <= 57)%nat || bool_decide (65 <= n <= 90)%nat
  || bool_decide (97 <= n <= 122)%nat || bool_decide (n = 95)%nat.

Definition is_hyphen (a : ascii) : bool := bool_decide (a = "-"%char).

(** The class [[\s_-]]. *)
Definition is_separator (a : ascii) : bool :=
  is_space a || bool_decide (a = "_"%char) || is_hyphen a.

(** [.replace(/[\s_-]+/g, "-")]: every maximal run of separators becomes
    one hyphen. *)
Fixpoint collapse_separators (l : list ascii) : list ascii :=
  match l with
  | [] => []
  | a :: l' =>
      if is_separator a then
        match l' with
        | b :: _ => if is_separator b then collapse_separators l'
                    else "-"%char :: collapse_separators l'
        | [] => ["-"%char]
        end
      else a :: collapse_separators l'
  end.

(** [/^-+/]: the leading hyphens. *)
Fixpoint drop_hyphens (l : list ascii) : list ascii :=
  match l with
  | a :: l' => if is_hyphen a then drop_hyphens l' else l
  | [] => []
  end.

(** [.replace(/^-+|-+$/g, "")] *)
Definition trim_hyphens (l : list ascii) : list ascii :=
  rev (drop_hyphens (rev (drop_hyphens l))).

Definition generateSlug_chars (l : list ascii) : list ascii :=
  trim_hyphens
    (collapse_separators
       (List.filter (fun a => is_word a || is_space a || is_hyphen a)
          (map lower_ascii l))).

Definition generateSlug (text : string) : string :=
  String.string_of_list_ascii (generateSlug_chars (String.list_ascii_of_string text)).

(** Text the character classes above are exact for. *)
Definition is_ascii_text (l : list ascii) : bool :=
  forallb (fun a => bool_decide (nat_of_ascii a < 128)%nat) l.

Definition is_ascii (s : string) : bool :=
  is_ascii_text (String.list_ascii_of_string s).

(** A field of a body that is absent or ASCII text. *)
Definition ascii_or_absent (o : option string) : bool :=
  match o with
  | Some s => is_ascii s
  | None => true
  end.

(** Text without a NUL byte: the passwords whose bcrypt key is their first
    72 bytes. *)
Definition no_nul (s : string) : bool :=
  forallb (fun a => negb (bool_decide (nat_of_ascii a = 0)%nat))
    (String.list_ascii_of_string s).

(** [[a-z0-9-]] *)
Definition is_slug_char (a : ascii) : bool :=
  let n := nat_of_ascii a in
  bool_decide (48 <= n <= 57)%nat || bool_decide (97 <= n <= 122)%nat || is_hyphen a.

Definition hyphen_first (l : list ascii) : bool :=
  match l with
  | a :: _ => is_hyphen a
  | [] => false
  end.

Fixpoint no_double_hyphen (l : list ascii) : bool :=
  match l with
  | a :: l' =>
      match l' with
      | b :: _ => negb (is_hyphen a && is_hyphen b)
      | [] => true
      end && no_double_hyphen l'
  | [] => true
  end.

(** Lower-case letters, digits and single hyphens, no hyphen at either
    end. *)
Definition is_slug (l : list ascii) : bool :=
  forallb is_slug_char l && negb (hyphen_first l) && negb (hyphen_first (rev l))
  && no_double_hyphen l.

(** ** The routes ([routes/*.ts]) *)

(** A request, by route; [auth] is the bearer token of the request. *)
Inductive Request :=
  | POST_auth_register (b : RegistrationBody)
  | POST_auth_login (email_ password_ : string)
  | GET_auth_profile (auth : option Token)
  | GET_jobs (q : JobQuery)
  | GET_jobs_my (auth : option Token)
  | GET_jobs_id (id : ObjectId)
  | POST_jobs (auth : option Token) (b : JobBody)
  | PUT_jobs_id (auth : option Token) (id : ObjectId) (updates : JobUpdates)
  | DELETE_jobs_id (auth : option Token) (id : ObjectId)
  | POST_applications_apply (auth : option Token) (b : ApplicationBody)
  | GET_applications_my (auth : option Token)
  | GET_applications_job (auth : option Token) (jobId_ : ObjectId)
  | GET_applications (auth : option Token) (q : AdminQuery)
  | DELETE_applications_id (auth : option Token) (id : ObjectId)
  | GET_admin_users (auth : option Token) (q : AdminQuery)
  | GET_admin_applications (auth : option Token) (q : AdminQuery)
  | GET_admin_jobs (auth : option Token) (q : AdminQuery)
  | PUT_admin_ban (auth : option Token) (userId : ObjectId)
  | PUT_admin_unban (auth : option Token) (userId : ObjectId)
  | DELETE_admin_users (auth : option Token) (userId : ObjectId)
  | GET_admin_stats (auth : option Token).

(** Keep the outcome of a handler, drop its payload. *)
Definition void {A} (m : M A) : M unit := m ≫= fun _ => mret tt.

(** [authenticate, authorize(...roles), handler] *)
Definition gated {A} (env : Env) (now : Date) (auth : option Token) (roles : list Role)
    (handler : IUser -> M A) : M A :=
  user ← authenticate env now auth;
  authorize roles (Some user);;
  handler user.

Section Routes.
(** The regular expressions of the store and the calendar of the host. *)
Variable regex_i : string -> string -> bool.
Variable seven_days_before : Date -> Date.

Definition serve (env : Env) (now : Date) (req : Request) : M unit :=
  match req with
  | POST_auth_register b => void (route_register env now b)
  | POST_auth_login e p => void (login env now (e, p))
  | GET_auth_profile auth => void (route_getProfile env now auth)
  | GET_jobs q => void (getAllJobs regex_i q)
  | GET_jobs_my auth =>
      void (gated env now auth [employer; admin] (fun u => getMyJobs (Some u)))
  | GET_jobs_id id => void (getJobById id)
  | POST_jobs auth b =>
      void (gated env now auth [employer; admin] (fun u =>
              validateJobCreation b;; createJob now (Some u) b))
  | PUT_jobs_id auth id updates =>
      void (gated env now auth [employer; admin] (fun u => updateJob now (Some u) id updates))
  | DELETE_jobs_id auth id =>
      void (gated env now auth [employer; admin] (fun u => deleteJob (Some u) id))
  | POST_applications_apply auth b =>
      void (gated env now auth [candidate] (fun u =>
              validateApplication b;; applyForJob now (Some u) b))
  | GET_applications_my auth =>
      void (gated env now auth [candidate] (fun u => getMyApplications (Some u)))
  | GET_applications_job auth jobId_ =>
      void (route_getJobApplications env now auth jobId_)
  | GET_applications auth q =>
      void (gated env now auth [admin] (fun u => getAllApplications (Some u) q))
  | DELETE_applications_id auth id =>
      void (user ← authenticate env now auth; deleteApplication (Some user) id)
  | GET_admin_users auth q =>
      void (gated env now auth [admin] (fun u => getAllUsers (Some u) q))
  | GET_admin_applications auth q =>
      void (gated env now auth [admin] (fun u => admin_getAllApplications (Some u) q))
  | GET_admin_jobs auth q =>
      void (gated env now auth [admin] (fun u => admin_getAllJobs (Some u) q))
  | PUT_admin_ban auth userId =>
      void (gated env now auth [admin] (fun u => banUser now (Some u) userId))
  | PUT_admin_unban auth userId =>
      void (gated env now auth [admin] (fun u => unbanUser now (Some u) userId))
  | DELETE_admin_users auth userId =>
      void (gated env now auth [admin] (fun u => deleteUser (Some u) userId))
  | GET_admin_stats auth =>
      void (gated env now auth [admin] (fun u =>
              getDashboardStats (seven_days_before now) (Some u)))
  end.

(** The store after the given timed requests, served one after the other. *)
Fixpoint serve_all (env : Env) (reqs : list (Date * Request)) (db : Db) : Db :=
  match reqs with
  | [] => db
  | (now, req) :: reqs' => serve_all env reqs' (serve env now req db).2
  end.
End Routes.

(** ** Vocabulary of the further properties *)

(** No two stored users have the same email, letter for letter. *)
Definition emails_unique (db : Db) : Prop :=
  forall i j u v, users db !! i = Some u -> users db !! j = Some v ->
    email u = email v -> i = j.

(** No two stored applications have the same job and candidate. *)
Definition pairs_unique (db : Db) : Prop :=
  forall i j a b, applications db !! i = Some a -> applications db !! j = Some b ->
    jobId a = jobId b -> candidateId a = candidateId b -> i = j.

(** Every application names a stored job and a stored candidate. *)
Definition references_intact (db : Db) : Prop :=
  forall i a, applications db !! i = Some a ->
    is_Some (jobs db !! jobId a)
    /\ (role <$> users db !! candidateId a) = Some candidate.

(** The store [deleteUser] leaves for a target that is no admin. *)
Definition after_deleteUser (userId : ObjectId) (target : User) (db : Db) : Db :=
  let db1 :=
    if bool_decide (role target = employer) then
      set_jobs (deleteMany (fun j => bool_decide (createdBy j = userId)) (jobs db))
        (set_applications
           (deleteMany
              (fun a => bool_decide
                 (jobId a ∈ (find (fun j => bool_decide (createdBy j = userId)) (jobs db)).*1))
              (applications db)) db)
    else db in
  let db2 :=
    if bool_decide (role target = candidate) then
      set_applications
        (deleteMany (fun a => bool_decide (candidateId a = userId)) (applications db1)) db1
    else db1 in
  set_users (delete userId (users db2)) db2.

(** The bearer token of a request; the public routes read none. *)
Definition request_auth (req : Request) : option Token :=
  match req with
  | POST_auth_register _ | POST_auth_login _ _ | GET_jobs _ | GET_jobs_id _ => None
  | GET_auth_profile auth | GET_jobs_my auth | POST_jobs auth _ | PUT_jobs_id auth _ _
  | DELETE_jobs_id auth _ | POST_applications_apply auth _ | GET_applications_my auth
  | GET_applications_job auth _ | GET_applications auth _ | DELETE_applications_id auth _
  | GET_admin_users auth _ | GET_admin_applications auth _ | GET_admin_jobs auth _
  | PUT_admin_ban auth _ | PUT_admin_unban auth _ | DELETE_admin_users auth _
  | GET_admin_stats auth => auth
  end.

(** Who a writing request must come from. *)
Definition authority (db : Db) (u : IUser) (req : Request) : Prop :=
  match req with
  | POST_jobs _ _ => role (doc u) <> candidate
  | PUT_jobs_id _ id _ | DELETE_jobs_id _ id =>
      role (doc u) <> candidate
      /\ exists job, jobs db !! id = Some job /\ owns_or_admin u job
  | POST_applications_apply _ _ => role (doc u) = candidate
  | DELETE_applications_id _ id =>
      exists a, applications db !! id = Some a
                /\ (candidateId a = _id u \/ role (doc u) = admin)
  | PUT_admin_ban _ _ | PUT_admin_unban _ _ | DELETE_admin_users _ _ =>
      role (doc u) = admin
  | _ => False
  end.

(** What one request can do to the store. *)
Inductive Effect (db : Db) : Db -> Prop :=
  | E_none : Effect db db
  | E_user_saved id u :
      users db !! id = None ->
      (forall i d, users db !! i = Some d -> email d <> email u) ->
      Effect db (set_users (<[id := u]> (users db)) db)
  | E_user_flagged id target now b :
      users db !! id = Some target ->
      Effect db (set_users (<[id := set_isBanned now b target]> (users db)) db)
  | E_user_deleted id target :
      users db !! id = Some target -> role target <> admin ->
      Effect db (after_deleteUser id target db)
  | E_job_saved id j :
      jobs db !! id = None ->
      Effect db (set_jobs (<[id := j]> (jobs db)) db)
  | E_job_updated id j j' :
      jobs db !! id = Some j ->
      Effect db (set_jobs (<[id := j']> (jobs db)) db)
  | E_job_deleted id :
      Effect db {| users := users db; jobs := delete id (jobs db);
                   applications :=
                     deleteMany (fun a => bool_decide (jobId a = id)) (applications db) |}
  | E_applied id a :
      applications db !! id = None ->
      is_Some (jobs db !! jobId a) ->
      (role <$> users db !! candidateId a) = Some candidate ->
      ~ already_applied db (jobId a) (candidateId a) ->
      Effect db (set_applications (<[id := a]> (applications db)) db)
  | E_application_deleted id :
      Effect db (set_applications (delete id (applications db)) db).

(** Some requests, in order: a registration, the same registration again,
    an application of candidate 4 for job 12, the same application again,
    the deletion of job 10 by its owner, the deletion of employer 3 by the
    admin. *)
Definition token_of (uid : ObjectId) : option Token :=
  Some (Signed {| jwt_userId := uid; jwt_secret := "s3cret"; jwt_exp := 1000000 |}).

Definition sample_requests : list (Date * Request) :=
  [ (1000, POST_auth_register {| b_email := Some "n@x.com"; b_password := Some "secret1";
                                 b_role := Some "candidate" |});
    (2000, POST_auth_register {| b_email := Some "n@x.com"; b_password := Some "secret2";
                                 b_role := Some "employer" |});
    (3000, POST_applications_apply (token_of 4)
             {| b_jobId := Some 12%nat; b_coverLetter := Some "Dear team";
                b_resume := Some "cv.pdf" |});
    (4000, POST_applications_apply (token_of 4)
             {| b_jobId := Some 12%nat; b_coverLetter := Some "Dear team";
                b_resume := Some "cv.pdf" |});
    (5000, DELETE_jobs_id (token_of 2) 10%nat);
    (6000, DELETE_admin_users (token_of 1) 3%nat) ].

(** * Properties *)

(** ** Validation of emails *)

Example emailRegex_examples :
  emailRegex_test "A@x.com" = true /\ emailRegex_test "a@x" = false
  /\ emailRegex_test "a b@x.com" = false /\ emailRegex_test "a@x.com." = true
  /\ emailRegex_test "a@.com" = false /\ emailRegex_test "a@@x.com" = false
  /\ emailRegex_test "a@b.c.d" = true.
Proof. vm_compute. repeat split. Qed.

(** ** The collection operations *)

Section CollectionFacts.
Context {D : Type}.
Implicit Types (c : gmap ObjectId D) (q : D -> bool).

Lemma select_lookup q c id d :
  select q c !! id = Some d <-> c !! id = Some d /\ q d = true.
Proof. unfold select. by rewrite map_lookup_filter_Some. Qed.

Lemma deleteMany_lookup q c id d :
  deleteMany q c !! id = Some d <-> c !! id = Some d /\ q d = false.
Proof.
  unfold deleteMany. rewrite map_lookup_filter_Some. simpl.
  by rewrite not_true_iff_false.
Qed.

Lemma find_elem q c id d :
  (id, d) ∈ find q c <-> c !! id = Some d /\ q d = true.
Proof. unfold find. by rewrite elem_of_map_to_list, select_lookup. Qed.

Lemma findOne_None q c :
  findOne q c = None <-> forall id d, c !! id = Some d -> q d = false.
Proof.
  unfold findOne. rewrite head_None. split.
  - intros Hnil id d Hd. apply not_true_is_false. intros Hq.
    assert (Hin : (id, d) ∈ find q c) by by apply find_elem.
    rewrite Hnil in Hin. by apply elem_of_nil in Hin.
  - intros Hall. destruct (find q c) as [|[id d] l] eqn:E; [done|].
    assert (Hin : (id, d) ∈ find q c) by (rewrite E; left).
    apply find_elem in Hin as [Hd Hq]. rewrite (Hall _ _ Hd) in Hq. done.
Qed.

Lemma findOne_Some q c id d :
  findOne q c = Some (id, d) -> c !! id = Some d /\ q d = true.
Proof.
  unfold findOne. intros Hh. apply find_elem.
  destruct (find q c) as [|x l]; simplify_eq/=. left.
Qed.

Lemma findOne_is_Some q c :
  is_Some (findOne q c) <-> exists id d, c !! id = Some d /\ q d = true.
Proof.
  split.
  - intros [[id d] H]. exists id, d. by apply findOne_Some.
  - intros (id & d & Hd & Hq). apply not_eq_None_Some. intros Hn.
    rewrite findOne_None in Hn. rewrite (Hn _ _ Hd) in Hq. done.
Qed.

Lemma fresh_lookup c : c !! fresh (dom c) = None.
Proof. apply not_elem_of_dom. apply is_fresh. Qed.

(** Without a unique index that the document violates, an insertion
    stores the document under an unused [_id]. *)
Lemma insertOne_ok ixs d c :
  first_violation ixs d c = None ->
  insertOne ixs d c = (Ok (fresh (dom c)), <[fresh (dom c) := d]> c).
Proof. unfold insertOne. by intros ->. Qed.

Lemma insertOne_duplicate ixs d c ix :
  first_violation ixs d c = Some ix ->
  insertOne ixs d c = (Err (MongoDuplicateKey (idx_name ix)), c).
Proof. unfold insertOne. by intros ->. Qed.
End CollectionFacts.

(** Unfold the store-passing plumbing of a handler. *)
Ltac run :=
  unfold throw_if, throw, gets, lift, res_json, try_catch,
    update_users, update_jobs, update_applications,
    mbind, M_bind, mret, M_ret; simpl.

(** ** Ownership gate of job update and job deletion *)

Lemma ownership_guard (u : IUser) (job : Job) :
  negb (bool_decide (Some (createdBy job) = user_id (Some u)))
  && negb (bool_decide (user_role (Some u) = Some admin)) = false
  <-> owns_or_admin u job.
Proof.
  unfold owns_or_admin, user_id, user_role. simpl.
  rewrite andb_false_iff, !negb_false_iff, !bool_decide_eq_true.
  unfold compose. split; intros [H|H]; simplify_eq/=; auto.
  right. by f_equal.
Qed.

Lemma updateJob_authorized now u id updates job db :
  jobs db !! id = Some job -> owns_or_admin u job ->
  updateJob now (Some u) id updates db =
    (Ok {| status := 200; json := Some (apply_updates now updates job) |},
     set_jobs (<[id := apply_updates now updates job]> (jobs db)) db).
Proof.
  intros Hj Hown. apply ownership_guard in Hown. simpl in Hown.
  unfold updateJob, Job_findByIdAndUpdate, findById. run.
  rewrite Hj. simpl. rewrite Hown. simpl. by rewrite Hj.
Qed.

Lemma updateJob_refused now u id updates job db :
  jobs db !! id = Some job -> ~ owns_or_admin u job ->
  updateJob now (Some u) id updates db =
    (Err (AuthorizationError "Not authorized to update this job"), db).
Proof.
  intros Hj Hown. rewrite <- ownership_guard in Hown. apply not_false_is_true in Hown.
  simpl in Hown.
  unfold updateJob, findById. run. rewrite Hj. simpl. by rewrite Hown.
Qed.

Lemma deleteJob_authorized u id job db :
  jobs db !! id = Some job -> owns_or_admin u job ->
  deleteJob (Some u) id db =
    (Ok {| status := 200; json := "Job deleted successfully" |},
     {| users := users db;
        jobs := delete id (jobs db);
        applications :=
          deleteMany (fun a => bool_decide (jobId a = id)) (applications db) |}).
Proof.
  intros Hj Hown. apply ownership_guard in Hown. simpl in Hown.
  unfold deleteJob, findById, findByIdAndDelete. run.
  rewrite Hj. simpl. by rewrite Hown.
Qed.

Lemma deleteJob_refused u id job db :
  jobs db !! id = Some job -> ~ owns_or_admin u job ->
  deleteJob (Some u) id db =
    (Err (AuthorizationError "Not authorized to delete this job"), db).
Proof.
  intros Hj Hown. rewrite <- ownership_guard in Hown. apply not_false_is_true in Hown.
  simpl in Hown.
  unfold deleteJob, findById. run. rewrite Hj. simpl. by rewrite Hown.
Qed.

(** For the principals the role gate of the two routes admits, the route
    is the handler. *)
Lemma job_routes_gate_passed now (u : IUser) id updates db :
  role (doc u) = employer \/ role (doc u) = admin ->
  route_updateJob now u id updates db = updateJob now (Some u) id updates db
  /\ route_deleteJob u id db = deleteJob (Some u) id db.
Proof.
  intros Hr. unfold route_updateJob, route_deleteJob, authorize.
  unfold throw_if, mbind, M_bind, mret, M_ret.
  rewrite bool_decide_eq_true_2; [done|].
  rewrite !elem_of_cons. tauto.
Qed.

(** C5, as the code has it. The handlers alone let through exactly the
    admins and the principal the job's [createdBy] names. On the routes the
    role gate comes first, so for every authenticated principal and every
    existing job, update and deletion succeed exactly for an admin and for
    the employer that created the job, with the job updated (or the job
    and its applications deleted) and nothing else touched; every other
    principal, a candidate that [createdBy] names included, gets
    AuthorizationError and the store is unchanged. *)
Theorem C5_ownership_gate now (u : IUser) id updates job db :
  jobs db !! id = Some job ->
  (is_ok (updateJob now (Some u) id updates db).1 <-> owns_or_admin u job)
  /\ (is_ok (deleteJob (Some u) id db).1 <-> owns_or_admin u job)
  /\ (is_ok (route_updateJob now u id updates db).1 <-> may_change_job u job)
  /\ (is_ok (route_deleteJob u id db).1 <-> may_change_job u job)
  /\ (may_change_job u job ->
      route_updateJob now u id updates db
      = (Ok {| status := 200; json := Some (apply_updates now updates job) |},
         set_jobs (<[id := apply_updates now updates job]> (jobs db)) db)
      /\ route_deleteJob u id db
         = (Ok {| status := 200; json := "Job deleted successfully" |},
            {| users := users db;
               jobs := delete id (jobs db);
               applications :=
                 deleteMany (fun a => bool_decide (jobId a = id)) (applications db) |}))
  /\ (~ may_change_job u job ->
      (exists m, route_updateJob now u id updates db = (Err (AuthorizationError m), db))
      /\ (exists m, route_deleteJob u id db = (Err (AuthorizationError m), db))).
Proof.
  intros Hj.
  assert (Hdec : owns_or_admin u job \/ ~ owns_or_admin u job).
  { unfold owns_or_admin.
    destruct (decide (role (doc u) = admin)), (decide (_id u = createdBy job)); tauto. }
  assert (Hhandlers :
    (is_ok (updateJob now (Some u) id updates db).1 <-> owns_or_admin u job)
    /\ (is_ok (deleteJob (Some u) id db).1 <-> owns_or_admin u job)).
  { destruct Hdec as [Hown|Hown].
    - rewrite (updateJob_authorized now u id updates job db Hj Hown),
        (deleteJob_authorized u id job db Hj Hown). simpl. tauto.
    - rewrite (updateJob_refused now u id updates job db Hj Hown),
        (deleteJob_refused u id job db Hj Hown). simpl. tauto. }
  destruct Hhandlers as [Hup Hdel]. split; [exact Hup|]. split; [exact Hdel|].
  destruct (decide (role (doc u) = candidate)) as [Hc|Hc].
  - assert (Hno : ~ may_change_job u job).
    { unfold may_change_job. rewrite Hc. intros [?|[? _]]; discriminate. }
    assert (Hgate : forall A (h : M A),
              (authorize [employer; admin] (Some u);; h) db
              = (Err (AuthorizationError "Insufficient permissions."), db)).
    { intros A h. unfold authorize, throw_if, throw, mbind, M_bind, mret, M_ret.
      rewrite Hc. reflexivity. }
    unfold route_updateJob, route_deleteJob. rewrite !Hgate. simpl.
    repeat split; try tauto; eauto.
  - assert (Hr : role (doc u) = employer \/ role (doc u) = admin)
      by (destruct (role (doc u)); tauto).
    destruct (job_routes_gate_passed now u id updates db Hr) as [-> ->].
    assert (Hsame : may_change_job u job <-> owns_or_admin u job).
    { unfold may_change_job, owns_or_admin. destruct Hr as [Hr|Hr]; rewrite Hr; split.
      - intros [?|[_ ?]]; [discriminate|by right].
      - intros [?|?]; [discriminate|by right].
      - by left.
      - by left. }
    rewrite !Hsame. split; [exact Hup|]. split; [exact Hdel|]. split.
    + intros Hown. by rewrite (updateJob_authorized now u id updates job db Hj Hown),
        (deleteJob_authorized u id job db Hj Hown).
    + intros Hown. rewrite (updateJob_refused now u id updates job db Hj Hown),
        (deleteJob_refused u id job db Hj Hown). eauto.
Qed.

Lemma C5_ownership_gate_witness :
  jobs sample_db !! 10%nat = Some (sample_job "Backend Engineer" 2%nat Active 100)
  /\ (is_ok (route_updateJob 700 {| _id := 3%nat; doc := sample_user "f@x.com" employer false |}
               10%nat no_updates sample_db).1
      <-> may_change_job {| _id := 3%nat; doc := sample_user "f@x.com" employer false |}
            (sample_job "Backend Engineer" 2%nat Active 100)).
Proof.
  split; [reflexivity|].
  apply (C5_ownership_gate 700 {| _id := 3%nat; doc := sample_user "f@x.com" employer false |}
           10%nat no_updates (sample_job "Backend Engineer" 2%nat Active 100) sample_db).
  reflexivity.
Defined.

(** C5 as stated fails for a candidate. Employer 2 updates its job 10 with
    candidate 4 as [createdBy]; the update succeeds. From then on the id of
    candidate 4 equals the job's [createdBy], yet its update and its
    deletion of the job are both refused with AuthorizationError by the
    role gate of the routes. *)
Lemma C5_counterexample :
  let e := {| _id := 2%nat; doc := sample_user "e@x.com" employer false |} in
  let c := {| _id := 4%nat; doc := sample_user "c@x.com" candidate false |} in
  is_ok (route_updateJob 700 e 10%nat (hand_over 4%nat) sample_db).1
  /\ (createdBy <$> jobs handed_over_db !! 10%nat) = Some (_id c)
  /\ authenticate bootstrap_env 800
       (Some (Signed {| jwt_userId := 4%nat; jwt_secret := "s3cret"; jwt_exp := 1000000 |}))
       handed_over_db
     = (Ok c, handed_over_db)
  /\ route_updateJob 800 c 10%nat no_updates handed_over_db
     = (Err (AuthorizationError "Insufficient permissions."), handed_over_db)
  /\ route_deleteJob c 10%nat handed_over_db
     = (Err (AuthorizationError "Insufficient permissions."), handed_over_db)
  /\ ~ is_ok (route_updateJob 800 c 10%nat no_updates handed_over_db).1
  /\ ~ is_ok (route_deleteJob c 10%nat handed_over_db).1.
Proof.
  intros e c. split; [exact I|]. split; [vm_compute; reflexivity|].
  split; [vm_compute; reflexivity|].
  split; [reflexivity|]. split; [reflexivity|].
  split; intros H; exact H.
Qed.

(** ** Cascade deletion *)

Lemma deleteUser_employer u userId target db :
  role (doc u) = admin ->
  users db !! userId = Some target -> role target = employer ->
  deleteUser (Some u) userId db =
    (Ok {| status := 200; json := "User and associated data deleted successfully" |},
     {| users := delete userId (users db);
        jobs := deleteMany (fun j => bool_decide (createdBy j = userId)) (jobs db);
        applications :=
          deleteMany
            (fun a => bool_decide
               (jobId a ∈ (find (fun j => bool_decide (createdBy j = userId)) (jobs db)).*1))
            (applications db) |}).
Proof.
  intros Hadm Ht Hr. unfold deleteUser, findById, findByIdAndDelete. run.
  unfold compose. rewrite Hadm. simpl. rewrite Ht. simpl. rewrite Hr. simpl. done.
Qed.

Lemma deleteUser_ok_inv user userId db r db' :
  deleteUser user userId db = (Ok r, db') ->
  exists u target, user = Some u /\ role (doc u) = admin
    /\ users db !! userId = Some target /\ role target <> admin.
Proof.
  unfold deleteUser, findById. run. unfold compose.
  destruct user as [u|]; simpl; [|done].
  destruct (decide (role (doc u) = admin)) as [Ha|Ha].
  2:{ rewrite bool_decide_eq_false_2 by congruence. done. }
  rewrite bool_decide_eq_true_2 by congruence. simpl.
  destruct (users db !! userId) as [target|] eqn:Ht; simpl; [|done].
  destruct (decide (role target = admin)) as [Hr|Hr].
  { rewrite bool_decide_eq_true_2 by done. done. }
  intros _. eauto 10.
Qed.

Lemma deleteJob_ok_inv user id db r db' :
  deleteJob user id db = (Ok r, db') ->
  db' = {| users := users db; jobs := delete id (jobs db);
           applications :=
             deleteMany (fun a => bool_decide (jobId a = id)) (applications db) |}.
Proof.
  unfold deleteJob, findById, findByIdAndDelete. run.
  destruct (jobs db !! id) as [job|]; simpl; [|done].
  destruct (negb _ && negb _); simpl; [done|]. by intros [= _ <-].
Qed.

(** The service's deletion runs the other way round, dependents first,
    and leaves no reference either. *)
Lemma JobService_deleteJob_cascade jobId_ db :
  let db' := (JobService_deleteJob jobId_ db).2 in
  jobs db' !! jobId_ = None
  /\ forall aid a, applications db' !! aid = Some a -> jobId a <> jobId_.
Proof.
  unfold JobService_deleteJob, findById, findByIdAndDelete. run. split.
  - apply lookup_delete_eq.
  - intros aid a Ha. apply deleteMany_lookup in Ha as [_ Hq].
    by apply bool_decide_eq_false in Hq.
Qed.

(** C3: cascade deletion keeps references intact. After a successful job
    deletion the job is gone and no application references it; after the
    successful deletion of an employer the user is gone, no job has it as
    [createdBy], and no application references a job it owned. *)
Theorem C3_cascade_delete (user : option IUser) (db : Db) :
  (forall id r db', deleteJob user id db = (Ok r, db') ->
     jobs db' !! id = None
     /\ forall aid a, applications db' !! aid = Some a -> jobId a <> id)
  /\ (forall userId target r db',
        users db !! userId = Some target -> role target = employer ->
        deleteUser user userId db = (Ok r, db') ->
        users db' !! userId = None
        /\ (forall jid j, jobs db' !! jid = Some j -> createdBy j <> userId)
        /\ (forall jid j aid a,
              jobs db !! jid = Some j -> createdBy j = userId ->
              applications db' !! aid = Some a -> jobId a <> jid)).
Proof.
  split.
  - intros id r db' Hrun. apply deleteJob_ok_inv in Hrun as ->. simpl. split.
    + apply lookup_delete_eq.
    + intros aid a Ha. apply deleteMany_lookup in Ha as [_ Hq].
      by apply bool_decide_eq_false in Hq.
  - intros userId target r db' Ht Hr Hrun.
    destruct (deleteUser_ok_inv _ _ _ _ _ Hrun) as (u & target' & -> & Hadm & Ht' & _).
    rewrite (deleteUser_employer u userId target db Hadm Ht Hr) in Hrun.
    injection Hrun as _ <-. simpl. split; [|split].
    + apply lookup_delete_eq.
    + intros jid j Hj. apply deleteMany_lookup in Hj as [_ Hq].
      by apply bool_decide_eq_false in Hq.
    + intros jid j aid a Hj Hc Ha Hjid. apply deleteMany_lookup in Ha as [_ Hq].
      apply bool_decide_eq_false in Hq. apply Hq.
      apply list_elem_of_fmap. exists (jid, j). split; [by rewrite Hjid|].
      apply find_elem. split; [done|]. by apply bool_decide_eq_true.
Qed.

Lemma C3_cascade_delete_witness :
  let root := Some {| _id := 1%nat; doc := sample_user "root@x.com" admin false |} in
  let db' := (deleteUser root 2%nat sample_db).2 in
  is_ok (deleteUser root 2%nat sample_db).1
  /\ users db' !! 2%nat = None
  /\ (forall jid j, jobs db' !! jid = Some j -> createdBy j <> 2%nat)
  /\ (forall jid j aid a,
        jobs sample_db !! jid = Some j -> createdBy j = 2%nat ->
        applications db' !! aid = Some a -> jobId a <> jid).
Proof.
  intros root db'. split; [exact I|].
  apply (proj2 (C3_cascade_delete root sample_db) 2%nat
           (sample_user "e@x.com" employer false)
           {| status := 200; json := "User and associated data deleted successfully" |}
           db').
  - reflexivity.
  - reflexivity.
  - vm_compute. reflexivity.
Defined.

(** ** Identity resolver *)

Lemma authenticate_read_only env now authorization db :
  (authenticate env now authorization db).2 = db.
Proof.
  unfold authenticate, findById. run.
  destruct authorization as [token|]; simpl; [|done].
  destruct (jwt_verify token (JWT_SECRET env) now) as [uid|e]; simpl.
  - destruct (users db !! uid) as [u|]; simpl; [|done].
    destruct (isBanned u); done.
  - destruct e; done.
Qed.

Lemma authenticate_error_kind env now authorization db e :
  (authenticate env now authorization db).1 = Err e ->
  exists m, e = AuthenticationError m.
Proof.
  unfold authenticate, findById. run.
  destruct authorization as [token|]; simpl; [|intros [= <-]; eauto].
  destruct (jwt_verify token (JWT_SECRET env) now) as [uid|e']; simpl.
  - destruct (users db !! uid) as [u|]; simpl; [|intros [= <-]; eauto].
    destruct (isBanned u); simpl; [intros [= <-]; eauto|done].
  - destruct e'; simpl; intros [= <-]; eauto.
Qed.

Lemma authenticate_ok_inv env now authorization db u db' :
  authenticate env now authorization db = (Ok u, db') ->
  db' = db /\ users db !! _id u = Some (doc u) /\ isBanned (doc u) = false.
Proof.
  unfold authenticate, findById. run.
  destruct authorization as [token|]; simpl; [|done].
  destruct (jwt_verify token (JWT_SECRET env) now) as [uid|e]; simpl.
  - destruct (users db !! uid) as [usr|] eqn:Hu; simpl; [|done].
    destruct (isBanned usr) eqn:Hb; simpl; [done|].
    intros [= <- <-]. simpl. done.
  - destruct e; done.
Qed.

Lemma jwt_verify_subject t secret now uid :
  jwt_verify (Signed t) secret now = Ok uid -> uid = jwt_userId t.
Proof.
  unfold jwt_verify. destruct (usable_secret secret) as [k|]; [|done].
  destruct (negb _); [done|]. destruct (bool_decide _); [done|]. by intros [= <-].
Qed.

Lemma authenticate_banned env now t usr db :
  users db !! jwt_userId t = Some usr -> isBanned usr = true ->
  exists m,
    authenticate env now (Some (Signed t)) db = (Err (AuthenticationError m), db)
    /\ (jwt_verify (Signed t) (JWT_SECRET env) now = Ok (jwt_userId t) ->
        m = "User is banned.").
Proof.
  intros Hu Hb. unfold authenticate, findById.
  unfold try_catch, lift, throw, gets, throw_if, mbind, M_bind, mret, M_ret.
  destruct (jwt_verify (Signed t) (JWT_SECRET env) now) as [uid|e] eqn:Hv; simpl.
  - apply jwt_verify_subject in Hv as ->. rewrite Hu. simpl. rewrite Hb. simpl.
    eauto.
  - exists (match e with AuthenticationError m => m | _ => "Invalid token." end).
    split; [by destruct e|done].
Qed.

Lemma jwt_sign_verify uid secret t0 tok now :
  jwt_sign uid secret t0 = Ok tok ->
  now / 1000 < t0 / 1000 + seven_days ->
  jwt_verify tok secret now = Ok uid.
Proof.
  unfold jwt_sign, jwt_verify. destruct (usable_secret secret) as [k|]; [|done].
  intros [= <-] Hlt. simpl.
  rewrite bool_decide_eq_true_2 by done. simpl.
  by rewrite bool_decide_eq_false_2 by lia.
Qed.

Lemma jwt_sign_ok_inv uid secret t0 tok :
  jwt_sign uid secret t0 = Ok tok ->
  exists k, usable_secret secret = Some k /\ k <> ""
    /\ tok = Signed {| jwt_userId := uid; jwt_secret := k;
                       jwt_exp := t0 / 1000 + seven_days |}.
Proof.
  unfold jwt_sign. destruct (usable_secret secret) as [k|] eqn:Hk; [|done].
  intros [= <-]. exists k. split; [done|]. split; [|done].
  unfold usable_secret in Hk. destruct secret as [k'|]; [|done].
  case_bool_decide; [done|]. by injection Hk as <-.
Qed.

Lemma usable_secret_Some k : k <> "" -> usable_secret (Some k) = Some k.
Proof. intros Hk. unfold usable_secret. by rewrite bool_decide_eq_false_2. Qed.

Lemma banUser_ok_inv now user userId db r db' :
  banUser now user userId db = (Ok r, db') ->
  exists target, users db !! userId = Some target
    /\ db' = set_users (<[userId := set_isBanned now true target]> (users db)) db.
Proof.
  unfold banUser, findById. run.
  destruct (negb _); simpl; [done|].
  destruct (users db !! userId) as [target|]; simpl; [|done].
  destruct (bool_decide _); simpl; [done|]. intros [= _ <-]. eauto.
Qed.

Lemma set_isBanned_true now u : isBanned (set_isBanned now true u) = true.
Proof. unfold set_isBanned. case_bool_decide; done. Qed.

(** C4: a banned user never authenticates. Every token naming a banned
    user is refused with AuthenticationError, with the message of the ban
    when the token is otherwise valid; this holds for a valid token issued
    before the ban; and the principal the resolver attaches is a stored
    user that is not banned. The resolver does not write. *)
Theorem C4_banned_user_rejected (env : Env) (db : Db) :
  (forall now t usr,
      users db !! jwt_userId t = Some usr -> isBanned usr = true ->
      exists m,
        authenticate env now (Some (Signed t)) db = (Err (AuthenticationError m), db)
        /\ (jwt_verify (Signed t) (JWT_SECRET env) now = Ok (jwt_userId t) ->
            m = "User is banned."))
  /\ (forall issued banned_at now uid tok adm r db',
        jwt_sign uid (JWT_SECRET env) issued = Ok tok ->
        banUser banned_at adm uid db = (Ok r, db') ->
        now / 1000 < issued / 1000 + seven_days ->
        authenticate env now (Some tok) db'
        = (Err (AuthenticationError "User is banned."), db'))
  /\ (forall now authorization u db',
        authenticate env now authorization db = (Ok u, db') ->
        db' = db /\ users db !! _id u = Some (doc u) /\ isBanned (doc u) = false).
Proof.
  split; [|split].
  - intros now t usr. apply authenticate_banned.
  - intros issued banned_at now uid tok adm r db' Hsign Hban Hlt.
    apply banUser_ok_inv in Hban as (target & Ht & ->).
    pose proof (jwt_sign_verify _ _ _ _ _ Hsign Hlt) as Hv.
    destruct (jwt_sign_ok_inv _ _ _ _ Hsign) as (k & Hk & _ & ->).
    destruct (authenticate_banned env now
                {| jwt_userId := uid; jwt_secret := k; jwt_exp := issued / 1000 + seven_days |}
                (set_isBanned banned_at true target)
                (set_users (<[uid:=set_isBanned banned_at true target]> (users db)) db))
      as (m & Hrun & Hm).
    + simpl. apply lookup_insert_eq.
    + apply set_isBanned_true.
    + rewrite Hrun. rewrite Hm; [done|]. exact Hv.
  - intros now authorization u db'. apply authenticate_ok_inv.
Qed.

Lemma C4_banned_user_rejected_witness :
  let env := {| JWT_SECRET := Some "s3cret"; ADMIN_EMAIL := None; ADMIN_PASSWORD := None |} in
  let t := {| jwt_userId := 5%nat; jwt_secret := "s3cret"; jwt_exp := 900 |} in
  users sample_db !! 5%nat = Some (sample_user "d@x.com" candidate true)
  /\ jwt_verify (Signed t) (JWT_SECRET env) 1000 = Ok 5%nat
  /\ exists m,
       authenticate env 1000 (Some (Signed t)) sample_db
       = (Err (AuthenticationError m), sample_db)
       /\ (jwt_verify (Signed t) (JWT_SECRET env) 1000 = Ok (jwt_userId t) ->
           m = "User is banned.").
Proof.
  intros env t. split; [reflexivity|]. split; [reflexivity|].
  apply (proj1 (C4_banned_user_rejected env sample_db) 1000 t
           (sample_user "d@x.com" candidate true)); reflexivity.
Defined.

(** ** Applying for a job *)

Lemma Application_save_ok now j c cl r st at_ db :
  Application_save now
    {| f_jobId := Some j; f_candidateId := Some c; f_coverLetter := cl;
       f_resume := r; f_applicationStatus := st; f_appliedAt := at_ |} db
  = let a := {| jobId := j; candidateId := c; coverLetter := cl; resume := r;
                applicationStatus := default pending st;
                appliedAt := default now at_;
                a_createdAt := now; a_updatedAt := now |} in
    (Ok (fresh (dom (applications db)), a),
     set_applications (<[fresh (dom (applications db)) := a]> (applications db)) db).
Proof. reflexivity. Qed.

Lemma existing_application_query db j (u : IUser) :
  bool_decide (is_Some (findOne
    (fun a => bool_decide (Some (jobId a) = Some j)
              && bool_decide (Some (candidateId a) = user_id (Some u)))
    (applications db))) = true
  <-> already_applied db j (_id u).
Proof.
  rewrite bool_decide_eq_true, findOne_is_Some. unfold already_applied. simpl.
  split; intros (aid & a & Ha & H); exists aid, a; (split; [done|]).
  - apply andb_true_iff in H as [H1 H2].
    apply bool_decide_eq_true in H1, H2. by simplify_eq.
  - destruct H as [<- <-]. apply andb_true_iff.
    split; by apply bool_decide_eq_true.
Qed.

Lemma applyForJob_complete now (u : IUser) body j db :
  role (doc u) = candidate -> b_jobId body = Some j ->
  truthy (b_coverLetter body) = true -> truthy (b_resume body) = true ->
  applyForJob now (Some u) body db =
    match jobs db !! j with
    | None => (Err (NotFoundError "Job not found"), db)
    | Some job =>
        if bool_decide (jobStatus job = Active) then
          if bool_decide (is_Some (findOne
               (fun a => bool_decide (Some (jobId a) = Some j)
                         && bool_decide (Some (candidateId a) = user_id (Some u)))
               (applications db)))
          then (Err (ConflictError "Already applied for this job"), db)
          else
            let a := new_application now j (_id u) (b_coverLetter body) (b_resume body) in
            (Ok {| status := 201; json := (fresh (dom (applications db)), a) |},
             set_applications (<[fresh (dom (applications db)) := a]> (applications db)) db)
        else (Err (ValidationError "Job is not active" []), db)
    end.
Proof.
  intros Hr Hj Hcl Hres. unfold applyForJob, findById.
  unfold throw_if, throw, gets, mbind, M_bind, mret, M_ret.
  rewrite Hj, Hcl, Hres. unfold user_role, compose. simpl. rewrite Hr. simpl.
  destruct (jobs db !! j) as [job|]; [|done].
  destruct (bool_decide (jobStatus job = Active)); simpl; [|done].
  destruct (bool_decide (is_Some _)); simpl; done.
Qed.

(** C1, as the handler has it: for an authenticated candidate whose request
    carries a job id, a non-empty cover letter and a non-empty resume, the
    checks run in this order. No such job: NotFoundError. Job not Active:
    ValidationError. Job Active and the candidate already applied:
    ConflictError. Otherwise one Application is stored under an unused id,
    with status pending and [appliedAt] the current time, and nothing else
    changes. A failure changes nothing, and only a request that passed the
    three checks stores an Application. *)
Theorem C1_apply_for_job now (u : IUser) body j db :
  role (doc u) = candidate -> b_jobId body = Some j ->
  truthy (b_coverLetter body) = true -> truthy (b_resume body) = true ->
  let run := applyForJob now (Some u) body db in
  let a := new_application now j (_id u) (b_coverLetter body) (b_resume body) in
  (jobs db !! j = None -> run = (Err (NotFoundError "Job not found"), db))
  /\ (forall job, jobs db !! j = Some job -> jobStatus job <> Active ->
        run = (Err (ValidationError "Job is not active" []), db))
  /\ (forall job, jobs db !! j = Some job -> jobStatus job = Active ->
        already_applied db j (_id u) ->
        run = (Err (ConflictError "Already applied for this job"), db))
  /\ (forall job, jobs db !! j = Some job -> jobStatus job = Active ->
        ~ already_applied db j (_id u) ->
        exists aid, applications db !! aid = None
          /\ run = (Ok {| status := 201; json := (aid, a) |},
                    set_applications (<[aid := a]> (applications db)) db))
  /\ (is_ok run.1 ->
        exists job, jobs db !! j = Some job /\ jobStatus job = Active
          /\ ~ already_applied db j (_id u)).
Proof.
  intros Hr Hj Hcl Hres run a. subst run.
  rewrite (applyForJob_complete now u body j db Hr Hj Hcl Hres).
  pose proof (existing_application_query db j u) as Hq.
  repeat split.
  - by intros ->.
  - intros job -> Hs. by rewrite bool_decide_eq_false_2.
  - intros job -> Hs Hal. rewrite bool_decide_eq_true_2 by done.
    apply Hq in Hal. by rewrite Hal.
  - intros job -> Hs Hal. rewrite bool_decide_eq_true_2 by done.
    rewrite <- Hq in Hal. apply not_true_is_false in Hal. rewrite Hal.
    exists (fresh (dom (applications db))). split; [apply fresh_lookup|done].
  - destruct (jobs db !! j) as [job|]; [|simpl; tauto].
    destruct (decide (jobStatus job = Active)) as [Hs|Hs];
      [rewrite (bool_decide_eq_true_2 _ Hs)
      |rewrite (bool_decide_eq_false_2 _ Hs); simpl; tauto].
    destruct (bool_decide (is_Some _)) eqn:Hal; [simpl; tauto|]. intros _.
    exists job. repeat split; [done|]. by rewrite <- Hq.
Qed.

Lemma C1_apply_for_job_witness :
  let u := {| _id := 4%nat; doc := sample_user "c@x.com" candidate false |} in
  let body := {| b_jobId := Some 12%nat; b_coverLetter := Some "Dear team";
                 b_resume := Some "cv.pdf" |} in
  let a := new_application 700 12%nat 4%nat (Some "Dear team") (Some "cv.pdf") in
  role (doc u) = candidate
  /\ jobs sample_db !! 12%nat = Some (sample_job "Designer" 3%nat Active 300)
  /\ exists aid, applications sample_db !! aid = None
       /\ applyForJob 700 (Some u) body sample_db
          = (Ok {| status := 201; json := (aid, a) |},
             set_applications (<[aid := a]> (applications sample_db)) sample_db).
Proof.
  intros u body a. split; [reflexivity|]. split; [reflexivity|].
  destruct (C1_apply_for_job 700 u body 12%nat sample_db
              eq_refl eq_refl eq_refl eq_refl) as (_ & _ & _ & Hstore & _).
  apply (Hstore (sample_job "Designer" 3%nat Active 300)); [reflexivity..|].
  intros Hal. apply (existing_application_query sample_db 12%nat u) in Hal.
  vm_compute in Hal. discriminate Hal.
Defined.

(** C1 as stated fails: a candidate whose request has no cover letter and
    names a job that does not exist is answered with a ValidationError,
    not with NotFoundError. *)
Lemma C1_counterexample :
  let u := {| _id := 4%nat; doc := sample_user "c@x.com" candidate false |} in
  let body := {| b_jobId := Some 99%nat; b_coverLetter := None;
                 b_resume := Some "cv.pdf" |} in
  jobs sample_db !! 99%nat = None
  /\ applyForJob 700 (Some u) body sample_db
     = (Err (ValidationError "Cover letter is required" []), sample_db)
  /\ ~ (exists m, (applyForJob 700 (Some u) body sample_db).1 = Err (NotFoundError m)).
Proof.
  intros u body. split; [reflexivity|]. split; [reflexivity|].
  intros [m Hm]. vm_compute in Hm. discriminate Hm.
Qed.

(** ** Cover letter and resume *)

Lemma applyForJob_incomplete now user body db :
  truthy (b_coverLetter body) = false \/ truthy (b_resume body) = false ->
  exists m, applyForJob now user body db = (Err (ValidationError m []), db).
Proof.
  intros H. unfold applyForJob.
  unfold throw_if, throw, gets, mbind, M_bind, mret, M_ret.
  destruct (bool_decide (is_Some (b_jobId body))); simpl; [|eauto].
  destruct (truthy (b_coverLetter body)) eqn:Hcl; simpl; [|eauto].
  destruct (truthy (b_resume body)) eqn:Hres; simpl; [|eauto].
  destruct H; done.
Qed.

(** C8, as the code has it: the schema leaves [coverLetter] and [resume]
    optional, so the model stores an Application without them (as
    [ApplicationService.createApplication] does) and the stored document
    omits them; the [applyForJob] handler requires both: a request whose
    cover letter or resume is absent or empty fails with a ValidationError
    and stores nothing. *)
Theorem C8_cover_letter_resume now user body db :
  (truthy (b_coverLetter body) = false \/ truthy (b_resume body) = false ->
   exists m, applyForJob now user body db = (Err (ValidationError m []), db))
  /\ (forall j c,
        let a := new_application now j c None None in
        exists aid, applications db !! aid = None
          /\ ApplicationService_createApplication now
               {| f_jobId := Some j; f_candidateId := Some c;
                  f_coverLetter := None; f_resume := None;
                  f_applicationStatus := None; f_appliedAt := None |} db
             = (Ok (aid, a), set_applications (<[aid := a]> (applications db)) db)).
Proof.
  split; [apply applyForJob_incomplete|].
  intros j c a. exists (fresh (dom (applications db))).
  split; [apply fresh_lookup|]. reflexivity.
Qed.

Lemma C8_cover_letter_resume_witness :
  let u := {| _id := 4%nat; doc := sample_user "c@x.com" candidate false |} in
  let body := {| b_jobId := Some 12%nat; b_coverLetter := Some "Dear team";
                 b_resume := None |} in
  truthy (b_resume body) = false
  /\ exists m,
       applyForJob 700 (Some u) body sample_db = (Err (ValidationError m []), sample_db).
Proof.
  intros u body. split; [reflexivity|].
  apply (proj1 (C8_cover_letter_resume 700 (Some u) body sample_db)).
  right. reflexivity.
Defined.

(** C8 as stated fails: candidate 4 applies to job 12, which exists, is
    Active and has no application of that candidate, without a cover
    letter; the application is refused and nothing is stored. *)
Lemma C8_counterexample :
  let u := {| _id := 4%nat; doc := sample_user "c@x.com" candidate false |} in
  let body := {| b_jobId := Some 12%nat; b_coverLetter := None;
                 b_resume := Some "cv.pdf" |} in
  (jobStatus <$> jobs sample_db !! 12%nat) = Some Active
  /\ findOne (fun a => bool_decide (jobId a = 12%nat)
                       && bool_decide (candidateId a = 4%nat))
       (applications sample_db) = None
  /\ applyForJob 700 (Some u) body sample_db
     = (Err (ValidationError "Cover letter is required" []), sample_db)
  /\ ~ is_ok (applyForJob 700 (Some u) body sample_db).1.
Proof.
  intros u body. split; [reflexivity|]. split; [vm_compute; reflexivity|].
  split; [reflexivity|]. intros H. exact H.
Qed.

(** ** Uniqueness of applications at the store *)

(** [ApplicationSchema] has no unique index, so the store takes any number
    of applications for one (job, candidate) pair. *)
Lemma createApplication_never_conflicts now j c cl r db :
  let a := new_application now j c cl r in
  ApplicationService_createApplication now
    {| f_jobId := Some j; f_candidateId := Some c; f_coverLetter := cl;
       f_resume := r; f_applicationStatus := None; f_appliedAt := None |} db
  = (Ok (fresh (dom (applications db)), a),
     set_applications (<[fresh (dom (applications db)) := a]> (applications db)) db).
Proof. reflexivity. Qed.

Lemma createApplication_twice now1 now2 j c cl r db :
  let f := {| f_jobId := Some j; f_candidateId := Some c; f_coverLetter := cl;
              f_resume := r; f_applicationStatus := None; f_appliedAt := None |} in
  exists id1 a1 db1 id2 a2 db2,
    ApplicationService_createApplication now1 f db = (Ok (id1, a1), db1)
    /\ ApplicationService_createApplication now2 f db1 = (Ok (id2, a2), db2)
    /\ id1 <> id2
    /\ applications db2 !! id1 = Some a1 /\ applications db2 !! id2 = Some a2
    /\ same_pair j c a1 = true /\ same_pair j c a2 = true.
Proof.
  intros f. subst f.
  rewrite createApplication_never_conflicts. do 3 eexists.
  rewrite createApplication_never_conflicts. do 3 eexists.
  split; [reflexivity|]. split; [reflexivity|]. simpl.
  set (id1 := fresh (dom (applications db))).
  set (c1 := <[id1 := _]> (applications db)).
  assert (Hne : id1 <> fresh (dom c1)).
  { intros Heq. pose proof (fresh_lookup c1) as Hf. rewrite <- Heq in Hf.
    subst c1. by rewrite lookup_insert_eq in Hf. }
  split; [done|]. split; [|split].
  - rewrite lookup_insert_ne by done. apply lookup_insert_eq.
  - apply lookup_insert_eq.
  - unfold same_pair. simpl. by rewrite !bool_decide_eq_true_2.
Qed.

Lemma applyForJob_checks_read_only user body db :
  (applyForJob_checks user body db).2 = db.
Proof.
  unfold applyForJob_checks, findById.
  unfold throw_if, throw, gets, mbind, M_bind, mret, M_ret.
  destruct (b_jobId body) as [j|]; simpl; [|done].
  destruct (negb (truthy (b_coverLetter body))); [done|].
  destruct (negb (truthy (b_resume body))); [done|].
  destruct (negb (bool_decide (user_role user = Some candidate))); [done|].
  simpl. destruct (jobs db !! j) as [job|]; [|done].
  destruct (negb (bool_decide (jobStatus job = Active))); [done|].
  simpl. destruct (bool_decide (is_Some _)); done.
Qed.

(** The handler is its checks followed by the save. *)
Lemma applyForJob_checks_then_save now user body db :
  applyForJob now user body db
  = (f ← applyForJob_checks user body;
     application ← Application_save now f;
     mret {| status := 201; json := application |}) db.
Proof.
  unfold applyForJob, applyForJob_checks, findById.
  unfold throw_if, throw, gets, mbind, M_bind, mret, M_ret.
  destruct (b_jobId body) as [j|]; simpl; [|done].
  destruct (negb (truthy (b_coverLetter body))); [done|].
  destruct (negb (truthy (b_resume body))); [done|].
  destruct (negb (bool_decide (user_role user = Some candidate))); [done|].
  simpl. destruct (jobs db !! j) as [job|]; [|done].
  destruct (negb (bool_decide (jobStatus job = Active))); [done|].
  simpl. destruct (bool_decide (is_Some _)); done.
Qed.

(** C2, what the code does: the store has no (jobId, candidateId)
    constraint, the pre-check of the handler is all there is. Candidate 4
    already has an application for job 10: saving another one for the pair
    past the handler succeeds and leaves two. Candidate 4 has none for job
    12: two requests whose pre-checks both run before either save are both
    answered 201 and leave two applications for the pair. *)
Theorem C2_duplicate_pair_stored :
  let f := {| f_jobId := Some 10%nat; f_candidateId := Some 4%nat;
              f_coverLetter := Some "Again"; f_resume := Some "cv.pdf";
              f_applicationStatus := None; f_appliedAt := None |} in
  let u := {| _id := 4%nat; doc := sample_user "c@x.com" candidate false |} in
  let body := {| b_jobId := Some 12%nat; b_coverLetter := Some "Dear team";
                 b_resume := Some "cv.pdf" |} in
  ApplicationSchema_indexes = []
  /\ countDocuments (same_pair 10%nat 4%nat) (applications sample_db) = 1%nat
  /\ is_ok (ApplicationService_createApplication 700 f sample_db).1
  /\ countDocuments (same_pair 10%nat 4%nat)
       (applications (ApplicationService_createApplication 700 f sample_db).2) = 2%nat
  /\ countDocuments (same_pair 12%nat 4%nat) (applications sample_db) = 0%nat
  /\ is_ok (applyForJob_twice_interleaved 700 701 (Some u) body sample_db).1
  /\ countDocuments (same_pair 12%nat 4%nat)
       (applications (applyForJob_twice_interleaved 700 701 (Some u) body sample_db).2)
     = 2%nat.
Proof.
  intros f u body. split; [reflexivity|]. split; [vm_compute; reflexivity|].
  split; [exact I|]. split; [vm_compute; reflexivity|].
  split; [vm_compute; reflexivity|]. split; [vm_compute; exact I|].
  vm_compute. reflexivity.
Qed.

(** ** Admin bootstrap *)

Lemma has_admin_query db :
  bool_decide (is_Some (findOne (fun u => bool_decide (role u = admin)) (users db))) = true
  <-> has_admin db.
Proof.
  rewrite bool_decide_eq_true, findOne_is_Some. unfold has_admin.
  split; intros (id & u & Hu & H); exists id, u; (split; [done|]).
  - by apply bool_decide_eq_true in H.
  - by apply bool_decide_eq_true.
Qed.

Lemma email_index_free (u : User) (c : gmap ObjectId User) :
  (forall id d, c !! id = Some d -> email d <> email u) ->
  first_violation UserSchema_indexes u c = None.
Proof.
  intros Hfree. unfold first_violation, UserSchema_indexes, violates. simpl.
  rewrite bool_decide_eq_false_2; [done|].
  intros Hsome. apply Hsome. apply findOne_None. intros id d Hd.
  apply bool_decide_eq_false. intros [= Heq]. by apply (Hfree id d).
Qed.

Lemma email_index_taken (u : User) (c : gmap ObjectId User) id d :
  c !! id = Some d -> email d = email u ->
  exists ix, first_violation UserSchema_indexes u c = Some ix.
Proof.
  intros Hd He. unfold first_violation, UserSchema_indexes, violates. simpl.
  rewrite bool_decide_eq_true_2; [eauto|].
  intros Hnone. rewrite findOne_None in Hnone. specialize (Hnone id d Hd).
  apply bool_decide_eq_false in Hnone. apply Hnone. by rewrite He.
Qed.

Lemma truthy_Some s : truthy (Some s) = true <-> s <> "".
Proof.
  unfold truthy. rewrite negb_true_iff, bool_decide_eq_false. done.
Qed.

Lemma handshake_admin_exists env now db :
  has_admin db -> handshake env now db = (Returned, db).
Proof.
  intros H. apply has_admin_query in H. unfold handshake.
  unfold gets, mbind, M_bind, mret, M_ret. by rewrite H.
Qed.

Lemma handshake_creates env now db e p :
  ~ has_admin db ->
  ADMIN_EMAIL env = Some e -> ADMIN_PASSWORD env = Some p ->
  e <> "" -> p <> "" -> ~ email_taken db e ->
  handshake env now db
  = (Returned,
     set_users (<[fresh (dom (users db)) := bootstrap_admin now e p]> (users db)) db).
Proof.
  intros Hno He Hp Hne Hnp Hfree.
  rewrite <- has_admin_query in Hno. apply not_true_is_false in Hno.
  apply truthy_Some in Hne as Hte. apply truthy_Some in Hnp as Htp.
  unfold handshake, User_save. unfold gets, mbind, M_bind, mret, M_ret.
  rewrite Hno, He, Hp, Hte, Htp. simpl.
  rewrite bool_decide_eq_false_2 by done.
  rewrite insertOne_ok; [done|].
  apply email_index_free. intros id d Hd Heq. apply Hfree. by exists id, d.
Qed.

Lemma handshake_exits env now db :
  ~ has_admin db ->
  truthy (ADMIN_EMAIL env) = false \/ truthy (ADMIN_PASSWORD env) = false
  \/ (exists e, ADMIN_EMAIL env = Some e /\ email_taken db e) ->
  handshake env now db = (ProcessExit 1, db).
Proof.
  intros Hno H.
  rewrite <- has_admin_query in Hno. apply not_true_is_false in Hno.
  unfold handshake, User_save. unfold gets, mbind, M_bind, mret, M_ret.
  rewrite Hno.
  destruct (ADMIN_EMAIL env) as [e|] eqn:He; [|done].
  destruct (ADMIN_PASSWORD env) as [p|] eqn:Hp; [|done].
  destruct (truthy (Some e)) eqn:Hte; [|done].
  destruct (truthy (Some p)) eqn:Htp; [|by rewrite orb_true_r].
  destruct H as [H|[H|(e' & [= <-] & id & d & Hd & Heq)]]; [done..|].
  simpl. apply truthy_Some in Hte. rewrite bool_decide_eq_false_2 by done.
  destruct (email_index_taken (bootstrap_admin now e p) (users db) id d Hd Heq)
    as [ix Hix].
  unfold bootstrap_admin in Hix. by rewrite (insertOne_duplicate _ _ _ _ Hix).
Qed.

Lemma has_admin_after_insert db id u :
  role u = admin -> has_admin (set_users (<[id := u]> (users db)) db).
Proof. intros Hr. exists id, u. split; [apply lookup_insert_eq|done]. Qed.

Lemma handshakes_admin_exists times env db :
  has_admin db -> handshakes times env db = db.
Proof.
  revert db. induction times as [|now times IH]; intros db H; [done|].
  simpl. rewrite (handshake_admin_exists env now db H). simpl. by apply IH.
Qed.

Lemma count_admins_after_insert db id u :
  ~ has_admin db -> users db !! id = None -> role u = admin ->
  countDocuments is_admin (<[id := u]> (users db)) = 1%nat.
Proof.
  intros Hno Hid Hr. unfold countDocuments, select.
  rewrite map_filter_insert_True by (simpl; by apply bool_decide_eq_true).
  assert (Hempty : filter (fun kv : ObjectId * User => is_admin kv.2 = true) (users db) = ∅).
  { apply map_empty. intros i. apply map_lookup_filter_None. right.
    intros d Hd Hq. simpl in Hq. apply bool_decide_eq_true in Hq.
    apply Hno. by exists i, d. }
  rewrite Hempty. rewrite map_size_insert_None by apply lookup_empty.
  by rewrite map_size_empty.
Qed.

(** C6, as the code has it. When an admin exists, [handshake] returns and
    changes nothing. From a store with no admin, with ADMIN_EMAIL and
    ADMIN_PASSWORD set and non-empty and no stored user holding that email,
    any number (at least one) of start-ups in a row leaves exactly the
    admin account the first one created, under an unused id, and exactly
    one admin. From a store with no admin where a credential is missing or
    the email is held by a stored user, [handshake] creates nothing and
    ends the process with exit code 1. *)
Theorem C6_handshake_idempotent env db :
  (forall now, has_admin db -> handshake env now db = (Returned, db))
  /\ (forall now times e p,
        ~ has_admin db ->
        ADMIN_EMAIL env = Some e -> ADMIN_PASSWORD env = Some p ->
        e <> "" -> p <> "" -> ~ email_taken db e ->
        let id := fresh (dom (users db)) in
        users db !! id = None
        /\ handshakes (now :: times) env db
           = set_users (<[id := bootstrap_admin now e p]> (users db)) db
        /\ countDocuments is_admin (users (handshakes (now :: times) env db)) = 1%nat)
  /\ (forall now,
        ~ has_admin db ->
        truthy (ADMIN_EMAIL env) = false \/ truthy (ADMIN_PASSWORD env) = false
        \/ (exists e, ADMIN_EMAIL env = Some e /\ email_taken db e) ->
        handshake env now db = (ProcessExit 1, db)).
Proof.
  split; [|split].
  - intros now. apply handshake_admin_exists.
  - intros now times e p Hno He Hp Hne Hnp Hfree id.
    assert (Hrun : handshakes (now :: times) env db
                   = set_users (<[id := bootstrap_admin now e p]> (users db)) db).
    { simpl. rewrite (handshake_creates env now db e p) by done. simpl.
      apply handshakes_admin_exists. by apply has_admin_after_insert. }
    split; [apply fresh_lookup|]. split; [done|].
    rewrite Hrun. simpl. apply count_admins_after_insert; [done| |done].
    apply fresh_lookup.
  - intros now. apply handshake_exits.
Qed.

Lemma not_has_admin_empty : ~ has_admin empty_db.
Proof. intros (id & u & Hu & _). simpl in Hu. by rewrite lookup_empty in Hu. Qed.

Lemma not_email_taken_empty e : ~ email_taken empty_db e.
Proof. intros (id & u & Hu & _). simpl in Hu. by rewrite lookup_empty in Hu. Qed.

Lemma C6_handshake_idempotent_witness :
  countDocuments is_admin (users (handshakes [1; 2; 3] bootstrap_env empty_db)) = 1%nat
  /\ handshakes [1; 2; 3] bootstrap_env empty_db
     = set_users (<[0%nat := bootstrap_admin 1 "admin@x.com" "changeme1"]> ∅) empty_db.
Proof.
  destruct (proj1 (proj2 (C6_handshake_idempotent bootstrap_env empty_db))
              1 [2; 3] "admin@x.com" "changeme1"
              not_has_admin_empty eq_refl eq_refl
              ltac:(discriminate) ltac:(discriminate)
              (not_email_taken_empty "admin@x.com"))
    as (_ & Hrun & Hcount).
  split; [exact Hcount|exact Hrun].
Defined.

(** C6 as stated fails: there is no admin, the credentials are supplied,
    and a candidate already holds the configured email. Saving the admin
    hits the unique index on [email], the handler of the [try] ends the
    process, and three start-ups in a row leave no admin at all. *)
Lemma C6_counterexample :
  countDocuments is_admin (users squatted_db) = 0%nat
  /\ handshake bootstrap_env 1 squatted_db = (ProcessExit 1, squatted_db)
  /\ countDocuments is_admin (users (handshakes [1; 2; 3] bootstrap_env squatted_db))
     <> 1%nat.
Proof.
  split; [vm_compute; reflexivity|]. split; [vm_compute; reflexivity|].
  vm_compute. discriminate.
Qed.

(** ** Registration and the uniqueness of emails *)

Lemma email_query (db : Db) (e : string) :
  bool_decide (is_Some (findOne (fun u => bool_decide (email u = e)) (users db))) = true
  <-> email_taken db e.
Proof.
  rewrite bool_decide_eq_true, findOne_is_Some. unfold email_taken.
  split; intros (id & u & Hu & H); exists id, u; (split; [done|]).
  - by apply bool_decide_eq_true in H.
  - by apply bool_decide_eq_true.
Qed.

(** The part of the rule the code keeps: an email that is stored exactly
    as given is refused, and nothing is written. *)
Lemma register_same_email env now e p r db :
  email_taken db e ->
  register env now (e, p, r) db = (Err (ConflictError "User already exists"), db).
Proof.
  intros H. apply email_query in H. unfold register.
  unfold throw_if, throw, gets, mbind, M_bind, mret, M_ret. by rewrite H.
Qed.

(** The pre-check and the index both compare emails exactly: an email no
    stored user has letter for letter is accepted, whatever else is stored. *)
Lemma register_other_email env now e p r k ro db :
  ~ email_taken db e -> e <> "" -> role_of_string r = Some ro ->
  JWT_SECRET env = Some k -> k <> "" ->
  let u := {| email := e; password := bcrypt_hash p; firstName := None;
              lastName := None; company := None; role := ro; isBanned := false;
              u_createdAt := now; u_updatedAt := now |} in
  let id := fresh (dom (users db)) in
  register env now (e, p, r) db
  = (Ok {| status := 201;
           json := {| r_token := Signed {| jwt_userId := id; jwt_secret := k;
                                           jwt_exp := now / 1000 + seven_days |};
                      r_id := id; r_email := e; r_role := ro |} |},
     set_users (<[id := u]> (users db)) db).
Proof.
  intros Hfree Hne Hro Hk Hk' u id.
  pose proof Hfree as Hq. rewrite <- email_query in Hq. apply not_true_is_false in Hq.
  unfold register, User_save, jwt_sign.
  unfold throw_if, throw, gets, lift, mbind, M_bind, mret, M_ret.
  rewrite Hq. simpl. rewrite bool_decide_eq_false_2 by done. rewrite Hro.
  rewrite insertOne_ok.
  - simpl. by rewrite Hk, (usable_secret_Some k Hk').
  - apply email_index_free. intros i d Hd Heq. apply Hfree. by exists i, d.
Qed.

(** C7, what the code does: emails are compared letter for letter.
    User 4 is stored as c@x.com; a registration as C@x.com, the same
    address up to letter case, passes validation and the pre-check, is
    not stopped by the index, and is stored as a second user. *)
Theorem C7_case_variant_registered :
  let b := {| b_email := Some "C@x.com"; b_password := Some "secret1";
              b_role := Some "candidate" |} in
  let run := route_register bootstrap_env 700 b sample_db in
  (email <$> users sample_db !! 4%nat) = Some "c@x.com"
  /\ toLowerCase "C@x.com" = toLowerCase "c@x.com"
  /\ (status <$> match run.1 with Ok r => Some r | Err _ => None end) = Some 201
  /\ (r_id ∘ json <$> match run.1 with Ok r => Some r | Err _ => None end) = Some 6%nat
  /\ (email <$> users run.2 !! 6%nat) = Some "C@x.com"
  /\ (email <$> users run.2 !! 4%nat) = Some "c@x.com"
  /\ size (users run.2) = S (size (users sample_db)).
Proof.
  intros b run. vm_compute. repeat split.
Qed.

(** ** Listing the applications of a job *)

Lemma authorize_passes roles (u : IUser) db :
  is_ok (authorize roles (Some u) db).1 <-> role (doc u) ∈ roles.
Proof.
  unfold authorize, throw_if, throw, mret, M_ret.
  destruct (decide (role (doc u) ∈ roles)) as [H|H].
  - rewrite bool_decide_eq_true_2 by done. simpl. tauto.
  - rewrite bool_decide_eq_false_2 by done. simpl. tauto.
Qed.

Lemma getJobApplications_employer (u : IUser) jobId_ db :
  role (doc u) = employer ->
  getJobApplications (Some u) jobId_ db =
    match jobs db !! jobId_ with
    | None => (Err (NotFoundError "Job not found"), db)
    | Some job =>
        if bool_decide (createdBy job = _id u)
        then (Ok {| status := 200; json := job_applications db jobId_ |}, db)
        else (Err (AuthorizationError
                     "Not authorized to view applications for this job"), db)
    end.
Proof.
  intros Hr. unfold getJobApplications, findById, job_applications.
  unfold throw_if, throw, gets, res_json, mbind, M_bind, mret, M_ret.
  unfold user_role, user_id, compose. simpl. rewrite Hr. simpl.
  destruct (jobs db !! jobId_) as [job|]; [|done].
  destruct (decide (createdBy job = _id u)) as [Ho|Ho].
  - rewrite !bool_decide_eq_true_2 by congruence. done.
  - rewrite !bool_decide_eq_false_2 by congruence. done.
Qed.

Lemma getJobApplications_admin (u : IUser) jobId_ db :
  role (doc u) = admin ->
  getJobApplications (Some u) jobId_ db
  = (Ok {| status := 200; json := job_applications db jobId_ |}, db).
Proof.
  intros Hr. unfold getJobApplications, findById, job_applications.
  unfold throw_if, throw, gets, res_json, mbind, M_bind, mret, M_ret.
  unfold user_role, user_id, compose. simpl. rewrite Hr. done.
Qed.

(** The route runs the handler for the principal the resolver found. *)
Lemma route_getJobApplications_authenticated env now authorization u jobId_ db :
  authenticate env now authorization db = (Ok u, db) ->
  route_getJobApplications env now authorization jobId_ db
  = (authorize [employer; admin] (Some u);; getJobApplications (Some u) jobId_) db.
Proof.
  intros H. unfold route_getJobApplications.
  unfold mbind at 1. unfold M_bind at 1. by rewrite H.
Qed.

(** C9, as the code has it. The role gate admits employers and admins.
    For an employer the job is loaded first: a job id that does not exist
    is answered with NotFoundError, an existing job of another owner with
    AuthorizationError, and an existing job of its own with the listing,
    so an employer sees forbidden only for an existing job of another
    owner. For an admin the job is not loaded: the listing succeeds
    whether or not the job exists. *)
Theorem C9_listing_existence_check (u : IUser) jobId_ db :
  (is_ok (authorize [employer; admin] (Some u) db).1
   <-> role (doc u) = employer \/ role (doc u) = admin)
  /\ (role (doc u) = employer -> jobs db !! jobId_ = None ->
      getJobApplications (Some u) jobId_ db = (Err (NotFoundError "Job not found"), db))
  /\ (role (doc u) = employer ->
      forall job, jobs db !! jobId_ = Some job -> createdBy job <> _id u ->
      getJobApplications (Some u) jobId_ db
      = (Err (AuthorizationError "Not authorized to view applications for this job"), db))
  /\ (role (doc u) = employer ->
      forall job, jobs db !! jobId_ = Some job -> createdBy job = _id u ->
      getJobApplications (Some u) jobId_ db
      = (Ok {| status := 200; json := job_applications db jobId_ |}, db))
  /\ (role (doc u) = employer ->
      forall m, getJobApplications (Some u) jobId_ db = (Err (AuthorizationError m), db) ->
      exists job, jobs db !! jobId_ = Some job /\ createdBy job <> _id u)
  /\ (role (doc u) = admin ->
      getJobApplications (Some u) jobId_ db
      = (Ok {| status := 200; json := job_applications db jobId_ |}, db)).
Proof.
  split; [|split; [|split; [|split; [|split]]]].
  - rewrite authorize_passes. rewrite !elem_of_cons, elem_of_nil. tauto.
  - intros Hr Hj. rewrite getJobApplications_employer by done. by rewrite Hj.
  - intros Hr job Hj Ho. rewrite getJobApplications_employer by done.
    rewrite Hj. by rewrite bool_decide_eq_false_2.
  - intros Hr job Hj Ho. rewrite getJobApplications_employer by done.
    rewrite Hj. by rewrite bool_decide_eq_true_2.
  - intros Hr m. rewrite getJobApplications_employer by done.
    destruct (jobs db !! jobId_) as [job|]; [|done].
    destruct (decide (createdBy job = _id u)) as [Ho|Ho].
    + by rewrite bool_decide_eq_true_2.
    + intros _. eauto.
  - apply getJobApplications_admin.
Qed.

Lemma C9_listing_existence_check_witness :
  let u := {| _id := 3%nat; doc := sample_user "f@x.com" employer false |} in
  jobs sample_db !! 99%nat = None
  /\ getJobApplications (Some u) 99%nat sample_db
     = (Err (NotFoundError "Job not found"), sample_db).
Proof.
  intros u. split; [reflexivity|].
  apply (proj1 (proj2 (C9_listing_existence_check u 99%nat sample_db))); reflexivity.
Defined.

(** C9 as stated fails for an admin: admin 1 passes the role gate and asks
    for the applications of job 99, which does not exist; the answer is
    status 200 with an empty list, not NotFoundError. *)
Lemma C9_counterexample :
  let u := {| _id := 1%nat; doc := sample_user "root@x.com" admin false |} in
  is_ok (authorize [employer; admin] (Some u) sample_db).1
  /\ jobs sample_db !! 99%nat = None
  /\ getJobApplications (Some u) 99%nat sample_db
     = (Ok {| status := 200; json := [] |}, sample_db)
  /\ ~ (exists m, (getJobApplications (Some u) 99%nat sample_db).1
                  = Err (NotFoundError m)).
Proof.
  intros u. split; [exact I|]. split; [reflexivity|].
  split; [vm_compute; reflexivity|].
  intros [m Hm]. vm_compute in Hm. discriminate Hm.
Qed.

(** ** Public reads of jobs *)

Lemma sort_desc_elem {A} (key : A -> Z) (l : list A) x :
  x ∈ sort_desc key l <-> x ∈ l.
Proof. unfold sort_desc. by rewrite merge_sort_Permutation. Qed.

Lemma paginate_elem {A} limit skip (l l' : list A) x :
  paginate limit skip l = Ok l' -> x ∈ l' -> x ∈ l.
Proof.
  unfold paginate. case_bool_decide; [done|]. intros [= <-] Hx.
  apply (subseteq_drop (Z.to_nat skip) l).
  case_bool_decide; [done|]. by apply (subseteq_take (Z.to_nat (Z.abs limit))).
Qed.

Lemma paginate_ok {A} limit skip (l : list A) :
  0 <= skip -> is_ok (paginate limit skip l).
Proof. intros H. unfold paginate. by rewrite bool_decide_eq_false_2 by lia. Qed.

Section PublicReads.
Variable regex_i : string -> string -> bool.

Lemma getAllJobs_query_Active q j :
  getAllJobs_query regex_i q j = true -> jobStatus j = Active.
Proof.
  unfold getAllJobs_query. rewrite !andb_true_iff.
  intros [[[H _] _] _]. by apply bool_decide_eq_true in H.
Qed.

Lemma getAllJobs_run q db :
  getAllJobs regex_i q db =
    let page := default 1 (q_page q) in
    let limit := default 10 (q_limit q) in
    match paginate (limit * 1) ((page - 1) * limit)
            (sort_desc (fun kv => j_createdAt kv.2)
               (find (getAllJobs_query regex_i q) (jobs db))) with
    | Ok js =>
        (Ok {| status := 200;
               json := {| items := populate_job db <$> js;
                          totalPages :=
                            ceil_div (countDocuments (getAllJobs_query regex_i q)
                                        (jobs db)) limit;
                          currentPage := page;
                          total := countDocuments (getAllJobs_query regex_i q)
                                     (jobs db) |} |}, db)
    | Err e => (Err e, db)
    end.
Proof.
  unfold getAllJobs. unfold gets, lift, res_json, mbind, M_bind, mret, M_ret.
  simpl. by destruct (paginate _ _ _).
Qed.

(** C10: the public listing answers only with stored jobs whose status
    is Active, whatever the filters and the page, and answers whenever
    the page and limit give a skip that is not negative; the public
    fetch by id answers with the stored job whatever its status, and
    with NotFoundError exactly when no job has the id. Neither writes. *)
Theorem C10_public_job_reads (db : Db) :
  (forall q r db', getAllJobs regex_i q db = (Ok r, db') ->
     db' = db
     /\ forall pj, pj ∈ items (json r) ->
          jobStatus (pj_job pj) = Active /\ jobs db !! pj_id pj = Some (pj_job pj))
  /\ (forall q, 0 <= (default 1 (q_page q) - 1) * default 10 (q_limit q) ->
        is_ok (getAllJobs regex_i q db).1)
  /\ (forall id j, jobs db !! id = Some j ->
        getJobById id db
        = (Ok {| status := 200; json := populate_job db (id, j) |}, db))
  /\ (forall id, jobs db !! id = None ->
        getJobById id db = (Err (NotFoundError "Job not found"), db)).
Proof.
  split; [|split; [|split]].
  - intros q r db'. rewrite getAllJobs_run. simpl.
    destruct (paginate _ _ _) as [js|e] eqn:Hp; [|done].
    intros [= <- <-]. split; [done|]. simpl. intros pj Hpj.
    apply list_elem_of_fmap in Hpj as ([id j] & -> & Hin).
    apply (paginate_elem _ _ _ _ _ Hp) in Hin.
    apply sort_desc_elem in Hin. apply find_elem in Hin as [Hj Hq].
    simpl. split; [by apply getAllJobs_query_Active in Hq|done].
  - intros q Hskip. rewrite getAllJobs_run. simpl.
    pose proof (paginate_ok (default 10 (q_limit q) * 1)
                  ((default 1 (q_page q) - 1) * default 10 (q_limit q))
                  (sort_desc (fun kv => j_createdAt kv.2)
                     (find (getAllJobs_query regex_i q) (jobs db))) Hskip) as Hok.
    destruct (paginate _ _ _); [exact I|done].
  - intros id j Hj. unfold getJobById, findById.
    unfold gets, throw, res_json, mbind, M_bind, mret, M_ret. by rewrite Hj.
  - intros id Hj. unfold getJobById, findById.
    unfold gets, throw, res_json, mbind, M_bind, mret, M_ret. by rewrite Hj.
Qed.
End PublicReads.

Lemma C10_public_job_reads_witness :
  exists r,
    getAllJobs contains no_filter sample_db = (Ok r, sample_db)
    /\ pj_id <$> items (json r) = [12%nat; 10%nat]
    /\ (forall pj, pj ∈ items (json r) ->
          jobStatus (pj_job pj) = Active
          /\ jobs sample_db !! pj_id pj = Some (pj_job pj))
    /\ jobStatus (sample_job "Data Engineer" 2%nat Inactive 200) = Inactive
    /\ getJobById 11%nat sample_db
       = (Ok {| status := 200;
                json := populate_job sample_db
                          (11%nat, sample_job "Data Engineer" 2%nat Inactive 200) |},
          sample_db).
Proof.
  destruct (C10_public_job_reads contains sample_db) as (Hlist & _ & Hget & _).
  eexists. split; [vm_compute; reflexivity|]. split; [vm_compute; reflexivity|].
  split; [|split; [reflexivity|]].
  - intros pj Hpj.
    eapply (Hlist no_filter _ sample_db); [vm_compute; reflexivity|exact Hpj].
  - apply Hget. reflexivity.
Defined.

(** * Further properties *)

(** ** Deleting an application *)

Lemma deleteApplication_guard (u : IUser) (a : Application) :
  negb (bool_decide (Some (candidateId a) = user_id (Some u)))
  && negb (bool_decide (user_role (Some u) = Some admin)) = false
  <-> candidateId a = _id u \/ role (doc u) = admin.
Proof.
  unfold user_id, user_role, compose. simpl.
  rewrite andb_false_iff, !negb_false_iff, !bool_decide_eq_true.
  split; intros [H|H]; simplify_eq/=; auto. right. by f_equal.
Qed.

(** X1: Deleting an application: an id that names none is answered with
    NotFoundError before any ownership question; an existing application
    is deleted for its candidate and for an admin, and only it is
    removed; everyone else, the employer who owns the job included, gets
    AuthorizationError and the store stays as it was. *)
Theorem deleteApplication_ownership (u : IUser) (id : ObjectId) (db : Db) :
  (applications db !! id = None ->
   deleteApplication (Some u) id db = (Err (NotFoundError "Application not found"), db))
  /\ (forall a, applications db !! id = Some a ->
        (candidateId a = _id u \/ role (doc u) = admin ->
         deleteApplication (Some u) id db
         = (Ok {| status := 200; json := "Application deleted successfully" |},
            set_applications (delete id (applications db)) db))
        /\ (candidateId a <> _id u -> role (doc u) <> admin ->
            deleteApplication (Some u) id db
            = (Err (AuthorizationError "Not authorized to delete this application"), db))).
Proof.
  split.
  - intros Ha. unfold deleteApplication, findById. run. by rewrite Ha.
  - intros a Ha. split.
    + intros Hown. apply deleteApplication_guard in Hown. simpl in Hown.
      unfold deleteApplication, findById, findByIdAndDelete. run.
      rewrite Ha. simpl. by rewrite Hown.
    + intros Hc Hr.
      assert (Hg : ~ (candidateId a = _id u \/ role (doc u) = admin)) by tauto.
      rewrite <- deleteApplication_guard in Hg. apply not_false_is_true in Hg.
      simpl in Hg. unfold deleteApplication, findById. run.
      rewrite Ha. simpl. by rewrite Hg.
Qed.

Lemma deleteApplication_ownership_witness :
  let owner_of_job := {| _id := 2%nat; doc := sample_user "e@x.com" employer false |} in
  applications sample_db !! 20%nat = Some (sample_application 10%nat 4%nat 400)
  /\ (createdBy <$> jobs sample_db !! 10%nat) = Some 2%nat
  /\ deleteApplication (Some owner_of_job) 20%nat sample_db
     = (Err (AuthorizationError "Not authorized to delete this application"), sample_db).
Proof.
  intros owner_of_job. split; [reflexivity|]. split; [reflexivity|].
  apply (proj2 (deleteApplication_ownership owner_of_job 20%nat sample_db)
           (sample_application 10%nat 4%nat 400)); [reflexivity|discriminate..].
Defined.

(** ** Banning and unbanning *)

Lemma set_isBanned_fields now b (t : User) :
  isBanned (set_isBanned now b t) = b
  /\ email (set_isBanned now b t) = email t
  /\ password (set_isBanned now b t) = password t
  /\ role (set_isBanned now b t) = role t
  /\ u_createdAt (set_isBanned now b t) = u_createdAt t.
Proof. unfold set_isBanned. case_bool_decide; simpl; auto. Qed.

Lemma admin_guard (u : IUser) :
  negb (bool_decide (user_role (Some u) = Some admin)) = false <-> role (doc u) = admin.
Proof.
  unfold user_role, compose. simpl. rewrite negb_false_iff, bool_decide_eq_true.
  split; [by intros [= ->]|by intros ->].
Qed.

Lemma admin_guard_not (u : IUser) :
  negb (bool_decide (user_role (Some u) = Some admin)) = true <-> role (doc u) <> admin.
Proof. rewrite <- admin_guard. by destruct (negb _). Qed.

(** X2: Banning: only an admin may; a missing user is NotFoundError; an admin
    target is refused with a ValidationError and nothing changes;
    otherwise the target's flag is set and nothing else is touched: its
    email, password and role, every other user, and all jobs and
    applications stay (there is no cascade). *)
Theorem banUser_effect now (u : IUser) (userId : ObjectId) (db : Db) :
  (role (doc u) <> admin ->
   banUser now (Some u) userId db = (Err (AuthorizationError "Only admins can ban users"), db))
  /\ (role (doc u) = admin -> users db !! userId = None ->
      banUser now (Some u) userId db = (Err (NotFoundError "User not found"), db))
  /\ (role (doc u) = admin ->
      forall t, users db !! userId = Some t ->
        (role t = admin ->
         banUser now (Some u) userId db
         = (Err (ValidationError "Cannot ban admin users" []), db))
        /\ (role t <> admin ->
            exists t',
              banUser now (Some u) userId db
              = (Ok {| status := 200; json := "User banned successfully" |},
                 set_users (<[userId := t']> (users db)) db)
              /\ isBanned t' = true /\ email t' = email t
              /\ password t' = password t /\ role t' = role t)).
Proof.
  split; [|split].
  - intros Hr. apply admin_guard_not in Hr. simpl in Hr.
    unfold banUser. run. by rewrite Hr.
  - intros Hr Hn. apply admin_guard in Hr. simpl in Hr.
    unfold banUser, findById. run. rewrite Hr. simpl. by rewrite Hn.
  - intros Hr t Ht. apply admin_guard in Hr. simpl in Hr. split.
    + intros Hta. unfold banUser, findById. run. rewrite Hr. simpl. rewrite Ht. simpl.
      by rewrite bool_decide_eq_true_2.
    + intros Hta. exists (set_isBanned now true t).
      destruct (set_isBanned_fields now true t) as (? & ? & ? & ? & ?).
      split; [|done].
      unfold banUser, findById. run. rewrite Hr. simpl. rewrite Ht. simpl.
      by rewrite bool_decide_eq_false_2.
Qed.

Lemma banUser_effect_witness :
  let root := {| _id := 1%nat; doc := sample_user "root@x.com" admin false |} in
  users sample_db !! 1%nat = Some (sample_user "root@x.com" admin false)
  /\ banUser 700 (Some root) 1%nat sample_db
     = (Err (ValidationError "Cannot ban admin users" []), sample_db).
Proof.
  intros root. split; [reflexivity|].
  apply (proj2 (proj2 (banUser_effect 700 root 1%nat sample_db)) eq_refl
           (sample_user "root@x.com" admin false)); reflexivity.
Defined.

Lemma unbanUser_ok now (u : IUser) userId t db :
  role (doc u) = admin -> users db !! userId = Some t ->
  unbanUser now (Some u) userId db
  = (Ok {| status := 200; json := "User unbanned successfully" |},
     set_users (<[userId := set_isBanned now false t]> (users db)) db).
Proof.
  intros Hr Ht. apply admin_guard in Hr. simpl in Hr.
  unfold unbanUser, findById. run. rewrite Hr. simpl. by rewrite Ht.
Qed.

Lemma unbanUser_ok_inv now user userId db r db' :
  unbanUser now user userId db = (Ok r, db') ->
  exists target, users db !! userId = Some target
    /\ db' = set_users (<[userId := set_isBanned now false target]> (users db)) db.
Proof.
  unfold unbanUser, findById. run.
  destruct (negb _); simpl; [done|].
  destruct (users db !! userId) as [target|]; simpl; [|done].
  intros [= _ <-]. eauto.
Qed.

Lemma authenticate_valid env now t u db :
  jwt_verify (Signed t) (JWT_SECRET env) now = Ok (jwt_userId t) ->
  users db !! jwt_userId t = Some u -> isBanned u = false ->
  authenticate env now (Some (Signed t)) db = (Ok {| _id := jwt_userId t; doc := u |}, db).
Proof.
  intros Hv Hu Hb. unfold authenticate, findById.
  unfold try_catch, lift, throw, gets, throw_if, mbind, M_bind, mret, M_ret.
  rewrite Hv. simpl. rewrite Hu. simpl. by rewrite Hb.
Qed.

(** X3: A ban is undone by an unban: after a ban and a later unban of a user,
    a token issued before the ban and not yet expired authenticates
    again, as the same user with the same email, password and role; every
    other user, and all jobs and applications, are as before the ban. *)
Theorem ban_then_unban env issued banned_at unbanned_at now uid tok adm1 adm2
    r1 r2 target (db db1 db2 : Db) :
  users db !! uid = Some target ->
  jwt_sign uid (JWT_SECRET env) issued = Ok tok ->
  banUser banned_at adm1 uid db = (Ok r1, db1) ->
  unbanUser unbanned_at adm2 uid db1 = (Ok r2, db2) ->
  now / 1000 < issued / 1000 + seven_days ->
  (exists t', authenticate env now (Some tok) db2 = (Ok {| _id := uid; doc := t' |}, db2)
     /\ isBanned t' = false /\ email t' = email target
     /\ password t' = password target /\ role t' = role target)
  /\ (forall i, i <> uid -> users db2 !! i = users db !! i)
  /\ jobs db2 = jobs db /\ applications db2 = applications db.
Proof.
  intros Ht Hsign Hban Hunban Hlt.
  apply banUser_ok_inv in Hban as (t0 & Ht0 & ->).
  rewrite Ht in Ht0. injection Ht0 as <-.
  apply unbanUser_ok_inv in Hunban as (t1 & Ht1 & ->). simpl in Ht1.
  rewrite lookup_insert_eq in Ht1. injection Ht1 as <-. simpl.
  pose proof (jwt_sign_verify _ _ _ _ _ Hsign Hlt) as Hv.
  destruct (jwt_sign_ok_inv _ _ _ _ Hsign) as (k & Hk & _ & ->).
  set (t' := set_isBanned unbanned_at false (set_isBanned banned_at true target)).
  destruct (set_isBanned_fields unbanned_at false (set_isBanned banned_at true target))
    as (Hb & He & Hp & Hr & _).
  destruct (set_isBanned_fields banned_at true target) as (_ & He' & Hp' & Hr' & _).
  split; [|split; [|done]].
  - exists t'. split.
    + apply (authenticate_valid env now
               {| jwt_userId := uid; jwt_secret := k; jwt_exp := issued / 1000 + seven_days |}).
      * exact Hv.
      * simpl. apply lookup_insert_eq.
      * done.
    + subst t'. rewrite He, Hp, Hr. done.
  - intros i Hi. by rewrite !lookup_insert_ne.
Qed.

Lemma ban_then_unban_witness :
  let root := Some {| _id := 1%nat; doc := sample_user "root@x.com" admin false |} in
  let db1 := (banUser 800 root 4%nat sample_db).2 in
  let db2 := (unbanUser 900 root 4%nat db1).2 in
  exists t', authenticate bootstrap_env 1000
               (Some (Signed {| jwt_userId := 4%nat; jwt_secret := "s3cret";
                                jwt_exp := 0 / 1000 + seven_days |})) db2
             = (Ok {| _id := 4%nat; doc := t' |}, db2)
    /\ isBanned t' = false /\ email t' = "c@x.com"
    /\ password t' = bcrypt_hash "secret1" /\ role t' = candidate.
Proof.
  intros root db1 db2.
  apply (ban_then_unban bootstrap_env 0 800 900 1000 4%nat _ root root
           {| status := 200; json := "User banned successfully" |}
           {| status := 200; json := "User unbanned successfully" |}
           (sample_user "c@x.com" candidate false) sample_db db1 db2);
    [reflexivity|reflexivity|vm_compute; reflexivity|vm_compute; reflexivity|reflexivity].
Defined.

(** ** Deleting a user *)

Lemma deleteUser_run (u : IUser) userId t db :
  role (doc u) = admin -> users db !! userId = Some t -> role t <> admin ->
  deleteUser (Some u) userId db
  = (Ok {| status := 200; json := "User and associated data deleted successfully" |},
     after_deleteUser userId t db).
Proof.
  intros Hr Ht Hta. apply admin_guard in Hr. simpl in Hr.
  unfold deleteUser, after_deleteUser, findById, findByIdAndDelete. run.
  rewrite Hr. simpl. rewrite Ht. simpl.
  rewrite (bool_decide_eq_false_2 _ Hta). simpl.
  destruct (role t); simpl; done.
Qed.

(** X4: Deleting a user: an admin target is refused with a ValidationError
    and nothing changes. For a candidate the user and exactly its
    applications go, and no job is touched. For an employer the user, the
    jobs it created and the applications to those jobs go. In both cases
    every other user stays, every job of another creator stays, and an
    application stays unless it is the candidate's or names a deleted job. *)
Theorem deleteUser_effect (u : IUser) (userId : ObjectId) (t : User) (db : Db) :
  role (doc u) = admin -> users db !! userId = Some t ->
  (role t = admin ->
   deleteUser (Some u) userId db
   = (Err (ValidationError "Cannot delete admin users" []), db))
  /\ (role t <> admin ->
      exists r db',
        deleteUser (Some u) userId db = (Ok r, db')
        /\ users db' !! userId = None
        /\ (forall i, i <> userId -> users db' !! i = users db !! i)
        /\ (forall jid j, jobs db !! jid = Some j -> createdBy j <> userId ->
              jobs db' !! jid = Some j)
        /\ (role t = candidate ->
            jobs db' = jobs db
            /\ forall i a, applications db' !! i = Some a
                 <-> applications db !! i = Some a /\ candidateId a <> userId)
        /\ (role t = employer ->
            (forall jid j, jobs db' !! jid = Some j
               <-> jobs db !! jid = Some j /\ createdBy j <> userId)
            /\ forall i a, applications db' !! i = Some a
                 <-> applications db !! i = Some a
                     /\ ~ (exists j, jobs db !! jobId a = Some j /\ createdBy j = userId))).
Proof.
  intros Hr Ht. split.
  - intros Hta. apply admin_guard in Hr. simpl in Hr.
    unfold deleteUser, findById. run. rewrite Hr. simpl. rewrite Ht. simpl.
    by rewrite bool_decide_eq_true_2.
  - intros Hta. do 2 eexists. split; [by apply deleteUser_run|].
    unfold after_deleteUser.
    destruct (role t) eqn:Hrt; [done| |]; simpl.
    + (* employer *)
      split; [apply lookup_delete_eq|]. split; [intros i Hi; by apply lookup_delete_ne|].
      assert (Hjobs : forall jid j,
                 deleteMany (fun j => bool_decide (createdBy j = userId)) (jobs db) !! jid
                 = Some j <-> jobs db !! jid = Some j /\ createdBy j <> userId).
      { intros jid j. rewrite deleteMany_lookup, bool_decide_eq_false. done. }
      split; [intros jid j Hj Hc; by apply Hjobs|]. split; [done|]. intros _.
      split; [done|]. intros i a. rewrite deleteMany_lookup, bool_decide_eq_false.
      apply and_iff_compat_l. apply not_iff_compat.
      rewrite list_elem_of_fmap. split.
      * intros ([jid j] & -> & Hin). apply find_elem in Hin as [Hj Hc].
        apply bool_decide_eq_true in Hc. simpl. eauto.
      * intros (j & Hj & Hc). exists (jobId a, j). split; [done|].
        apply find_elem. split; [done|]. by apply bool_decide_eq_true.
    + (* candidate *)
      split; [apply lookup_delete_eq|]. split; [intros i Hi; by apply lookup_delete_ne|].
      split; [done|]. split; [|done]. intros _. split; [done|].
      intros i a. by rewrite deleteMany_lookup, bool_decide_eq_false.
Qed.

Lemma deleteUser_effect_witness :
  let root := {| _id := 1%nat; doc := sample_user "root@x.com" admin false |} in
  exists r db',
    deleteUser (Some root) 4%nat sample_db = (Ok r, db')
    /\ users db' !! 4%nat = None
    /\ jobs db' = jobs sample_db
    /\ applications db' = {[ 21%nat := sample_application 10%nat 5%nat 500 ]}.
Proof.
  intros root.
  destruct (proj2 (deleteUser_effect root 4%nat (sample_user "c@x.com" candidate false)
                     sample_db eq_refl eq_refl)) as (r & db' & Hrun & Hgone & _ & _ & Hc & _);
    [discriminate|].
  exists r, db'. split; [exact Hrun|]. split; [exact Hgone|].
  split; [exact (proj1 (Hc eq_refl))|].
  rewrite (deleteUser_run root 4%nat (sample_user "c@x.com" candidate false) sample_db
             eq_refl eq_refl) in Hrun by discriminate.
  injection Hrun as _ <-. vm_compute. reflexivity.
Defined.

(** ** Registration, login and the token *)

Lemma emailRegex_nonempty e : emailRegex_test e = true -> e <> "".
Proof. by intros H ->. Qed.

Lemma registration_errors_nil b :
  registration_errors b = [] <->
  exists e p r,
    b_email b = Some e /\ b_password b = Some p /\ b_role b = Some r
    /\ emailRegex_test e = true /\ (6 <= String.length p)%nat
    /\ is_Some (role_of_string r).
Proof.
  unfold registration_errors. destruct b as [[e|] [p|] [r|]]; simpl.
  2-8: split; [|by intros (? & ? & ? & ? & ? & ? & _)].
  2-8: repeat (match goal with |- context [bool_decide ?P] => destruct (bool_decide P) end);
       simpl; try discriminate;
       repeat (match goal with |- context [if ?c then _ else _] => destruct c end);
       simpl; discriminate.
  split.
  - intros H.
    destruct (bool_decide (e = "")) eqn:He; simpl in H; [done|].
    destruct (bool_decide (p = "")) eqn:Hp; simpl in H; [done|].
    destruct (bool_decide (r = "")) eqn:Hr; simpl in H; [done|].
    destruct (emailRegex_test e) eqn:Hre; simpl in H; [|done].
    destruct (bool_decide (String.length p < 6)%nat) eqn:Hlen; simpl in H; [done|].
    destruct (bool_decide (is_Some (role_of_string r))) eqn:Hro; simpl in H; [|done].
    apply bool_decide_eq_false in Hlen. apply bool_decide_eq_true in Hro.
    exists e, p, r. repeat split; try done. lia.
  - intros (e' & p' & r' & [= <-] & [= <-] & [= <-] & Hre & Hlen & Hro).
    assert (He : e <> "") by by apply emailRegex_nonempty.
    assert (Hp : p <> "") by (intros ->; simpl in Hlen; lia).
    assert (Hr : r <> "") by (intros ->; by destruct Hro).
    rewrite !bool_decide_eq_false_2 by done. simpl. rewrite Hre. simpl.
    rewrite (bool_decide_eq_false_2 (String.length p < 6)%nat) by lia. simpl.
    by rewrite bool_decide_eq_true_2.
Qed.

Lemma validateRegistration_fields b db e p r :
  validateRegistration b db = (Ok (e, p, r), db) ->
  b_email b = Some e /\ b_password b = Some p /\ b_role b = Some r.
Proof.
  unfold validateRegistration, throw, mret, M_ret.
  destruct (registration_errors b), (b_email b), (b_password b), (b_role b);
    try done. by intros [= <- <- <-].
Qed.

(** X5: On a body whose email and password are ASCII text,
    [validateRegistration] lets the body through exactly when it has an
    email the pattern accepts, a password of six characters or more and
    one of the three role names; every other body is refused with a
    ValidationError that carries at least one message. It never writes. *)
Theorem validateRegistration_passes (b : RegistrationBody) (db : Db) :
  ascii_or_absent (b_email b) = true -> ascii_or_absent (b_password b) = true ->
  ((exists body, validateRegistration b db = (Ok body, db)) <->
   exists e p r,
     b_email b = Some e /\ b_password b = Some p /\ b_role b = Some r
     /\ emailRegex_test e = true /\ (6 <= String.length p)%nat
     /\ is_Some (role_of_string r))
  /\ (forall e p r, validateRegistration b db = (Ok (e, p, r), db) ->
        b_email b = Some e /\ b_password b = Some p /\ b_role b = Some r)
  /\ ((exists body, validateRegistration b db = (Ok body, db))
      \/ exists errors, errors <> []
           /\ validateRegistration b db
              = (Err (ValidationError "Validation failed" errors), db)).
Proof.
  intros _ _.
  pose proof (registration_errors_nil b) as Hnil.
  unfold validateRegistration, throw, mret, M_ret.
  destruct (registration_errors b) as [|m errors] eqn:Herr.
  - destruct (proj1 Hnil eq_refl) as (e & p & r & He & Hp & Hr & Hrest).
    rewrite He, Hp, Hr. split; [|split].
    + split; [intros _; eauto 10|eauto].
    + by intros e' p' r' [= <- <- <-].
    + left. eauto.
  - split; [|split].
    + split; [by intros [? ?]|]. intros H. apply Hnil in H. done.
    + done.
    + right. exists (m :: errors). done.
Qed.

Lemma validateRegistration_passes_witness :
  exists body,
    validateRegistration {| b_email := Some "n@x.com"; b_password := Some "secret1";
                            b_role := Some "employer" |} sample_db
    = (Ok body, sample_db).
Proof.
  apply (proj1 (validateRegistration_passes
                  {| b_email := Some "n@x.com"; b_password := Some "secret1";
                     b_role := Some "employer" |} sample_db eq_refl eq_refl)).
  exists "n@x.com", "secret1", "employer".
  repeat split; [vm_compute; lia|by eexists].
Defined.

Lemma findOne_unique_email db id (u : User) :
  emails_unique db -> users db !! id = Some u ->
  findOne (fun d => bool_decide (email d = email u)) (users db) = Some (id, u).
Proof.
  intros Huniq Hu.
  destruct (findOne _ (users db)) as [[i d]|] eqn:Hf.
  - apply findOne_Some in Hf as [Hd He]. apply bool_decide_eq_true in He.
    pose proof (Huniq i id d u Hd Hu He) as ->. rewrite Hu in Hd. by injection Hd as ->.
  - rewrite findOne_None in Hf. specialize (Hf id u Hu).
    by apply bool_decide_eq_false in Hf.
Qed.

Lemma login_read_only env now body db : (login env now body db).2 = db.
Proof.
  destruct body as [e p]. unfold login, jwt_sign. run.
  destruct (findOne _ (users db)) as [[id u]|]; simpl; [|done].
  destruct (isBanned u); simpl; [done|].
  destruct (negb _); simpl; [done|]. by destruct (usable_secret _).
Qed.

Lemma bcrypt_compare_key (p p0 : string) :
  bcrypt_compare p (bcrypt_hash p0) = bool_decide (bcrypt_key p = bcrypt_key p0).
Proof.
  unfold bcrypt_compare, bcrypt_hash. apply bool_decide_ext.
  split; [by intros [= ->]|by intros ->].
Qed.

Lemma login_stored_user env now (p p0 : string) (db : Db) id (u : User) :
  emails_unique db -> users db !! id = Some u ->
  (isBanned u = true ->
   login env now (email u, p) db = (Err (AuthenticationError "User is banned"), db))
  /\ (isBanned u = false -> password u = bcrypt_hash p0 ->
      bcrypt_key p <> bcrypt_key p0 ->
      login env now (email u, p) db
      = (Err (AuthenticationError "Invalid credentials"), db))
  /\ (isBanned u = false -> password u = bcrypt_hash p0 ->
      bcrypt_key p = bcrypt_key p0 ->
      (forall k, JWT_SECRET env = Some k -> k <> "" ->
         login env now (email u, p) db
         = (Ok {| status := 200;
                  json := {| r_token := Signed {| jwt_userId := id; jwt_secret := k;
                                                  jwt_exp := now / 1000 + seven_days |};
                             r_id := id; r_email := email u; r_role := role u |} |}, db))
      /\ (usable_secret (JWT_SECRET env) = None ->
          login env now (email u, p) db
          = (Err (GenericError "secretOrPrivateKey must have a value"), db))).
Proof.
  intros Huniq Hu.
  pose proof (findOne_unique_email db id u Huniq Hu) as Hf.
  unfold login, jwt_sign. run. rewrite Hf. simpl.
  split; [|split].
  - by intros ->.
  - intros -> -> Hp. simpl. rewrite bcrypt_compare_key.
    by rewrite bool_decide_eq_false_2.
  - intros -> -> Hp. simpl. rewrite bcrypt_compare_key.
    rewrite bool_decide_eq_true_2 by done. simpl. split.
    + intros k Hk Hk'. by rewrite Hk, (usable_secret_Some k Hk').
    + by intros ->.
Qed.

(** X6: Login never writes the store. An email no user has is refused. For
    the (one) user with the email, a banned account is refused as banned
    whatever the password. bcrypt reads the first 72 bytes of a password:
    a password that has the first 72 bytes of the user's password, the
    password itself or a longer one, is answered with a token for that
    user that expires seven days later, or with the plain error of
    jsonwebtoken when no secret is set; a password that differs within
    those bytes (neither holding a NUL byte) is refused with the same
    message as an unknown email. *)
Theorem login_outcomes env now (e p : string) (db : Db) :
  (login env now (e, p) db).2 = db
  /\ (~ email_taken db e ->
      login env now (e, p) db = (Err (AuthenticationError "Invalid credentials"), db))
  /\ (emails_unique db ->
      forall id u, users db !! id = Some u -> email u = e ->
        (isBanned u = true ->
         login env now (e, p) db = (Err (AuthenticationError "User is banned"), db))
        /\ (isBanned u = false ->
            forall p0, password u = bcrypt_hash p0 ->
              (no_nul p0 = true -> no_nul p = true ->
               bcrypt_key p <> bcrypt_key p0 ->
               login env now (e, p) db
               = (Err (AuthenticationError "Invalid credentials"), db))
              /\ (bcrypt_key p = bcrypt_key p0 ->
                  forall k, JWT_SECRET env = Some k -> k <> "" ->
                    login env now (e, p) db
                    = (Ok {| status := 200;
                             json := {| r_token :=
                                          Signed {| jwt_userId := id; jwt_secret := k;
                                                    jwt_exp := now / 1000 + seven_days |};
                                        r_id := id; r_email := e; r_role := role u |} |},
                       db))
              /\ (bcrypt_key p = bcrypt_key p0 ->
                  usable_secret (JWT_SECRET env) = None ->
                  login env now (e, p) db
                  = (Err (GenericError "secretOrPrivateKey must have a value"), db)))).
Proof.
  split; [apply login_read_only|]. split.
  - intros Hfree. rewrite <- email_query in Hfree. apply not_true_is_false in Hfree.
    apply bool_decide_eq_false in Hfree.
    unfold login. run.
    destruct (findOne _ (users db)) as [x|]; [|done]. exfalso. by apply Hfree.
  - intros Huniq id u Hu <-. split.
    + apply (login_stored_user env now p p db id u Huniq Hu).
    + intros Hb p0 Hp0.
      destruct (login_stored_user env now p p0 db id u Huniq Hu) as (_ & Hbad & Hok).
      split; [intros _ _; by apply Hbad|].
      split; [intros Hkey; by apply (Hok Hb Hp0 Hkey)|].
      intros Hkey. by apply (Hok Hb Hp0 Hkey).
Qed.

Lemma emails_unique_decide db :
  map_Forall (fun i u => map_Forall (fun j v => email u = email v -> i = j) (users db))
    (users db) ->
  emails_unique db.
Proof. intros H i j u v Hu Hv. by apply (H i u Hu j v Hv). Qed.

Lemma sample_db_emails_unique : emails_unique sample_db.
Proof.
  apply emails_unique_decide.
  apply (bool_decide_eq_true_1 _). vm_compute. reflexivity.
Qed.

Lemma login_outcomes_witness :
  login bootstrap_env 700 ("c@x.com", "secret2") sample_db
  = (Err (AuthenticationError "Invalid credentials"), sample_db).
Proof.
  apply (proj1 (proj2 (proj2 (proj2 (login_outcomes bootstrap_env 700 "c@x.com" "secret2"
                                       sample_db))
                         sample_db_emails_unique 4%nat
                         (sample_user "c@x.com" candidate false) eq_refl eq_refl)
                  eq_refl "secret1" eq_refl));
    [reflexivity|reflexivity|discriminate].
Defined.

Lemma email_index_free_inv (u : User) (c : gmap ObjectId User) :
  first_violation UserSchema_indexes u c = None ->
  forall id d, c !! id = Some d -> email d <> email u.
Proof.
  unfold first_violation, UserSchema_indexes, violates. simpl.
  case_bool_decide as Hf; [done|]. intros _ id d Hd Heq.
  rewrite findOne_None in Hf.
  specialize (Hf id d Hd). apply bool_decide_eq_false in Hf.
  apply Hf. by rewrite Heq.
Qed.

(** What a save of a user does: nothing and an error, or one new document
    under an unused id whose email no stored user has. *)
Lemma User_save_inv now f db r db' :
  User_save now f db = (r, db') ->
  (db' = db /\ exists e, r = Err e)
  \/ exists id u,
       r = Ok (id, u) /\ db' = set_users (<[id := u]> (users db)) db
       /\ users db !! id = None
       /\ (forall i d, users db !! i = Some d -> email d <> email u)
       /\ email u = f_email f /\ password u = f_password f
       /\ role_of_string (f_role f) = Some (role u)
       /\ isBanned u = default false (f_isBanned f).
Proof.
  unfold User_save. case_bool_decide as He; [intros [= <- <-]; eauto|].
  destruct (role_of_string (f_role f)) as [ro|] eqn:Hro; [|intros [= <- <-]; eauto].
  unfold insertOne.
  destruct (first_violation _ _ _) as [ix|] eqn:Hv; [intros [= <- <-]; eauto|].
  intros [= <- <-]. right. do 2 eexists. split; [done|]. split; [done|].
  split; [apply fresh_lookup|]. split; [|done].
  by apply email_index_free_inv.
Qed.

Lemma register_ok_inv env now e p r db resp db' :
  register env now (e, p, r) db = (Ok resp, db') ->
  ~ email_taken db e /\ e <> ""
  /\ exists ro k, role_of_string r = Some ro /\ JWT_SECRET env = Some k /\ k <> "".
Proof.
  intros Hrun.
  destruct (bool_decide (is_Some (findOne (fun u => bool_decide (email u = e)) (users db))))
    eqn:Hq.
  { apply email_query in Hq. by rewrite (register_same_email env now e p r db Hq) in Hrun. }
  assert (Hfree : ~ email_taken db e).
  { rewrite <- email_query. by rewrite Hq. }
  split; [done|].
  revert Hrun. unfold register, User_save, jwt_sign.
  unfold throw_if, throw, gets, lift, mbind, M_bind, mret, M_ret.
  rewrite Hq. simpl.
  destruct (decide (e = "")) as [He|He];
    [by rewrite (bool_decide_eq_true_2 _ He)|rewrite (bool_decide_eq_false_2 _ He)].
  destruct (role_of_string r) as [ro|]; [|done].
  destruct (insertOne _ _ _) as [[id|err] c]; [|done]. simpl.
  unfold usable_secret. destruct (JWT_SECRET env) as [k|]; [|done].
  destruct (decide (k = "")) as [Hk|Hk];
    [by rewrite (bool_decide_eq_true_2 _ Hk)|rewrite (bool_decide_eq_false_2 _ Hk)].
  intros _. split; [done|]. by exists ro, k.
Qed.

(** X7: Round trip of an account, for a body whose email and password are
    ASCII text: after a successful registration, logging in with the same
    email and password succeeds as the same user, and so does every
    password that has the first 72 bytes of the registered one; a password
    that differs within those bytes (neither holding a NUL byte) is
    refused; and the token the registration answered with authenticates
    as the new user until seven days have passed. *)
Theorem register_login_roundtrip env now1 now2 (b : RegistrationBody) r (db db' : Db) :
  emails_unique db ->
  ascii_or_absent (b_email b) = true -> ascii_or_absent (b_password b) = true ->
  route_register env now1 b db = (Ok r, db') ->
  exists e p,
    b_email b = Some e /\ b_password b = Some p
    /\ (forall p', bcrypt_key p' = bcrypt_key p ->
          exists r2, login env now2 (e, p') db' = (Ok r2, db')
            /\ r_id (json r2) = r_id (json r) /\ r_email (json r2) = e
            /\ r_role (json r2) = r_role (json r))
    /\ (forall p', no_nul p = true -> no_nul p' = true ->
          bcrypt_key p' <> bcrypt_key p ->
          login env now2 (e, p') db'
          = (Err (AuthenticationError "Invalid credentials"), db'))
    /\ (forall now3, now3 / 1000 < now1 / 1000 + seven_days ->
          exists u, authenticate env now3 (Some (r_token (json r))) db' = (Ok u, db')
            /\ _id u = r_id (json r) /\ email (doc u) = e /\ isBanned (doc u) = false).
Proof.
  intros Huniq _ _. unfold route_register. unfold mbind at 1. unfold M_bind at 1.
  destruct (validateRegistration b db) as [[[[e p] ro_]|err] db0] eqn:Hval; [|done].
  assert (db0 = db) as ->.
  { revert Hval. unfold validateRegistration, throw, mret, M_ret.
    destruct (registration_errors b), (b_email b), (b_password b), (b_role b);
      by intros [= _ <-]. }
  destruct (validateRegistration_fields b db e p ro_ Hval) as (He & Hp & Hr).
  intros Hrun. exists e, p. split; [done|]. split; [done|].
  destruct (register_ok_inv _ _ _ _ _ _ _ _ Hrun)
    as (Hfree & Hne & ro & k & Hro & Hk & Hk').
  rewrite (register_other_email env now1 e p ro_ k ro db Hfree Hne Hro Hk Hk') in Hrun.
  injection Hrun as <- <-. simpl.
  set (id := fresh (dom (users db))).
  set (u := {| email := e; password := bcrypt_hash p; firstName := None;
               lastName := None; company := None; role := ro; isBanned := false;
               u_createdAt := now1; u_updatedAt := now1 |}).
  set (db' := set_users (<[id := u]> (users db)) db).
  assert (Hid : users db !! id = None) by apply fresh_lookup.
  assert (Hu : users db' !! id = Some u) by apply lookup_insert_eq.
  assert (Huniq' : emails_unique db').
  { intros i j x y Hx Hy Hxy. simpl in Hx, Hy.
    destruct (decide (i = id)) as [->|Hi], (decide (j = id)) as [->|Hj]; [done| | |].
    - rewrite lookup_insert_eq in Hx. rewrite lookup_insert_ne in Hy by done.
      injection Hx as <-. exfalso. apply Hfree. exists j, y. simpl in Hxy. done.
    - rewrite lookup_insert_eq in Hy. rewrite lookup_insert_ne in Hx by done.
      injection Hy as <-. exfalso. apply Hfree. exists i, x. simpl in Hxy. done.
    - rewrite lookup_insert_ne in Hx, Hy by done. by apply (Huniq i j x y). }
  split; [|split].
  - intros p' Hkey.
    destruct (login_stored_user env now2 p' p db' id u Huniq' Hu) as (_ & _ & Hok).
    eexists. split; [apply (proj1 (Hok eq_refl eq_refl Hkey) k Hk Hk')|]. done.
  - intros p' _ _ Hkey.
    destruct (login_stored_user env now2 p' p db' id u Huniq' Hu) as (_ & Hbad & _).
    by apply Hbad.
  - intros now3 Hlt. exists {| _id := id; doc := u |}. split; [|done].
    apply (authenticate_valid env now3
             {| jwt_userId := id; jwt_secret := k; jwt_exp := now1 / 1000 + seven_days |});
      [|done|done].
    unfold jwt_verify. rewrite Hk, (usable_secret_Some k Hk'). simpl.
    rewrite bool_decide_eq_true_2 by done. simpl.
    by rewrite bool_decide_eq_false_2 by lia.
Qed.

Lemma register_login_roundtrip_witness :
  let b := {| b_email := Some "n@x.com"; b_password := Some "secret1";
              b_role := Some "employer" |} in
  let db' := (route_register bootstrap_env 700 b sample_db).2 in
  is_ok (route_register bootstrap_env 700 b sample_db).1
  /\ exists r2, login bootstrap_env 900 ("n@x.com", "secret1") db' = (Ok r2, db')
       /\ r_id (json r2) = 6%nat /\ r_role (json r2) = employer.
Proof.
  intros b db'. split; [exact I|].
  destruct (route_register bootstrap_env 700 b sample_db) as [[r|err] db0] eqn:Hrun;
    [|vm_compute in Hrun; discriminate Hrun].
  assert (Hdb : db' = db0) by (subst db'; first [reflexivity|by rewrite Hrun]).
  rewrite Hdb.
  destruct (register_login_roundtrip bootstrap_env 700 900 b r sample_db db0
              sample_db_emails_unique eq_refl eq_refl Hrun)
    as (e & p & [= <-] & [= <-] & Hsame & _).
  destruct (Hsame "secret1" eq_refl) as (r2 & Hlogin & Hid & _ & Hrole).
  exists r2. split; [exact Hlogin|].
  vm_compute in Hrun. injection Hrun as <- _. rewrite Hid, Hrole. done.
Defined.

(** ** Listings: sorting and completeness *)

Lemma sort_desc_sorted {A} (key : A -> Z) (l : list A) :
  StronglySorted (fun x y => key y <= key x) (sort_desc key l).
Proof.
  unfold sort_desc. apply StronglySorted_merge_sort.
  - intros x y z Hxy Hyz. lia.
  - intros x y. lia.
Qed.

Lemma sort_desc_NoDup {A} (key : A -> Z) (l : list A) :
  NoDup l -> NoDup (sort_desc key l).
Proof. unfold sort_desc. by rewrite merge_sort_Permutation. Qed.

Lemma sort_desc_length {A} (key : A -> Z) (l : list A) :
  length (sort_desc key l) = length l.
Proof. unfold sort_desc. by rewrite merge_sort_Permutation. Qed.

Lemma find_NoDup {D} (q : D -> bool) (c : gmap ObjectId D) : NoDup (find q c).
Proof. unfold find. apply NoDup_map_to_list. Qed.

Lemma find_length {D} (q : D -> bool) (c : gmap ObjectId D) :
  length (find q c) = countDocuments q c.
Proof. unfold find, countDocuments. by rewrite length_map_to_list. Qed.

Lemma employer_or_admin_guard (u : IUser) :
  negb (bool_decide (user_role (Some u) = Some employer))
  && negb (bool_decide (user_role (Some u) = Some admin)) = false
  <-> role (doc u) <> candidate.
Proof.
  unfold user_role, compose. simpl. destruct (role (doc u)); simpl; split; done.
Qed.

(** X8: A principal's own jobs: a candidate is refused; an employer or admin
    gets every stored job it created and no other, each once, newest
    first. The store is not written. *)
Theorem getMyJobs_listing (u : IUser) (db : Db) :
  (role (doc u) = candidate ->
   getMyJobs (Some u) db
   = (Err (AuthorizationError "Only employers can access this route"), db))
  /\ (role (doc u) <> candidate ->
      exists l,
        getMyJobs (Some u) db = (Ok {| status := 200; json := l |}, db)
        /\ (forall id j, (id, j) ∈ l <-> jobs db !! id = Some j /\ createdBy j = _id u)
        /\ NoDup l
        /\ StronglySorted (fun x y => j_createdAt y.2 <= j_createdAt x.2) l).
Proof.
  split.
  - intros Hr. unfold getMyJobs. run. unfold compose. by rewrite Hr.
  - intros Hr. apply employer_or_admin_guard in Hr. simpl in Hr.
    eexists. split; [|split; [|split]].
    + unfold getMyJobs. run. rewrite Hr. reflexivity.
    + intros id j. rewrite sort_desc_elem, find_elem, bool_decide_eq_true.
      simpl. split; intros [? H]; (split; [done|]); congruence.
    + apply sort_desc_NoDup, find_NoDup.
    + apply (sort_desc_sorted (fun kv : ObjectId * Job => j_createdAt kv.2)).
Qed.

Lemma getMyJobs_listing_witness :
  let e := {| _id := 2%nat; doc := sample_user "e@x.com" employer false |} in
  exists l,
    getMyJobs (Some e) sample_db = (Ok {| status := 200; json := l |}, sample_db)
    /\ l.*1 = [11%nat; 10%nat]
    /\ (forall id j, (id, j) ∈ l <->
          jobs sample_db !! id = Some j /\ createdBy j = 2%nat).
Proof.
  intros e.
  destruct (proj2 (getMyJobs_listing e sample_db)) as (l & Hrun & Hl & _);
    [discriminate|].
  exists l. split; [exact Hrun|]. split; [|exact Hl].
  vm_compute in Hrun. injection Hrun as <-. reflexivity.
Defined.

(** X9: A candidate's own applications: any other role is refused; a
    candidate gets every stored application it made and no other, each
    once, newest first, each with the title, company, location and type of
    its job when the job is stored. The store is not written. *)
Theorem getMyApplications_listing (u : IUser) (db : Db) :
  (role (doc u) <> candidate ->
   getMyApplications (Some u) db
   = (Err (AuthorizationError "Only candidates can access this route"), db))
  /\ (role (doc u) = candidate ->
      exists l,
        getMyApplications (Some u) db
        = (Ok {| status := 200; json := populate_my_application db <$> l |}, db)
        /\ (forall id a, (id, a) ∈ l <->
              applications db !! id = Some a /\ candidateId a = _id u)
        /\ NoDup l
        /\ StronglySorted (fun x y => appliedAt y.2 <= appliedAt x.2) l).
Proof.
  split.
  - intros Hr. unfold getMyApplications. run. unfold compose.
    by rewrite bool_decide_eq_false_2 by congruence.
  - intros Hr. eexists. split; [|split; [|split]].
    + unfold getMyApplications. run. unfold compose. rewrite Hr. simpl. reflexivity.
    + intros id a. rewrite sort_desc_elem, find_elem, bool_decide_eq_true.
      simpl. split; intros [? H]; (split; [done|]); congruence.
    + apply sort_desc_NoDup, find_NoDup.
    + apply (sort_desc_sorted (fun kv : ObjectId * Application => appliedAt kv.2)).
Qed.

Lemma getMyApplications_listing_witness :
  let c := {| _id := 4%nat; doc := sample_user "c@x.com" candidate false |} in
  exists l,
    getMyApplications (Some c) sample_db
    = (Ok {| status := 200; json := populate_my_application sample_db <$> l |}, sample_db)
    /\ l.*1 = [22%nat; 20%nat].
Proof.
  intros c.
  destruct (proj2 (getMyApplications_listing c sample_db) eq_refl) as (l & Hrun & Hl & _).
  exists l. split; [exact Hrun|].
  assert (H0 : match (getMyApplications (Some c) sample_db).1 with
               | Ok r => ma_id <$> json r
               | Err _ => []
               end = [22%nat; 20%nat]) by (vm_compute; reflexivity).
  rewrite Hrun in H0. simpl in H0. rewrite <- list_fmap_compose in H0. exact H0.
Defined.

(** ** Creating a job *)

Lemma validateJobCreation_ok b db r db' :
  validateJobCreation b db = (Ok r, db') ->
  db' = db
  /\ exists t d c l ty,
       jb_title b = Some t /\ jb_description b = Some d /\ jb_companyName b = Some c
       /\ jb_location b = Some l /\ jb_jobType b = Some ty
       /\ t <> "" /\ d <> "" /\ c <> "" /\ l <> "" /\ ty <> "".
Proof.
  unfold validateJobCreation, throw_if, throw, mret, M_ret.
  destruct (jb_title b) as [t|], (jb_description b) as [d|], (jb_companyName b) as [c|],
    (jb_location b) as [l|], (jb_jobType b) as [ty|]; simpl;
    rewrite ?orb_true_r; simpl; try done.
  destruct (decide (t = "")) as [->|Ht]; [done|].
  rewrite (bool_decide_eq_false_2 _ Ht). simpl.
  destruct (decide (d = "")) as [->|Hd]; [done|].
  rewrite (bool_decide_eq_false_2 _ Hd). simpl.
  destruct (decide (c = "")) as [->|Hc]; [done|].
  rewrite (bool_decide_eq_false_2 _ Hc). simpl.
  destruct (decide (l = "")) as [->|Hl]; [done|].
  rewrite (bool_decide_eq_false_2 _ Hl). simpl.
  destruct (decide (ty = "")) as [->|Hty]; [done|].
  rewrite (bool_decide_eq_false_2 _ Hty). simpl.
  intros [= _ <-]. split; [done|]. eauto 20.
Qed.

Lemma validateJobCreation_refuses b db :
  truthy (jb_title b) = false \/ truthy (jb_description b) = false
  \/ truthy (jb_companyName b) = false \/ truthy (jb_location b) = false
  \/ truthy (jb_jobType b) = false ->
  validateJobCreation b db
  = (Err (ValidationError "Job validation failed"
            ["Title, description, company name, location, and job type are required"]), db).
Proof.
  unfold validateJobCreation, throw_if, throw.
  intros [-> | [-> | [-> | [-> | ->]]]]; simpl; rewrite ?orb_true_r; done.
Qed.

(** X10: Creating a job. A candidate is refused with AuthorizationError. For an
    employer or admin, every body [validateJobCreation] lets through is
    accepted by the schema: the job is stored under an unused id with the
    fields of the body (the salary range as given, whatever its bounds),
    [createdBy] the principal and status Active, and nothing else changes;
    its creator can then update and delete it. A body with one of the five
    texts missing or empty never reaches the handler on the route. *)
Theorem createJob_owner now (u : IUser) (b : JobBody) (db : Db) :
  (role (doc u) = candidate ->
   createJob now (Some u) b db
   = (Err (AuthorizationError "Only employers can create jobs"), db))
  /\ (role (doc u) <> candidate -> validateJobCreation b db = (Ok tt, db) ->
      exists id j,
        createJob now (Some u) b db
        = (Ok {| status := 201; json := (id, j) |}, set_jobs (<[id := j]> (jobs db)) db)
        /\ jobs db !! id = None
        /\ createdBy j = _id u /\ jobStatus j = Active
        /\ jb_title b = Some (title j) /\ jb_description b = Some (description j)
        /\ jb_companyName b = Some (companyName j) /\ jb_location b = Some (location j)
        /\ jb_jobType b = Some (jobType j) /\ salaryRange j = jb_salaryRange b
        /\ skills j = default [] (jb_skills b)
        /\ (forall now' updates,
              is_ok (updateJob now' (Some u) id updates
                       (set_jobs (<[id := j]> (jobs db)) db)).1)
        /\ is_ok (deleteJob (Some u) id (set_jobs (<[id := j]> (jobs db)) db)).1)
  /\ (truthy (jb_title b) = false \/ truthy (jb_description b) = false
      \/ truthy (jb_companyName b) = false \/ truthy (jb_location b) = false
      \/ truthy (jb_jobType b) = false ->
      exists errors,
        (validateJobCreation b;; createJob now (Some u) b) db
        = (Err (ValidationError "Job validation failed" errors), db)).
Proof.
  split; [|split].
  - intros Hr. unfold createJob. run. unfold compose. by rewrite Hr.
  - intros Hr Hval. apply employer_or_admin_guard in Hr. simpl in Hr.
    apply validateJobCreation_ok in Hval
      as (_ & t & d & c & l & ty & Ht & Hd & Hc & Hl & Hty & ? & ? & ? & ? & ?).
    set (j := {| title := t; description := d; companyName := c; location := l;
                 jobType := ty; salaryRange := jb_salaryRange b;
                 skills := default [] (jb_skills b); createdBy := _id u;
                 jobStatus := Active; j_createdAt := now; j_updatedAt := now |}).
    exists (fresh (dom (jobs db))), j.
    assert (Hown : owns_or_admin u j) by (by right).
    split; [|split; [apply fresh_lookup|]].
    + unfold createJob, Job_save. run. rewrite Hr. simpl.
      rewrite Ht, Hd, Hc, Hl, Hty. rewrite !bool_decide_eq_false_2 by done. done.
    + repeat (split; [done|]). split.
      * intros now' updates.
        rewrite (updateJob_authorized now' u _ updates j); [exact I| |done].
        apply lookup_insert_eq.
      * rewrite (deleteJob_authorized u _ j); [exact I| |done]. apply lookup_insert_eq.
  - intros H. eexists. unfold mbind, M_bind.
    by rewrite (validateJobCreation_refuses b db H).
Qed.

Lemma createJob_owner_witness :
  let e := {| _id := 3%nat; doc := sample_user "f@x.com" employer false |} in
  let b := {| jb_title := Some "QA Engineer"; jb_description := Some "Test things";
              jb_companyName := Some "Acme"; jb_location := Some "Remote";
              jb_jobType := Some "contract";
              jb_salaryRange := Some (Some 900, Some 100); jb_skills := None |} in
  exists id j,
    createJob 700 (Some e) b sample_db
    = (Ok {| status := 201; json := (id, j) |}, set_jobs (<[id := j]> (jobs sample_db)) sample_db)
    /\ createdBy j = 3%nat /\ jobStatus j = Active
    /\ salaryRange j = Some (Some 900, Some 100).
Proof.
  intros e b.
  destruct (proj1 (proj2 (createJob_owner 700 e b sample_db)))
    as (id & j & Hrun & _ & Hc & Hs & _ & _ & _ & _ & _ & Hsal & _);
    [discriminate|reflexivity|].
  exists id, j. repeat split; done.
Defined.

(** ** What a request can do to the store *)

(** Split on the tests a handler makes, outermost first. *)
Ltac split_tests :=
  repeat (simpl; match goal with
          | |- context [if ?c then _ else _] => destruct c eqn:?
          | |- context [match ?x with Some _ => _ | None => _ end] => destruct x eqn:?
          | |- context [match ?x with Ok _ => _ | Err _ => _ end] => destruct x eqn:?
          end).

Ltac unfold_monad :=
  unfold void, gated, throw_if, throw, gets, lift, res_json, respond_page, try_catch,
    update_users, update_jobs, update_applications, mbind, M_bind, mret, M_ret.

Lemma void_store {A} (m : M A) db : (void m db).2 = (m db).2.
Proof. unfold void, mbind, M_bind, mret, M_ret. by destruct (m db) as [[a|e] db']. Qed.

Lemma authenticate_cases env now auth db :
  (exists m, authenticate env now auth db = (Err (AuthenticationError m), db))
  \/ exists u, authenticate env now auth db = (Ok u, db)
       /\ users db !! _id u = Some (doc u) /\ isBanned (doc u) = false.
Proof.
  destruct (authenticate env now auth db) as [[u|e] db'] eqn:Hrun.
  - right. apply authenticate_ok_inv in Hrun as Hinv. destruct Hinv as (-> & ? & ?). eauto.
  - left. pose proof (authenticate_read_only env now auth db) as Hro.
    rewrite Hrun in Hro. simpl in Hro. subst db'.
    destruct (authenticate_error_kind env now auth db e) as [m ->]; [by rewrite Hrun|].
    eauto.
Qed.

(** The two gates in front of a handler: the request is refused and
    nothing is written, or the handler runs for a stored principal that is
    not banned and has one of the roles. *)
Lemma gated_cases {A} env now auth roles (handler : IUser -> M A) db :
  (exists e, gated env now auth roles handler db = (Err e, db))
  \/ exists u, users db !! _id u = Some (doc u) /\ isBanned (doc u) = false
       /\ role (doc u) ∈ roles
       /\ gated env now auth roles handler db = handler u db.
Proof.
  unfold gated, authorize, throw_if, throw, mbind, M_bind, mret, M_ret.
  destruct (authenticate_cases env now auth db) as [[m Ha]|(u & Ha & Hu & Hb)];
    rewrite Ha; [eauto|].
  destruct (decide (role (doc u) ∈ roles)) as [Hr|Hr].
  - rewrite (bool_decide_eq_true_2 _ Hr). simpl. right. exists u. done.
  - rewrite (bool_decide_eq_false_2 _ Hr). simpl. left. eauto.
Qed.

Lemma gated_effect {A} env now auth roles (handler : IUser -> M A) db :
  (forall u, users db !! _id u = Some (doc u) -> role (doc u) ∈ roles ->
     Effect db (handler u db).2) ->
  Effect db (gated env now auth roles handler db).2.
Proof.
  intros H. destruct (gated_cases env now auth roles handler db)
    as [[e ->]|(u & Hu & _ & Hr & ->)]; [constructor|by apply H].
Qed.

Lemma effect_of_read_only {A} (m : M A) db : (m db).2 = db -> Effect db (m db).2.
Proof. intros ->. constructor. Qed.

Lemma User_save_effect now f db : Effect db (User_save now f db).2.
Proof.
  destruct (User_save now f db) as [r db'] eqn:Hrun.
  apply User_save_inv in Hrun as [[-> _]|(id & u & _ & -> & Hid & Hfree & _)];
    simpl; [constructor|by constructor].
Qed.

Lemma route_register_effect env now b db : Effect db (route_register env now b db).2.
Proof.
  unfold route_register. unfold mbind at 1. unfold M_bind at 1.
  destruct (validateRegistration b db) as [[[[e p] r]|err] db0] eqn:Hval.
  2:{ revert Hval. unfold validateRegistration, throw, mret, M_ret.
      destruct (registration_errors b), (b_email b), (b_password b), (b_role b);
        intros [= _ <-]; constructor. }
  assert (db0 = db) as ->.
  { revert Hval. unfold validateRegistration, throw, mret, M_ret.
    destruct (registration_errors b), (b_email b), (b_password b), (b_role b);
      by intros [= _ <-]. }
  unfold register. unfold_monad.
  destruct (bool_decide (is_Some _)); simpl; [constructor|].
  pose proof (User_save_effect now {| f_email := e; f_password := bcrypt_hash p;
                                      f_role := r; f_isBanned := None |} db) as Heff.
  destruct (User_save _ _ db) as [[[id u]|err] db1]; simpl in *; [|done].
  unfold jwt_sign. by destruct (usable_secret _).
Qed.

Lemma handshake_effect env now db : Effect db (handshake env now db).2.
Proof.
  unfold handshake. unfold_monad.
  destruct (bool_decide (is_Some _)); simpl; [constructor|].
  destruct (ADMIN_EMAIL env) as [e|]; [|constructor].
  destruct (ADMIN_PASSWORD env) as [p|]; [|constructor].
  destruct (_ || _); [constructor|].
  pose proof (User_save_effect now {| f_email := e; f_password := bcrypt_hash p;
                                      f_role := "admin"; f_isBanned := Some false |} db)
    as Heff.
  by destruct (User_save _ _ db) as [[[id u]|err] db1].
Qed.

Lemma createJob_effect now user b db : Effect db (createJob now user b db).2.
Proof.
  unfold createJob, Job_save, insertOne. unfold_monad.
  destruct (negb _ && negb _); simpl; [constructor|].
  destruct user as [u|]; [|constructor]. simpl.
  destruct (jb_title b), (jb_description b), (jb_companyName b), (jb_location b),
    (jb_jobType b); simpl; try constructor.
  repeat (case_bool_decide; simpl; [constructor|]).
  constructor. apply fresh_lookup.
Qed.

Lemma updateJob_effect now user id updates db :
  Effect db (updateJob now user id updates db).2.
Proof.
  unfold updateJob, Job_findByIdAndUpdate, findById. unfold_monad.
  destruct (jobs db !! id) as [j|] eqn:Hj; simpl; [|constructor].
  destruct (negb _ && negb _); simpl; [constructor|].
  rewrite Hj. simpl. by econstructor.
Qed.

Lemma deleteJob_effect user id db : Effect db (deleteJob user id db).2.
Proof.
  unfold deleteJob, findById, findByIdAndDelete. unfold_monad.
  destruct (jobs db !! id) as [j|] eqn:Hj; simpl; [|constructor].
  destruct (negb _ && negb _); simpl; [constructor|]. exact (E_job_deleted db id).
Qed.

Lemma deleteApplication_effect user id db : Effect db (deleteApplication user id db).2.
Proof.
  unfold deleteApplication, findById, findByIdAndDelete. unfold_monad.
  destruct (applications db !! id) as [a|]; simpl; [|constructor].
  destruct (negb _ && negb _); simpl; [constructor|].
  exact (E_application_deleted db id).
Qed.

Lemma banUser_effect_store now user userId db : Effect db (banUser now user userId db).2.
Proof.
  unfold banUser, findById. unfold_monad.
  destruct (negb _); simpl; [constructor|].
  destruct (users db !! userId) as [t|] eqn:Ht; simpl; [|constructor].
  destruct (bool_decide _); simpl; [constructor|]. by constructor.
Qed.

Lemma unbanUser_effect_store now user userId db :
  Effect db (unbanUser now user userId db).2.
Proof.
  unfold unbanUser, findById. unfold_monad.
  destruct (negb _); simpl; [constructor|].
  destruct (users db !! userId) as [t|] eqn:Ht; simpl; [|constructor]. by constructor.
Qed.

Lemma deleteUser_effect_store user userId db : Effect db (deleteUser user userId db).2.
Proof.
  destruct (deleteUser user userId db) as [[r|e] db'] eqn:Hrun; simpl.
  - destruct (deleteUser_ok_inv _ _ _ _ _ Hrun) as (u & t & -> & Hadm & Ht & Hta).
    rewrite (deleteUser_run u userId t db Hadm Ht Hta) in Hrun.
    injection Hrun as _ <-. by constructor.
  - revert Hrun. unfold deleteUser, findById. unfold_monad.
    destruct (negb _); simpl; [intros [= _ <-]; constructor|].
    destruct (users db !! userId) as [t|]; simpl; [|intros [= _ <-]; constructor].
    destruct (bool_decide (role t = admin)); simpl; [intros [= _ <-]; constructor|].
    destruct (bool_decide (role t = employer)), (bool_decide (role t = candidate));
      simpl; discriminate.
Qed.

Lemma applyForJob_effect now (u : IUser) body db :
  users db !! _id u = Some (doc u) ->
  Effect db (applyForJob now (Some u) body db).2.
Proof.
  intros Hu. rewrite applyForJob_checks_then_save.
  unfold applyForJob_checks, Application_save, insertOne, findById. unfold_monad.
  destruct (b_jobId body) as [j|]; simpl; [|constructor].
  destruct (negb (truthy (b_coverLetter body))); simpl; [constructor|].
  destruct (negb (truthy (b_resume body))); simpl; [constructor|].
  unfold user_role, compose. simpl.
  destruct (decide (role (doc u) = candidate)) as [Hr|Hr];
    [rewrite bool_decide_eq_true_2 by congruence
    |rewrite bool_decide_eq_false_2 by congruence; constructor].
  simpl. destruct (jobs db !! j) as [job|] eqn:Hj; simpl; [|constructor].
  destruct (negb (bool_decide (jobStatus job = Active))); simpl; [constructor|].
  destruct (bool_decide (is_Some _)) eqn:Hal; simpl; [constructor|].
  constructor; simpl.
  - apply fresh_lookup.
  - by rewrite Hj.
  - by rewrite Hu, <- Hr.
  - intros Hc. apply (existing_application_query db j u) in Hc.
    simpl in Hc, Hal. congruence.
Qed.

Ltac read_only :=
  unfold_monad; unfold paginate, findById; split_tests; reflexivity.

Lemma getJobById_read_only id db : (getJobById id db).2 = db.
Proof. unfold getJobById. read_only. Qed.

Lemma getAllJobs_read_only regex_i q db : (getAllJobs regex_i q db).2 = db.
Proof. unfold getAllJobs. read_only. Qed.

Lemma getMyJobs_read_only user db : (getMyJobs user db).2 = db.
Proof. unfold getMyJobs. read_only. Qed.

Lemma getMyApplications_read_only user db : (getMyApplications user db).2 = db.
Proof. unfold getMyApplications. read_only. Qed.

Lemma getJobApplications_read_only user jobId_ db :
  (getJobApplications user jobId_ db).2 = db.
Proof. unfold getJobApplications. read_only. Qed.

Lemma getAllApplications_read_only user q db : (getAllApplications user q db).2 = db.
Proof. unfold getAllApplications. read_only. Qed.

Lemma getAllUsers_read_only user q db : (getAllUsers user q db).2 = db.
Proof. unfold getAllUsers. read_only. Qed.

Lemma admin_getAllApplications_read_only user q db :
  (admin_getAllApplications user q db).2 = db.
Proof. unfold admin_getAllApplications. read_only. Qed.

Lemma admin_getAllJobs_read_only user q db : (admin_getAllJobs user q db).2 = db.
Proof. unfold admin_getAllJobs. read_only. Qed.

Lemma getDashboardStats_read_only ago user db : (getDashboardStats ago user db).2 = db.
Proof. unfold getDashboardStats. read_only. Qed.

Lemma validateJobCreation_read_only b db : (validateJobCreation b db).2 = db.
Proof. unfold validateJobCreation. read_only. Qed.

Lemma validateApplication_read_only b db : (validateApplication b db).2 = db.
Proof. unfold validateApplication. read_only. Qed.

Lemma route_getProfile_read_only env now auth db : (route_getProfile env now auth db).2 = db.
Proof.
  unfold route_getProfile, getProfile. unfold mbind at 1. unfold M_bind at 1.
  destruct (authenticate_cases env now auth db) as [[m ->]|(u & -> & _)]; done.
Qed.

Lemma route_getJobApplications_read_only env now auth jobId_ db :
  (route_getJobApplications env now auth jobId_ db).2 = db.
Proof.
  unfold route_getJobApplications. unfold mbind at 1. unfold M_bind at 1.
  destruct (authenticate_cases env now auth db) as [[m ->]|(u & -> & _)]; [done|].
  unfold authorize, throw_if, throw, mbind, M_bind, mret, M_ret.
  destruct (negb _); simpl; [done|]. apply getJobApplications_read_only.
Qed.

Section RoutesFacts.
Variable regex_i : string -> string -> bool.
Variable seven_days_before : Date -> Date.

(** Every request leaves the store as it was or makes one of the changes
    of [Effect]. *)
Lemma serve_effect env now req db :
  Effect db (serve regex_i seven_days_before env now req db).2.
Proof.
  destruct req; cbv beta iota delta [serve]; rewrite void_store.
  - apply route_register_effect.
  - rewrite login_read_only. constructor.
  - rewrite route_getProfile_read_only. constructor.
  - rewrite getAllJobs_read_only. constructor.
  - apply gated_effect. intros u _ _. rewrite getMyJobs_read_only. constructor.
  - rewrite getJobById_read_only. constructor.
  - apply gated_effect. intros u _ _. unfold mbind, M_bind.
    pose proof (validateJobCreation_read_only b db) as Hv.
    destruct (validateJobCreation b db) as [[[]|e] db0]; simpl in Hv; subst db0;
      [apply createJob_effect|constructor].
  - apply gated_effect. intros u _ _. apply updateJob_effect.
  - apply gated_effect. intros u _ _. apply deleteJob_effect.
  - apply gated_effect. intros u Hu _. unfold mbind, M_bind.
    pose proof (validateApplication_read_only b db) as Hv.
    destruct (validateApplication b db) as [[[]|e] db0]; simpl in Hv; subst db0;
      [by apply applyForJob_effect|constructor].
  - apply gated_effect. intros u _ _. rewrite getMyApplications_read_only. constructor.
  - rewrite route_getJobApplications_read_only. constructor.
  - apply gated_effect. intros u _ _. rewrite getAllApplications_read_only. constructor.
  - unfold mbind, M_bind.
    destruct (authenticate_cases env now auth db) as [[m ->]|(u & -> & _)];
      [constructor|apply deleteApplication_effect].
  - apply gated_effect. intros u _ _. rewrite getAllUsers_read_only. constructor.
  - apply gated_effect. intros u _ _. rewrite admin_getAllApplications_read_only.
    constructor.
  - apply gated_effect. intros u _ _. rewrite admin_getAllJobs_read_only. constructor.
  - apply gated_effect. intros u _ _. apply banUser_effect_store.
  - apply gated_effect. intros u _ _. apply unbanUser_effect_store.
  - apply gated_effect. intros u _ _. apply deleteUser_effect_store.
  - apply gated_effect. intros u _ _. rewrite getDashboardStats_read_only. constructor.
Qed.
End RoutesFacts.

(** ** Invariants of the store *)

Lemma after_deleteUser_users id t db :
  users (after_deleteUser id t db) = delete id (users db).
Proof. unfold after_deleteUser. by destruct (role t). Qed.

Lemma after_deleteUser_jobs id t db jid j :
  jobs (after_deleteUser id t db) !! jid = Some j ->
  jobs db !! jid = Some j /\ (role t = employer -> createdBy j <> id).
Proof.
  unfold after_deleteUser. destruct (role t); simpl; try by intros ->.
  rewrite deleteMany_lookup, bool_decide_eq_false. tauto.
Qed.

Lemma after_deleteUser_jobs_kept id t db jid j :
  jobs db !! jid = Some j -> (role t = employer -> createdBy j <> id) ->
  jobs (after_deleteUser id t db) !! jid = Some j.
Proof.
  unfold after_deleteUser. destruct (role t); simpl; try done.
  intros Hj Hc. rewrite deleteMany_lookup, bool_decide_eq_false. auto.
Qed.

Lemma after_deleteUser_applications id t db i a :
  applications (after_deleteUser id t db) !! i = Some a ->
  applications db !! i = Some a
  /\ (role t = candidate -> candidateId a <> id)
  /\ (role t = employer ->
      forall j, jobs db !! jobId a = Some j -> createdBy j <> id).
Proof.
  unfold after_deleteUser. destruct (role t); simpl.
  - by intros ->.
  - rewrite deleteMany_lookup, bool_decide_eq_false. intros [Ha Hn].
    split; [done|]. split; [done|]. intros _ j Hj Hc. apply Hn.
    apply list_elem_of_fmap. exists (jobId a, j). split; [done|].
    apply find_elem. split; [done|]. by apply bool_decide_eq_true.
  - rewrite deleteMany_lookup, bool_decide_eq_false. intros [Ha Hn]. done.
Qed.

Lemma Effect_emails_unique db db' :
  Effect db db' -> emails_unique db -> emails_unique db'.
Proof.
  intros Heff Huniq.
  assert (Hsub : (forall i u, users db' !! i = Some u ->
                    exists u0, users db !! i = Some u0 /\ email u0 = email u) ->
                 emails_unique db').
  { intros Hsub i j u v Hu Hv Heq.
    destruct (Hsub i u Hu) as (u0 & Hu0 & He0), (Hsub j v Hv) as (v0 & Hv0 & He1).
    apply (Huniq i j u0 v0 Hu0 Hv0). congruence. }
  destruct Heff as [|id u Hid Hfree|id t now b Ht|id t Ht Hta| | | | |]; simpl.
  - done.
  - intros i j x y Hx Hy Hxy. simpl in Hx, Hy.
    destruct (decide (i = id)) as [->|Hi], (decide (j = id)) as [->|Hj]; [done| | |].
    + rewrite lookup_insert_eq in Hx. rewrite lookup_insert_ne in Hy by done.
      injection Hx as <-. exfalso. by apply (Hfree j y).
    + rewrite lookup_insert_eq in Hy. rewrite lookup_insert_ne in Hx by done.
      injection Hy as <-. exfalso. by apply (Hfree i x).
    + rewrite lookup_insert_ne in Hx, Hy by done. by apply (Huniq i j x y).
  - apply Hsub. simpl. intros i u Hu.
    destruct (decide (i = id)) as [->|Hi].
    + rewrite lookup_insert_eq in Hu. injection Hu as <-. exists t. split; [done|].
      symmetry. apply set_isBanned_fields.
    + rewrite lookup_insert_ne in Hu by done. eauto.
  - apply Hsub. intros i u. rewrite after_deleteUser_users.
    intros Hu. apply lookup_delete_Some in Hu as [_ Hu]. eauto.
  - apply Hsub; simpl; eauto.
  - apply Hsub; simpl; eauto.
  - apply Hsub; simpl; eauto.
  - apply Hsub; simpl; eauto.
  - apply Hsub; simpl; eauto.
Qed.

Lemma Effect_pairs_unique db db' :
  Effect db db' -> pairs_unique db -> pairs_unique db'.
Proof.
  intros Heff Huniq.
  assert (Hsub : (forall i a, applications db' !! i = Some a ->
                    applications db !! i = Some a) -> pairs_unique db').
  { intros Hsub i j a b Ha Hb. apply (Huniq i j a b); by apply Hsub. }
  destruct Heff as [| | |id t Ht Hta| | |id|id a Hid Hjob Hcand Hnew|id]; simpl.
  - done.
  - by apply Hsub.
  - by apply Hsub.
  - apply Hsub. intros i a Ha. by apply after_deleteUser_applications in Ha as [? _].
  - by apply Hsub.
  - by apply Hsub.
  - apply Hsub. simpl. intros i a Ha. by apply deleteMany_lookup in Ha as [? _].
  - intros i j x y Hx Hy Hjj Hcc. simpl in Hx, Hy.
    destruct (decide (i = id)) as [->|Hi], (decide (j = id)) as [->|Hj]; [done| | |].
    + rewrite lookup_insert_eq in Hx. rewrite lookup_insert_ne in Hy by done.
      injection Hx as <-. exfalso. apply Hnew. by exists j, y.
    + rewrite lookup_insert_eq in Hy. rewrite lookup_insert_ne in Hx by done.
      injection Hy as <-. exfalso. apply Hnew. by exists i, x.
    + rewrite lookup_insert_ne in Hx, Hy by done. by apply (Huniq i j x y).
  - apply Hsub. simpl. intros i a Ha. by apply lookup_delete_Some in Ha as [_ ?].
Qed.

Lemma Effect_references_intact db db' :
  Effect db db' -> references_intact db -> references_intact db'.
Proof.
  intros Heff Hri.
  destruct Heff as [|id u Hid Hfree|id t now b Ht|id t Ht Hta|id j Hid|id j j' Hj|id
                    |id a Hid Hjob Hcand Hnew|id]; simpl.
  - done.
  - intros i a Ha. simpl in *. destruct (Hri i a Ha) as [Hjob Hcand].
    split; [done|]. rewrite lookup_insert_ne; [done|].
    intros Heq. rewrite <- Heq in Hcand. by rewrite Hid in Hcand.
  - intros i a Ha. simpl in *. destruct (Hri i a Ha) as [Hjob Hcand].
    split; [done|]. destruct (decide (candidateId a = id)) as [Heq|Hne].
    + rewrite Heq in *. rewrite lookup_insert_eq. rewrite Ht in Hcand. simpl in *.
      destruct (set_isBanned_fields now b t) as (_ & _ & _ & -> & _). done.
    + by rewrite lookup_insert_ne.
  - intros i a Ha. apply after_deleteUser_applications in Ha as (Ha & Hc & He).
    destruct (Hri i a Ha) as [[j Hj] Hcand]. split.
    + exists j. apply after_deleteUser_jobs_kept; [done|]. intros Hemp. by apply He.
    + rewrite after_deleteUser_users. rewrite lookup_delete_ne; [done|].
      intros Heq. rewrite <- Heq in Hcand. rewrite Ht in Hcand. simpl in Hcand.
      injection Hcand as Hcand. by apply (Hc Hcand).
  - intros i a Ha. simpl in *. destruct (Hri i a Ha) as [Hjob Hcand].
    split; [|done]. rewrite lookup_insert_ne; [done|].
    intros Heq. rewrite <- Heq in Hjob. rewrite Hid in Hjob. by destruct Hjob.
  - intros i a Ha. simpl in *. destruct (Hri i a Ha) as [Hjob Hcand].
    split; [|done]. destruct (decide (jobId a = id)) as [->|Hne].
    + rewrite lookup_insert_eq. eauto.
    + by rewrite lookup_insert_ne.
  - intros i a Ha. simpl in *. apply deleteMany_lookup in Ha as [Ha Hq].
    apply bool_decide_eq_false in Hq. destruct (Hri i a Ha) as [Hjob Hcand].
    split; [|done]. by rewrite lookup_delete_ne.
  - intros i x Hx. simpl in *. destruct (decide (i = id)) as [->|Hi].
    + rewrite lookup_insert_eq in Hx. by injection Hx as <-.
    + rewrite lookup_insert_ne in Hx by done. by apply (Hri i x).
  - intros i a Ha. simpl in *. apply lookup_delete_Some in Ha as [_ Ha].
    by apply (Hri i a).
Qed.

Lemma sample_db_pairs_unique : pairs_unique sample_db.
Proof.
  assert (H : map_Forall (fun i a => map_Forall (fun j b =>
                jobId a = jobId b -> candidateId a = candidateId b -> i = j)
                (applications sample_db)) (applications sample_db)).
  { apply (bool_decide_eq_true_1 _). vm_compute. reflexivity. }
  intros i j a b Ha Hb. by apply (H i a Ha j b Hb).
Qed.

Lemma sample_db_references_intact : references_intact sample_db.
Proof.
  assert (H : map_Forall (fun _ a =>
                is_Some (jobs sample_db !! jobId a)
                /\ (role <$> users sample_db !! candidateId a) = Some candidate)
                (applications sample_db)).
  { apply (bool_decide_eq_true_1 _). vm_compute. reflexivity. }
  exact H.
Qed.

Section StoreInvariants.
Variable regex_i : string -> string -> bool.
Variable seven_days_before : Date -> Date.

(** X11: Exact uniqueness of emails is an invariant: no request of any route,
    served after any others, and no start-up, leads from a store whose
    users have pairwise different emails to one where two users share an
    email letter for letter. *)
Theorem emails_unique_invariant env (reqs : list (Date * Request)) (db : Db) :
  emails_unique db ->
  emails_unique (serve_all regex_i seven_days_before env reqs db)
  /\ forall now, emails_unique (handshake env now db).2.
Proof.
  intros H. split.
  - revert db H. induction reqs as [|[now req] reqs IH]; intros db H; [done|].
    simpl. apply IH. eapply Effect_emails_unique; [apply serve_effect|done].
  - intros now. eapply Effect_emails_unique; [apply handshake_effect|done].
Qed.

(** X12: Served one after the other, requests never store a second application
    for a (job, candidate) pair: from a store with at most one application
    per pair, every sequence of requests leads to such a store. *)
Theorem pairs_unique_invariant env (reqs : list (Date * Request)) (db : Db) :
  pairs_unique db ->
  pairs_unique (serve_all regex_i seven_days_before env reqs db).
Proof.
  revert db. induction reqs as [|[now req] reqs IH]; intros db H; [done|].
  simpl. apply IH. eapply Effect_pairs_unique; [apply serve_effect|done].
Qed.

(** X13: References stay intact under every sequence of requests: if every
    application names a stored job and a stored user of role candidate,
    the same holds after any requests of any routes. *)
Theorem references_intact_invariant env (reqs : list (Date * Request)) (db : Db) :
  references_intact db ->
  references_intact (serve_all regex_i seven_days_before env reqs db).
Proof.
  revert db. induction reqs as [|[now req] reqs IH]; intros db H; [done|].
  simpl. apply IH. eapply Effect_references_intact; [apply serve_effect|done].
Qed.
End StoreInvariants.

Lemma emails_unique_invariant_witness :
  let db' := serve_all contains (fun now => now - 604800000) bootstrap_env
               sample_requests sample_db in
  emails_unique db' /\ size (users db') = 5%nat
  /\ (email <$> users db' !! 6%nat) = Some "n@x.com".
Proof.
  intros db'. split; [|split; vm_compute; reflexivity].
  apply (emails_unique_invariant contains (fun now => now - 604800000) bootstrap_env
           sample_requests sample_db sample_db_emails_unique).
Defined.

Lemma pairs_unique_invariant_witness :
  let db' := serve_all contains (fun now => now - 604800000) bootstrap_env
               sample_requests sample_db in
  pairs_unique db'
  /\ countDocuments (same_pair 12%nat 4%nat) (applications db') = 0%nat
  /\ countDocuments (same_pair 12%nat 4%nat)
       (applications (serve_all contains (fun now => now - 604800000) bootstrap_env
                        (take 4 sample_requests) sample_db)) = 1%nat.
Proof.
  intros db'. split; [|split; vm_compute; reflexivity].
  apply (pairs_unique_invariant contains (fun now => now - 604800000) bootstrap_env
           sample_requests sample_db sample_db_pairs_unique).
Defined.

Lemma references_intact_invariant_witness :
  let db' := serve_all contains (fun now => now - 604800000) bootstrap_env
               sample_requests sample_db in
  references_intact db'
  /\ (fst <$> map_to_list (applications db')) = [22%nat]
  /\ (fst <$> map_to_list (jobs db')) = [11%nat].
Proof.
  intros db'. split; [|split; vm_compute; reflexivity].
  apply (references_intact_invariant contains (fun now => now - 604800000) bootstrap_env
           sample_requests sample_db sample_db_references_intact).
Defined.

(** ** Pages *)

Lemma ceil_div_bounds (n : nat) (limit : Z) :
  0 < limit ->
  exists tp, ceil_div n limit = Some tp
    /\ (tp - 1) * limit < Z.of_nat n <= tp * limit.
Proof.
  intros Hl. unfold ceil_div. rewrite bool_decide_eq_false_2 by lia.
  eexists. split; [done|].
  pose proof (Z.div_mod (- Z.of_nat n) limit ltac:(lia)) as Hdm.
  pose proof (Z.mod_pos_bound (- Z.of_nat n) limit Hl) as Hb.
  nia.
Qed.

Lemma paginate_page {A} (page limit : Z) (l : list A) :
  1 <= page -> 0 < limit ->
  paginate (limit * 1) ((page - 1) * limit) l
  = Ok (take (Z.to_nat limit) (drop (Z.to_nat ((page - 1) * limit)) l)).
Proof.
  intros Hp Hl. unfold paginate.
  rewrite bool_decide_eq_false_2 by nia. rewrite bool_decide_eq_false_2 by lia.
  do 3 f_equal. lia.
Qed.

Lemma page_length {A} (page limit : Z) (l : list A) :
  1 <= page -> 0 < limit ->
  Z.of_nat (length (take (Z.to_nat limit) (drop (Z.to_nat ((page - 1) * limit)) l)))
  = Z.max 0 (Z.min limit (Z.of_nat (length l) - (page - 1) * limit)).
Proof. intros Hp Hl. rewrite length_take, length_drop. nia. Qed.

Section Pages.
Variable regex_i : string -> string -> bool.

(** X14: Pages of the public listing, for a page number of at least one and a
    positive limit: the answer carries the number of all matching Active
    jobs whatever the page; [totalPages] is that number divided by the
    limit, rounded up; the page holds the next [limit] jobs after the
    earlier pages, fewer at the end, and is empty exactly when the page
    number exceeds [totalPages]. *)
Theorem getAllJobs_pages (q : JobQuery) (page limit : Z) (db : Db) :
  q_page q = Some page -> q_limit q = Some limit -> 1 <= page -> 0 < limit ->
  exists r tp,
    getAllJobs regex_i q db = (Ok {| status := 200; json := r |}, db)
    /\ total r = countDocuments (getAllJobs_query regex_i q) (jobs db)
    /\ currentPage r = page
    /\ totalPages r = Some tp
    /\ (tp - 1) * limit < Z.of_nat (total r) <= tp * limit
    /\ Z.of_nat (length (items r))
       = Z.max 0 (Z.min limit (Z.of_nat (total r) - (page - 1) * limit))
    /\ (items r = [] <-> tp < page).
Proof.
  intros Hpage Hlimit Hp Hl.
  destruct (ceil_div_bounds (countDocuments (getAllJobs_query regex_i q) (jobs db))
              limit Hl) as (tp & Htp & Hb).
  rewrite getAllJobs_run. rewrite Hpage, Hlimit. simpl.
  rewrite paginate_page by done.
  do 2 eexists. split; [reflexivity|]. simpl.
  split; [done|]. split; [done|]. split; [done|]. split; [done|].
  assert (Hlen : Z.of_nat (length (populate_job db <$>
                   take (Z.to_nat limit) (drop (Z.to_nat ((page - 1) * limit))
                     (sort_desc (fun kv => j_createdAt kv.2)
                        (find (getAllJobs_query regex_i q) (jobs db))))))
                 = Z.max 0 (Z.min limit
                     (Z.of_nat (countDocuments (getAllJobs_query regex_i q) (jobs db))
                      - (page - 1) * limit))).
  { rewrite length_fmap, page_length by done.
    by rewrite sort_desc_length, find_length. }
  split; [done|].
  rewrite <- length_zero_iff_nil. split; intros H; [|]; nia.
Qed.
End Pages.

Lemma getAllJobs_pages_witness :
  exists r tp,
    getAllJobs contains
      {| q_page := Some 2; q_limit := Some 1; q_search := None; q_location := None;
         q_jobType := None |} sample_db
    = (Ok {| status := 200; json := r |}, sample_db)
    /\ total r = 2%nat /\ totalPages r = Some tp /\ tp = 2
    /\ pj_id <$> items r = [10%nat].
Proof.
  destruct (getAllJobs_pages contains
              {| q_page := Some 2; q_limit := Some 1; q_search := None;
                 q_location := None; q_jobType := None |} 2 1 sample_db
              eq_refl eq_refl ltac:(lia) ltac:(lia))
    as (r & tp & Hrun & Htotal & _ & Htp & Hb & _).
  exists r, tp. split; [exact Hrun|].
  assert (H0 : match (getAllJobs contains
                        {| q_page := Some 2; q_limit := Some 1; q_search := None;
                           q_location := None; q_jobType := None |} sample_db).1 with
               | Ok x => (total (json x), pj_id <$> items (json x))
               | Err _ => (0%nat, [])
               end = (2%nat, [10%nat])) by (vm_compute; reflexivity).
  rewrite Hrun in H0. simpl in H0. injection H0 as Ht Hi.
  split; [exact Ht|]. split; [exact Htp|]. split; [|exact Hi].
  rewrite Ht in Hb. lia.
Defined.

(** ** Admin listings and their filter *)

Lemma optional_filter_allowed {D} allowed (render : D -> string) v d :
  v ∈ allowed -> v <> "" ->
  optional_filter allowed render (Some v) d = bool_decide (render d = v).
Proof.
  intros Hin Hne. unfold optional_filter. apply truthy_Some in Hne. rewrite Hne.
  by rewrite bool_decide_eq_true_2.
Qed.

Lemma optional_filter_ignored {D} allowed (render : D -> string) value d :
  (forall v, value = Some v -> v ∉ allowed) ->
  optional_filter allowed render value d = true.
Proof.
  intros H. unfold optional_filter. destruct value as [v|]; [|done].
  rewrite (bool_decide_eq_false_2 (v ∈ allowed)) by by apply H.
  by rewrite andb_false_r.
Qed.

Lemma countDocuments_all {D} (c : gmap ObjectId D) :
  countDocuments (fun _ => true) c = size c.
Proof.
  unfold countDocuments, select. f_equal. apply map_eq. intros i.
  destruct (c !! i) as [d|] eqn:Hd.
  - by apply map_lookup_filter_Some.
  - apply map_lookup_filter_None. by left.
Qed.

Lemma countDocuments_ext {D} (q1 q2 : D -> bool) (c : gmap ObjectId D) :
  (forall d, q1 d = q2 d) -> countDocuments q1 c = countDocuments q2 c.
Proof.
  intros H. unfold countDocuments, select. f_equal. apply map_filter_ext.
  intros i d _. simpl. by rewrite H.
Qed.

Lemma Role_to_string_inj r1 r2 : Role_to_string r1 = Role_to_string r2 -> r1 = r2.
Proof. by destruct r1, r2. Qed.

Lemma JobStatus_to_string_inj s1 s2 :
  JobStatus_to_string s1 = JobStatus_to_string s2 -> s1 = s2.
Proof. done. Qed.

Lemma ApplicationStatus_to_string_inj s1 s2 :
  ApplicationStatus_to_string s1 = ApplicationStatus_to_string s2 -> s1 = s2.
Proof. by destruct s1, s2. Qed.

Lemma admin_listing_run {A} (user : option IUser) (q : AdminQuery)
    (found : Db -> list A) (count : Db -> nat) msg db :
  (throw_if (negb (bool_decide (user_role user = Some admin))) (AuthorizationError msg);;
   found_ ← gets found;
   total_ ← gets count;
   respond_page (default 1 (aq_page q)) (default 10 (aq_limit q)) found_ total_) db
  = if negb (bool_decide (user_role user = Some admin))
    then (Err (AuthorizationError msg), db)
    else match paginate (default 10 (aq_limit q) * 1)
                 ((default 1 (aq_page q) - 1) * default 10 (aq_limit q)) (found db) with
         | Ok l => (Ok {| status := 200;
                          json := {| items := l;
                                     totalPages := ceil_div (count db) (default 10 (aq_limit q));
                                     currentPage := default 1 (aq_page q);
                                     total := count db |} |}, db)
         | Err e => (Err e, db)
         end.
Proof.
  unfold_monad. destruct (negb _); simpl; [done|]. by destruct (paginate _ _ _).
Qed.

(** The admin listing of jobs: any principal that is no admin is refused.
    For an admin, a [status] of "Active" or "Inactive" keeps exactly the
    jobs of that status: every job of the page has it and [total] counts
    them all; any other value of [status], or none, is ignored and [total]
    is the number of all jobs. The page is answered whenever its skip is
    not negative. *)
Theorem admin_getAllJobs_filter (u : IUser) (q : AdminQuery) (db : Db) :
  (role (doc u) <> admin ->
   admin_getAllJobs (Some u) q db
   = (Err (AuthorizationError "Only admins can access this route"), db))
  /\ (role (doc u) = admin ->
      0 <= (default 1 (aq_page q) - 1) * default 10 (aq_limit q) ->
      exists r,
        admin_getAllJobs (Some u) q db = (Ok {| status := 200; json := r |}, db)
        /\ (forall s, s = Active \/ s = Inactive -> aq_filter q = Some s ->
              (forall x, x ∈ items r ->
                 jobStatus (aj_job x) = s /\ jobs db !! aj_id x = Some (aj_job x))
              /\ total r = countDocuments (fun j => bool_decide (jobStatus j = s)) (jobs db))
        /\ ((forall v, aq_filter q = Some v -> v ∉ ["Active"; "Inactive"]) ->
            total r = size (jobs db)
            /\ forall x, x ∈ items r -> jobs db !! aj_id x = Some (aj_job x))).
Proof.
  unfold admin_getAllJobs. rewrite admin_listing_run. split.
  - intros Hr. apply admin_guard_not in Hr. by rewrite Hr.
  - intros Hr Hskip. apply admin_guard in Hr. rewrite Hr.
    destruct (paginate _ _ _) as [l|e] eqn:Hp.
    2:{ pose proof (paginate_ok (default 10 (aq_limit q) * 1) _
                      (populate_admin_job db <$>
                         sort_desc (fun kv => j_createdAt kv.2)
                           (find (admin_getAllJobs_query q) (jobs db))) Hskip) as Hok.
        by rewrite Hp in Hok. }
    eexists. split; [reflexivity|]. simpl.
    assert (Hitems : forall x, x ∈ l ->
              exists id j, x = populate_admin_job db (id, j)
                /\ jobs db !! id = Some j /\ admin_getAllJobs_query q j = true).
    { intros x Hx. apply (paginate_elem _ _ _ _ _ Hp) in Hx.
      apply list_elem_of_fmap in Hx as ([id j] & -> & Hin).
      apply sort_desc_elem, find_elem in Hin. eauto. }
    split.
    + intros s Hin Hs. unfold admin_getAllJobs_query in *. rewrite Hs in *.
      assert (Hallowed : s ∈ ["Active"; "Inactive"])
        by (rewrite !elem_of_cons; destruct Hin as [-> | ->]; auto).
      assert (Hne : s <> "") by (destruct Hin as [-> | ->]; done).
      split.
      * intros x Hx. destruct (Hitems x Hx) as (id & j & -> & Hj & Hq).
        rewrite optional_filter_allowed in Hq by done.
        apply bool_decide_eq_true in Hq. simpl. done.
      * apply countDocuments_ext. intros j.
        by rewrite optional_filter_allowed by done.
    + intros Hign. split.
      * rewrite <- countDocuments_all. apply countDocuments_ext. intros j.
        by apply optional_filter_ignored.
      * intros x Hx. by destruct (Hitems x Hx) as (id & j & -> & Hj & _).
Qed.

Lemma admin_getAllJobs_filter_witness :
  let root := {| _id := 1%nat; doc := sample_user "root@x.com" admin false |} in
  let q := {| aq_page := None; aq_limit := None; aq_filter := Some "inactive" |} in
  exists r, admin_getAllJobs (Some root) q sample_db
            = (Ok {| status := 200; json := r |}, sample_db)
    /\ total r = 3%nat.
Proof.
  intros root q.
  destruct (proj2 (admin_getAllJobs_filter root q sample_db) eq_refl ltac:(simpl; lia))
    as (r & Hrun & _ & Hign).
  exists r. split; [exact Hrun|].
  apply Hign. intros v [= <-]. apply (bool_decide_eq_false_1 _). reflexivity.
Defined.

(** ** Counts *)

Lemma countDocuments_insert {D} (q : D -> bool) (c : gmap ObjectId D) i d :
  c !! i = None ->
  countDocuments q (<[i := d]> c) = ((if q d then 1 else 0) + countDocuments q c)%nat.
Proof.
  intros Hi. unfold countDocuments, select. destruct (q d) eqn:Hq.
  - rewrite map_filter_insert_True by done.
    rewrite map_size_insert_None; [done|].
    apply map_lookup_filter_None. by left.
  - rewrite map_filter_insert_not'; [done| |].
    + simpl. by rewrite Hq.
    + intros y Hy. by rewrite Hi in Hy.
Qed.

Lemma countDocuments_split {D} (q q1 q2 : D -> bool) (c : gmap ObjectId D) :
  (forall d, q d = q1 d || q2 d) -> (forall d, q1 d && q2 d = false) ->
  countDocuments q c = (countDocuments q1 c + countDocuments q2 c)%nat.
Proof.
  intros Hor Hdisj. induction c as [|i d c Hi IH] using map_ind.
  - unfold countDocuments, select. by rewrite !map_filter_empty, map_size_empty.
  - rewrite !countDocuments_insert by done. rewrite IH, Hor.
    specialize (Hdisj d). destruct (q1 d), (q2 d); simpl in *; try done; lia.
Qed.

Lemma countDocuments_le {D} (q : D -> bool) (c : gmap ObjectId D) :
  (countDocuments q c <= size c)%nat.
Proof. unfold countDocuments, select. apply map_size_filter. Qed.

Lemma countDocuments_zero {D} (q : D -> bool) (c : gmap ObjectId D) :
  countDocuments q c = 0%nat <-> forall i d, c !! i = Some d -> q d = false.
Proof.
  unfold countDocuments. rewrite map_size_empty_iff. split.
  - intros He i d Hd. destruct (q d) eqn:Hq; [|done].
    assert (Hs : select q c !! i = Some d) by (by apply select_lookup).
    rewrite He in Hs. by rewrite lookup_empty in Hs.
  - intros H. apply map_eq. intros i. rewrite lookup_empty.
    destruct (select q c !! i) as [d|] eqn:Hd; [|done].
    apply select_lookup in Hd as [Hd Hq]. by rewrite (H i d Hd) in Hq.
Qed.

(** The jobs of the dashboard: the active and the inactive jobs are all
    the jobs exactly when no stored job has another status. *)
Lemma dashboard_jobs (c : gmap ObjectId Job) :
  (countDocuments (fun j => bool_decide (jobStatus j = Active)) c
   + countDocuments (fun j => bool_decide (jobStatus j = Inactive)) c
   <= countDocuments (fun _ => true) c)%nat
  /\ (countDocuments (fun _ => true) c
      = (countDocuments (fun j => bool_decide (jobStatus j = Active)) c
         + countDocuments (fun j => bool_decide (jobStatus j = Inactive)) c)%nat
      <-> forall id j, c !! id = Some j -> jobStatus j = Active \/ jobStatus j = Inactive).
Proof.
  set (other := fun j : Job => negb (bool_decide (jobStatus j = Active))
                               && negb (bool_decide (jobStatus j = Inactive))).
  assert (Hsplit : countDocuments (fun _ => true) c
            = (countDocuments (fun j => bool_decide (jobStatus j = Active)) c
               + countDocuments (fun j => bool_decide (jobStatus j = Inactive)) c
               + countDocuments other c)%nat).
  { rewrite (countDocuments_split (fun _ => true)
               (fun j => bool_decide (jobStatus j = Active))
               (fun j => negb (bool_decide (jobStatus j = Active)))).
    2:{ intros d. by destruct (bool_decide _). }
    2:{ intros d. by destruct (bool_decide _). }
    rewrite (countDocuments_split (fun j => negb (bool_decide (jobStatus j = Active)))
               (fun j => bool_decide (jobStatus j = Inactive)) other); [lia| |].
    - intros d. subst other. simpl.
      destruct (decide (jobStatus d = Active)) as [Ha|Ha].
      + rewrite (bool_decide_eq_true_2 _ Ha). simpl.
        rewrite bool_decide_eq_false_2; [done|]. by rewrite Ha.
      + rewrite (bool_decide_eq_false_2 _ Ha). simpl. by destruct (bool_decide _).
    - intros d. subst other. simpl. destruct (bool_decide (jobStatus d = Inactive)); simpl;
        [by rewrite andb_false_r|done]. }
  split; [lia|].
  assert (Hzero : countDocuments other c = 0%nat
                  <-> forall id j, c !! id = Some j ->
                        jobStatus j = Active \/ jobStatus j = Inactive).
  { rewrite countDocuments_zero. subst other. simpl.
    split; intros H id j Hj; specialize (H id j Hj).
    - apply andb_false_iff in H as [H|H]; apply negb_false_iff, bool_decide_eq_true in H;
        auto.
    - apply andb_false_iff.
      destruct H as [H|H]; [left|right]; by apply negb_false_iff, bool_decide_eq_true. }
  rewrite <- Hzero. lia.
Qed.

(** X15: The counts of the statistics. In the user statistics the total is
    the number of admins, employers and candidates together and the banned
    are at most the total. On the dashboard the users that are neither
    employers nor candidates are the admins and no count exceeds its
    total; the active and the inactive jobs together are at most all the
    jobs, and they are all the jobs exactly when no stored job has another
    status. Such a job can be stored: on the route an update of a job with
    any other text as [jobStatus] succeeds for an admin and for the
    employer that created the job, and the dashboard then counts fewer
    active and inactive jobs than jobs. *)
Theorem stats_add_up (ago : Date) (u : IUser) (db : Db) :
  (exists s, UserService_getUserStats db = (Ok s, db)
     /\ us_total s = (us_admins s + us_employers s + us_candidates s)%nat
     /\ (us_banned s <= us_total s)%nat
     /\ us_total s = size (users db))
  /\ (role (doc u) = admin ->
      exists s, getDashboardStats ago (Some u) db = (Ok {| status := 200; json := s |}, db)
        /\ (activeJobs s + inactiveJobs s <= totalJobs s)%nat
        /\ (totalJobs s = (activeJobs s + inactiveJobs s)%nat
            <-> forall id j, jobs db !! id = Some j ->
                  jobStatus j = Active \/ jobStatus j = Inactive)
        /\ totalUsers s
           = (totalEmployers s + totalCandidates s
              + countDocuments (fun x => bool_decide (role x = admin)) (users db))%nat
        /\ (bannedUsers s <= totalUsers s)%nat
        /\ (newUsers s <= totalUsers s)%nat /\ (newJobs s <= totalJobs s)%nat
        /\ (newApplications s <= totalApplications s)%nat)
  /\ (role (doc u) = admin ->
      forall now (o : IUser) id job updates st,
        jobs db !! id = Some job -> may_change_job o job ->
        upd_jobStatus updates = Some st -> st <> Active -> st <> Inactive ->
        exists r db' s,
          route_updateJob now o id updates db = (Ok r, db')
          /\ (jobStatus <$> jobs db' !! id) = Some st
          /\ getDashboardStats ago (Some u) db' = (Ok {| status := 200; json := s |}, db')
          /\ (activeJobs s + inactiveJobs s < totalJobs s)%nat)
  /\ (role (doc u) <> admin ->
      getDashboardStats ago (Some u) db
      = (Err (AuthorizationError "Only admins can access dashboard stats"), db)).
Proof.
  assert (Hroles : forall c : gmap ObjectId User,
            countDocuments (fun _ => true) c
            = (countDocuments (fun x => bool_decide (role x = admin)) c
               + countDocuments (fun x => bool_decide (role x = employer)) c
               + countDocuments (fun x => bool_decide (role x = candidate)) c)%nat).
  { intros c.
    rewrite (countDocuments_split (fun _ => true)
               (fun x => bool_decide (role x = admin))
               (fun x => negb (bool_decide (role x = admin)))).
    2:{ intros d. by destruct (bool_decide _). }
    2:{ intros d. by destruct (bool_decide _). }
    rewrite (countDocuments_split (fun x => negb (bool_decide (role x = admin)))
               (fun x => bool_decide (role x = employer))
               (fun x => bool_decide (role x = candidate))); [lia| |].
    - intros d. by destruct (role d).
    - intros d. by destruct (role d). }
  split; [|split; [|split]].
  - eexists. split; [reflexivity|]. simpl. split; [apply Hroles|].
    rewrite countDocuments_all. split; [apply countDocuments_le|done].
  - intros Hr. apply admin_guard in Hr.
    eexists. split.
    { unfold getDashboardStats. unfold_monad. rewrite Hr. reflexivity. }
    simpl. destruct (dashboard_jobs (jobs db)) as [Hle Hiff].
    split; [exact Hle|]. split; [exact Hiff|]. split; [rewrite Hroles; lia|].
    rewrite !countDocuments_all. repeat split; apply countDocuments_le.
  - intros Hr now o id job updates st Hj Hmay Hst Ha Hi. apply admin_guard in Hr.
    assert (Hrole : role (doc o) = employer \/ role (doc o) = admin)
      by (destruct Hmay as [?|[? _]]; auto).
    assert (Hown : owns_or_admin o job)
      by (destruct Hmay as [?|[_ ?]]; [by left|by right]).
    rewrite (proj1 (job_routes_gate_passed now o id updates db Hrole)).
    rewrite (updateJob_authorized now o id updates job db Hj Hown).
    do 3 eexists. split; [reflexivity|]. split.
    { simpl. rewrite lookup_insert_eq. simpl. by rewrite Hst. }
    split.
    { unfold getDashboardStats. unfold_monad. rewrite Hr. reflexivity. }
    simpl.
    destruct (dashboard_jobs (<[id := apply_updates now updates job]> (jobs db)))
      as [Hle Hiff].
    assert (Hne : countDocuments (fun _ => true)
                    (<[id := apply_updates now updates job]> (jobs db))
                  <> (countDocuments (fun j => bool_decide (jobStatus j = Active))
                        (<[id := apply_updates now updates job]> (jobs db))
                      + countDocuments (fun j => bool_decide (jobStatus j = Inactive))
                          (<[id := apply_updates now updates job]> (jobs db)))%nat).
    { intros Heq. pose proof (proj1 Hiff Heq) as Hall. clear Heq.
      pose proof (Hall id (apply_updates now updates job) (lookup_insert_eq _ _ _)) as Heq.
      simpl in Heq. rewrite Hst in Heq. simpl in Heq. tauto. }
    lia.
  - intros Hr. apply admin_guard_not in Hr.
    unfold getDashboardStats. unfold_monad. by rewrite Hr.
Qed.

Lemma stats_add_up_witness :
  let root := {| _id := 1%nat; doc := sample_user "root@x.com" admin false |} in
  let owner := {| _id := 2%nat; doc := sample_user "e@x.com" employer false |} in
  let close := {| upd_title := None; upd_description := None; upd_companyName := None;
                  upd_location := None; upd_jobType := None; upd_salaryRange := None;
                  upd_skills := None; upd_createdBy := None;
                  upd_jobStatus := Some "Closed" |} in
  exists r db' s,
    route_updateJob 700 owner 10%nat close sample_db = (Ok r, db')
    /\ getDashboardStats 250 (Some root) db' = (Ok {| status := 200; json := s |}, db')
    /\ (activeJobs s + inactiveJobs s < totalJobs s)%nat.
Proof.
  intros root owner close.
  destruct (proj1 (proj2 (proj2 (stats_add_up 250 root sample_db))) eq_refl
              700 owner 10%nat (sample_job "Backend Engineer" 2%nat Active 100) close
              "Closed" eq_refl (or_intror (conj eq_refl eq_refl)) eq_refl)
    as (r & db' & s & Hrun & _ & Hstats & Hlt); [discriminate|discriminate|].
  exists r, db', s. split; [exact Hrun|]. split; [exact Hstats|exact Hlt].
Defined.

(** ** [calculatePagination] *)



(** ** The error handler *)

(** X17: The answer to the errors of [utils/errors.ts]: the status is the one
    the class was made with and the message is the error's; a
    ValidationError lists its messages when it has any; an [AppError] made
    with status 0 is answered with 500. The stack is part of the answer
    only in development. *)
Theorem errorHandler_custom_errors (development : bool) (message : string)
    (stack : option string) :
  let answer st errs :=
    Some {| er_status := st; er_message := message; er_errors := errs;
            er_code := None; er_stack := if development then stack else None |} in
  (forall errors,
     errorHandler development (ValidationError_new message errors stack)
     = answer 400 (if bool_decide (errors = []) then None else Some errors))
  /\ errorHandler development (AuthenticationError_new message stack) = answer 401 None
  /\ errorHandler development (AuthorizationError_new message stack) = answer 403 None
  /\ errorHandler development (NotFoundError_new message stack) = answer 404 None
  /\ errorHandler development (ConflictError_new message stack) = answer 409 None
  /\ errorHandler development (DatabaseError_new message stack) = answer 500 None
  /\ errorHandler development (ExternalServiceError_new message stack) = answer 502 None
  /\ (forall code,
        errorHandler development (AppError_new "AppError" message 0 code stack)
        = Some {| er_status := 500; er_message := message; er_errors := None;
                  er_code := match code with
                             | Some c => if bool_decide (c = "") then None
                                         else Some (CodeString c)
                             | None => None
                             end;
                  er_stack := if development then stack else None |})
  /\ (forall e js, thrown_object e stack = Some js ->
        er_status <$> errorHandler development js = Some (statusCode e)).
Proof.
  intros answer. subst answer. repeat split; try reflexivity.
  - intros errors. unfold errorHandler, classify. simpl.
    destruct errors; reflexivity.
  - intros [c|]; [|reflexivity]. unfold errorHandler, classify. simpl.
    by destruct (bool_decide (c = "")).
  - intros e js. destruct e; simpl; try done; by intros [= <-].
Qed.

Lemma errorHandler_custom_errors_witness :
  er_status <$> errorHandler false (NotFoundError_new "Job not found" None) = Some 404.
Proof.
  apply (proj2 (proj2 (proj2 (proj2 (proj2 (proj2 (proj2 (proj2
           (errorHandler_custom_errors false "Job not found" None))))))))
           (NotFoundError "Job not found")).
  reflexivity.
Defined.

(** X18: What the handler never shows: an error it does not recognise (no
    status of its own, none of the names, codes and types it knows) is
    answered with status 500 and the fixed text, not with its message;
    and an error named ValidationError that has no [errors] and no status
    makes the handler itself throw. *)
Theorem errorHandler_unknown_errors (development : bool) (err : JsError) :
  truthy_number (e_statusCode err) = false ->
  e_constructor err <> "AppError" ->
  (e_name err <> "ValidationError" ->
   e_constructor err <> "ValidationError" ->
   e_code err <> Some (CodeNumber 11000) ->
   e_name err ∉ ["CastError"; "JsonWebTokenError"; "TokenExpiredError";
                 "MongooseError"; "MongoError"] ->
   e_type err <> Some "entity.parse.failed" ->
   e_code err <> Some (CodeString "LIMIT_FILE_SIZE") ->
   e_code err <> Some (CodeString "ECONNREFUSED") ->
   errorHandler development err
   = Some {| er_status := 500; er_message := "Internal Server Error";
             er_errors := None; er_code := None;
             er_stack := if development then e_stack err else None |})
  /\ (e_name err = "ValidationError" -> e_errors err = None ->
      errorHandler development err = None).
Proof.
  intros Hst Hctor. split.
  - intros Hname Hc Hdup Hnames Htype Hc1 Hc2.
    rewrite !not_elem_of_cons in Hnames.
    destruct Hnames as (? & ? & ? & ? & ? & _).
    unfold errorHandler, classify. rewrite Hst.
    rewrite (bool_decide_eq_false_2 (e_constructor err = "ValidationError")) by done.
    rewrite (bool_decide_eq_false_2 (e_constructor err = "AppError")) by done.
    rewrite (bool_decide_eq_false_2 (e_name err = "ValidationError")) by done.
    rewrite (bool_decide_eq_false_2 (e_code err = Some (CodeNumber 11000))) by done.
    rewrite (bool_decide_eq_false_2 (e_name err = "CastError")) by done.
    rewrite (bool_decide_eq_false_2 (e_name err = "JsonWebTokenError")) by done.
    rewrite (bool_decide_eq_false_2 (e_name err = "TokenExpiredError")) by done.
    rewrite (bool_decide_eq_false_2 (e_name err = "MongooseError")) by done.
    rewrite (bool_decide_eq_false_2 (e_name err = "MongoError")) by done.
    rewrite (bool_decide_eq_false_2 (e_type err = Some "entity.parse.failed")) by done.
    rewrite (bool_decide_eq_false_2 (e_code err = Some (CodeString "LIMIT_FILE_SIZE")))
      by done.
    rewrite (bool_decide_eq_false_2 (e_code err = Some (CodeString "ECONNREFUSED")))
      by done.
    reflexivity.
  - intros Hname Herr. unfold errorHandler, classify. rewrite Hst, Herr.
    rewrite (bool_decide_eq_false_2 (e_constructor err = "AppError")) by done.
    rewrite (bool_decide_eq_true_2 (e_name err = "ValidationError")) by done.
    rewrite andb_false_r. reflexivity.
Qed.

Lemma errorHandler_unknown_errors_witness :
  let err := {| e_constructor := "TypeError"; e_name := "TypeError";
                e_message := "Cannot read properties of undefined (reading '_id')";
                e_statusCode := None; e_errors := None; e_code := None;
                e_keyValue := None; e_type := None; e_stack := Some "at createJob" |} in
  errorHandler false err
  = Some {| er_status := 500; er_message := "Internal Server Error";
            er_errors := None; er_code := None; er_stack := None |}.
Proof.
  intros err.
  apply (proj1 (errorHandler_unknown_errors false err eq_refl ltac:(discriminate)));
    try discriminate.
  apply (bool_decide_eq_false_1 _). reflexivity.
Defined.

(** ** Start-up, whatever the store *)

Lemma checkAdminExists_has_admin db : checkAdminExists db = true <-> has_admin db.
Proof. unfold checkAdminExists. apply has_admin_query. Qed.

Lemma getAdminCount_has_admin db : (0 < getAdminCount db)%nat <-> has_admin db.
Proof.
  unfold getAdminCount, countDocuments, select, has_admin.
  rewrite <- Nat.neq_0_lt_0, map_size_ne_0_lookup. split.
  - intros (i & [u Hu]). apply map_lookup_filter_Some in Hu as [Hu Hq].
    simpl in Hq. apply bool_decide_eq_true in Hq. eauto.
  - intros (i & u & Hu & Hr). exists i, u. apply map_lookup_filter_Some.
    split; [done|]. simpl. by apply bool_decide_eq_true.
Qed.

Lemma User_save_admin_has_admin now e h b db r db' :
  User_save now {| f_email := e; f_password := h; f_role := "admin"; f_isBanned := b |} db
  = (Ok r, db') -> has_admin db'.
Proof.
  intros Hrun. apply User_save_inv in Hrun
    as [[_ [? [=]]]|(id & u & _ & -> & _ & _ & _ & _ & Hro & _)].
  simpl in Hro. injection Hro as Hro. by apply has_admin_after_insert.
Qed.

(** Whatever the store and the environment, [handshake] ends in one of two
    ways: it returns and an admin exists, or it ends the process with exit
    code 1 and has written nothing. [checkAdminExists] and [getAdminCount]
    agree with each other, and they say yes after a [handshake] that
    returned. *)
Theorem handshake_postcondition env now db :
  ((handshake env now db).1 = Returned
   /\ checkAdminExists (handshake env now db).2 = true
   /\ (0 < getAdminCount (handshake env now db).2)%nat)
  \/ handshake env now db = (ProcessExit 1, db).
Proof.
  assert (Hboth : forall d, has_admin d ->
            checkAdminExists d = true /\ (0 < getAdminCount d)%nat).
  { intros d Hd. split; [by apply checkAdminExists_has_admin
                        |by apply getAdminCount_has_admin]. }
  unfold handshake. unfold_monad.
  destruct (bool_decide (is_Some _)) eqn:Hq; simpl.
  { left. split; [done|]. apply Hboth. by apply has_admin_query. }
  destruct (ADMIN_EMAIL env) as [e|]; [|by right].
  destruct (ADMIN_PASSWORD env) as [p|]; [|by right].
  destruct (_ || _); [by right|].
  destruct (User_save _ _ db) as [[r|err] db1] eqn:Hsave; simpl.
  - left. split; [done|]. apply Hboth. by apply User_save_admin_has_admin in Hsave.
  - right. apply User_save_inv in Hsave as [[-> _]|(? & ? & [=] & _)]. done.
Qed.

(** X19: For an email and a password that are ASCII text,
    [handshakeWithCustomAdmin] changes nothing when an admin exists;
    otherwise it throws, and writes nothing, for an email the pattern
    refuses, then for a password shorter than eight characters, then for
    an email a stored user has; otherwise it stores one admin account with
    that email and password under an unused id. Whenever it returns, an
    admin exists. *)
Theorem handshakeWithCustomAdmin_outcomes now (e p : string) (db : Db) :
  is_ascii e = true -> is_ascii p = true ->
  (has_admin db -> handshakeWithCustomAdmin now e p db = (inl tt, db))
  /\ (~ has_admin db ->
      (emailRegex_test e = false ->
       handshakeWithCustomAdmin now e p db
       = (inr (PlainError "Invalid email format provided"), db))
      /\ (emailRegex_test e = true -> (String.length p < 8)%nat ->
          handshakeWithCustomAdmin now e p db
          = (inr (PlainError "Password must be at least 8 characters long"), db))
      /\ (emailRegex_test e = true -> (8 <= String.length p)%nat -> email_taken db e ->
          exists ix, handshakeWithCustomAdmin now e p db
                     = (inr (Rethrown (MongoDuplicateKey ix)), db))
      /\ (emailRegex_test e = true -> (8 <= String.length p)%nat -> ~ email_taken db e ->
          users db !! fresh (dom (users db)) = None
          /\ handshakeWithCustomAdmin now e p db
             = (inl tt,
                set_users (<[fresh (dom (users db)) := bootstrap_admin now e p]> (users db))
                  db)))
  /\ (forall db', handshakeWithCustomAdmin now e p db = (inl tt, db') ->
        checkAdminExists db' = true).
Proof.
  intros _ _. split; [|split].
  - intros H. apply has_admin_query in H. unfold handshakeWithCustomAdmin. by rewrite H.
  - intros Hno. rewrite <- has_admin_query in Hno. apply not_true_is_false in Hno.
    unfold handshakeWithCustomAdmin. rewrite Hno. split; [|split; [|split]].
    + by intros ->.
    + intros -> Hlen. simpl. by rewrite bool_decide_eq_true_2.
    + intros Hre Hlen (id & d & Hd & He). rewrite Hre. simpl.
      rewrite bool_decide_eq_false_2 by lia.
      unfold User_save. simpl.
      rewrite bool_decide_eq_false_2 by by apply emailRegex_nonempty.
      destruct (email_index_taken (bootstrap_admin now e p) (users db) id d Hd He)
        as [ix Hix].
      unfold bootstrap_admin in Hix. rewrite (insertOne_duplicate _ _ _ _ Hix). eauto.
    + intros Hre Hlen Hfree. split; [apply fresh_lookup|]. rewrite Hre. simpl.
      rewrite bool_decide_eq_false_2 by lia.
      unfold User_save. simpl.
      rewrite bool_decide_eq_false_2 by by apply emailRegex_nonempty.
      rewrite insertOne_ok; [done|].
      apply email_index_free. intros i d Hd Heq. apply Hfree. by exists i, d.
  - intros db'. unfold handshakeWithCustomAdmin.
    destruct (bool_decide (is_Some _)) eqn:Hq.
    { intros [= <-]. exact Hq. }
    destruct (negb (emailRegex_test e)); [done|].
    destruct (bool_decide (String.length p < 8)%nat); [done|].
    destruct (User_save _ _ db) as [[r|err] db1] eqn:Hsave; [|done].
    intros [= <-]. apply checkAdminExists_has_admin.
    by apply User_save_admin_has_admin in Hsave.
Qed.

Lemma handshakeWithCustomAdmin_outcomes_witness :
  handshakeWithCustomAdmin 1 "admin@x.com" "short" squatted_db
  = (inr (PlainError "Password must be at least 8 characters long"), squatted_db).
Proof.
  apply (proj1 (proj2 (handshakeWithCustomAdmin_outcomes 1 "admin@x.com" "short" squatted_db
                         eq_refl eq_refl))).
  - intros (id & u & Hu & Hr). simpl in Hu.
    destruct (decide (id = 4%nat)) as [->|Hne].
    + rewrite lookup_singleton_eq in Hu. injection Hu as <-. discriminate Hr.
    + by rewrite lookup_singleton_ne in Hu.
  - reflexivity.
  - simpl. lia.
Defined.

(** ** The socket middleware and the HTTP resolver agree *)

(** X20: A socket connection is accepted exactly for the tokens
    [authenticate] accepts, and as the same user. *)
Theorem socket_authenticate_agrees env now (token : option Token) (u : IUser) (db : Db) :
  socket_authenticate env now token db = Some u
  <-> authenticate env now token db = (Ok u, db).
Proof.
  unfold socket_authenticate, authenticate, findById.
  unfold try_catch, lift, throw, gets, throw_if, mbind, M_bind, mret, M_ret.
  destruct token as [t|]; simpl; [|split; done].
  destruct (jwt_verify t (JWT_SECRET env) now) as [uid|e]; simpl.
  - destruct (users db !! uid) as [usr|]; simpl; [|split; done].
    destruct (isBanned usr); simpl; split; try done; by intros [= <-].
  - destruct e; split; done.
Qed.

(** ** The route of applications *)

Lemma applyForJob_candidate_errors now (u : IUser) b db m :
  role (doc u) = candidate ->
  (applyForJob now (Some u) b db).1 <> Err (AuthorizationError m).
Proof.
  intros Hr. unfold applyForJob, Application_save, insertOne, findById. unfold_monad.
  unfold user_role, compose. simpl. rewrite Hr.
  destruct (b_jobId b); simpl; [|done].
  destruct (negb (truthy (b_coverLetter b))); simpl; [done|].
  destruct (negb (truthy (b_resume b))); simpl; [done|].
  destruct (jobs db !! _) as [job|]; simpl; [|done].
  destruct (negb (bool_decide (jobStatus job = Active))); simpl; [done|].
  destruct (bool_decide (is_Some _)); simpl; done.
Qed.

(** X21: On the route [authenticate, authorize("candidate"),
    validateApplication, applyForJob]: a request that does not
    authenticate gets that error; an authenticated principal that is no
    candidate gets AuthorizationError "Insufficient permissions." whatever
    the body, even an empty one; for a candidate the route answers as the
    handler does. The handler's own role check never decides: no answer of
    the route is its "Only candidates can apply for jobs". *)
Theorem apply_route_order env now (auth : option Token) (b : ApplicationBody) (db : Db) :
  let run := gated env now auth [candidate]
               (fun u => validateApplication b;; applyForJob now (Some u) b) db in
  (forall e, authenticate env now auth db = (Err e, db) -> run = (Err e, db))
  /\ (forall u, authenticate env now auth db = (Ok u, db) ->
        (role (doc u) <> candidate ->
         run = (Err (AuthorizationError "Insufficient permissions."), db))
        /\ (role (doc u) = candidate -> run = applyForJob now (Some u) b db))
  /\ run.1 <> Err (AuthorizationError "Only candidates can apply for jobs").
Proof.
  intros run. subst run.
  assert (Hcand : forall u, authenticate env now auth db = (Ok u, db) ->
            role (doc u) = candidate ->
            gated env now auth [candidate]
              (fun u => validateApplication b;; applyForJob now (Some u) b) db
            = applyForJob now (Some u) b db).
  { intros u Ha Hr. unfold gated, authorize, validateApplication.
    unfold throw_if, throw, mbind, M_bind, mret, M_ret. rewrite Ha.
    rewrite bool_decide_eq_true_2 by (rewrite Hr; set_solver). simpl.
    unfold applyForJob. unfold_monad.
    by destruct (negb (bool_decide (is_Some (b_jobId b)))). }
  assert (Hother : forall u, authenticate env now auth db = (Ok u, db) ->
            role (doc u) <> candidate ->
            gated env now auth [candidate]
              (fun u => validateApplication b;; applyForJob now (Some u) b) db
            = (Err (AuthorizationError "Insufficient permissions."), db)).
  { intros u Ha Hr. unfold gated, authorize.
    unfold throw_if, throw, mbind, M_bind, mret, M_ret. rewrite Ha.
    rewrite bool_decide_eq_false_2; [done|]. rewrite list_elem_of_singleton. done. }
  split; [|split].
  - intros e Ha. unfold gated. unfold mbind at 1. unfold M_bind at 1. by rewrite Ha.
  - intros u Ha. split; [by apply Hother|by apply Hcand].
  - destruct (authenticate_cases env now auth db) as [[m Ha]|(u & Ha & _)].
    + unfold gated. unfold mbind at 1. unfold M_bind at 1. by rewrite Ha.
    + destruct (decide (role (doc u) = candidate)) as [Hr|Hr].
      * rewrite (Hcand u Ha Hr). by apply applyForJob_candidate_errors.
      * by rewrite (Hother u Ha Hr).
Qed.

Lemma apply_route_order_witness :
  gated bootstrap_env 3000 (token_of 2) [candidate]
    (fun u => validateApplication {| b_jobId := None; b_coverLetter := None;
                                     b_resume := None |};;
              applyForJob 3000 (Some u) {| b_jobId := None; b_coverLetter := None;
                                           b_resume := None |}) sample_db
  = (Err (AuthorizationError "Insufficient permissions."), sample_db).
Proof.
  apply (proj1 (proj2 (apply_route_order bootstrap_env 3000 (token_of 2)
                         {| b_jobId := None; b_coverLetter := None; b_resume := None |}
                         sample_db))
           {| _id := 2%nat; doc := sample_user "e@x.com" employer false |});
    [reflexivity|discriminate].
Defined.

(** ** Updating a job *)

(** X22: An update takes every path of the body, [createdBy] included. When
    the creator of a job, not an admin, updates it with another user's id
    as [createdBy], the update succeeds, only that job changes and its
    creation date stays; from then on the former creator's updates and
    deletions of the job are refused with AuthorizationError and the other
    user's are accepted. A missing job is NotFoundError for everyone. *)
Theorem updateJob_transfers_ownership now now' (u v : IUser) (id : ObjectId)
    (job : Job) (updates updates' : JobUpdates) (db : Db) :
  (forall w, jobs db !! id = None ->
     updateJob now w id updates db = (Err (NotFoundError "Job not found"), db))
  /\ (jobs db !! id = Some job -> createdBy job = _id u -> role (doc u) <> admin ->
      upd_createdBy updates = Some (_id v) -> _id v <> _id u ->
      exists job' db',
        updateJob now (Some u) id updates db
        = (Ok {| status := 200; json := Some job' |}, db')
        /\ db' = set_jobs (<[id := job']> (jobs db)) db
        /\ createdBy job' = _id v /\ j_createdAt job' = j_createdAt job
        /\ j_updatedAt job' = now
        /\ updateJob now' (Some u) id updates' db'
           = (Err (AuthorizationError "Not authorized to update this job"), db')
        /\ deleteJob (Some u) id db'
           = (Err (AuthorizationError "Not authorized to delete this job"), db')
        /\ is_ok (updateJob now' (Some v) id updates' db').1
        /\ is_ok (deleteJob (Some v) id db').1).
Proof.
  split.
  - intros w Hj. unfold updateJob, findById. unfold_monad. by rewrite Hj.
  - intros Hj Hc Hr Hupd Hne.
    set (job' := apply_updates now updates job).
    set (db' := set_jobs (<[id := job']> (jobs db)) db).
    assert (Hjob' : jobs db' !! id = Some job') by apply lookup_insert_eq.
    assert (Hcb : createdBy job' = _id v) by (subst job'; simpl; by rewrite Hupd).
    exists job', db'. split; [|split; [done|]].
    + apply updateJob_authorized; [done|]. by right.
    + split; [done|]. split; [done|]. split; [done|].
      assert (Hnot : ~ owns_or_admin u job').
      { unfold owns_or_admin. rewrite Hcb. intros [?|?]; congruence. }
      assert (Hv : owns_or_admin v job') by (right; by rewrite Hcb).
      split; [by apply (updateJob_refused now' u id updates' job')|].
      split; [by apply (deleteJob_refused u id job')|].
      rewrite (updateJob_authorized now' v id updates' job' db' Hjob' Hv).
      rewrite (deleteJob_authorized v id job' db' Hjob' Hv). done.
Qed.

Lemma updateJob_transfers_ownership_witness :
  let e := {| _id := 2%nat; doc := sample_user "e@x.com" employer false |} in
  let f := {| _id := 3%nat; doc := sample_user "f@x.com" employer false |} in
  let give := {| upd_title := None; upd_description := None; upd_companyName := None;
                 upd_location := None; upd_jobType := None; upd_salaryRange := None;
                 upd_skills := None; upd_createdBy := Some 3%nat;
                 upd_jobStatus := None |} in
  exists job' db',
    updateJob 700 (Some e) 10%nat give sample_db
    = (Ok {| status := 200; json := Some job' |}, db')
    /\ deleteJob (Some e) 10%nat db'
       = (Err (AuthorizationError "Not authorized to delete this job"), db').
Proof.
  intros e f give.
  destruct (proj2 (updateJob_transfers_ownership 700 800 e f 10%nat
                     (sample_job "Backend Engineer" 2%nat Active 100) give no_updates
                     sample_db) eq_refl eq_refl ltac:(discriminate) eq_refl
              ltac:(discriminate))
    as (job' & db' & Hrun & _ & _ & _ & _ & _ & Hdel & _).
  exists job', db'. split; [exact Hrun|exact Hdel].
Defined.

(** ** The services *)

(** X23: The applications of an employer, as the service lists them: exactly
    the stored applications whose job is stored and was created by that
    employer, each once, newest first, and each carries its job's title
    and company. The store is not written. *)
Theorem getApplicationsByEmployer_listing (employerId : ObjectId) (db : Db) :
  exists l,
    ApplicationService_getApplicationsByEmployer employerId db
    = (Ok (populate_application db <$> l), db)
    /\ (forall id a, (id, a) ∈ l <->
          applications db !! id = Some a
          /\ exists job, jobs db !! jobId a = Some job /\ createdBy job = employerId)
    /\ NoDup l
    /\ StronglySorted (fun x y => appliedAt y.2 <= appliedAt x.2) l
    /\ Forall (fun pa => is_Some (pa_jobId pa)) (populate_application db <$> l).
Proof.
  eexists.
  split; [unfold ApplicationService_getApplicationsByEmployer; unfold_monad; reflexivity|].
  assert (Hl : forall id a,
    (id, a) ∈ sort_desc (fun kv : ObjectId * Application => appliedAt kv.2)
      (find (fun a => bool_decide
               (jobId a ∈ (find (fun j => bool_decide (createdBy j = employerId))
                             (jobs db)).*1))
         (applications db))
    <-> applications db !! id = Some a
        /\ exists job, jobs db !! jobId a = Some job /\ createdBy job = employerId).
  { intros id a. rewrite sort_desc_elem, find_elem, bool_decide_eq_true.
    rewrite list_elem_of_fmap. split.
    - intros [Ha ([jid job] & Hj & Hin)]. split; [done|].
      apply find_elem in Hin as [Hjob Hc]. apply bool_decide_eq_true in Hc.
      simpl in Hj. subst jid. eauto.
    - intros [Ha (job & Hjob & Hc)]. split; [done|].
      exists (jobId a, job). split; [done|].
      apply find_elem. split; [done|]. by apply bool_decide_eq_true. }
  split; [exact Hl|]. split; [apply sort_desc_NoDup, find_NoDup|].
  split; [apply (sort_desc_sorted (fun kv : ObjectId * Application => appliedAt kv.2))|].
  apply Forall_fmap, Forall_forall. intros [id a] Hin.
  apply Hl in Hin as [_ (job & Hjob & _)]. simpl. by rewrite Hjob.
Qed.

(** X24: Round trip through the application service: a created application
    (job and candidate given) is found by [checkExistingApplication] for
    its pair; deleting it by the id [createApplication] returned answers
    true and gives back the store as it was; deleting it once more answers
    false and changes nothing. *)
Theorem application_service_round_trip now (f : ApplicationFields) j c (db : Db) :
  f_jobId f = Some j -> f_candidateId f = Some c ->
  exists id a db1,
    ApplicationService_createApplication now f db = (Ok (id, a), db1)
    /\ jobId a = j /\ candidateId a = c
    /\ applications db !! id = None /\ applications db1 !! id = Some a
    /\ ApplicationService_checkExistingApplication j c db1 = (Ok true, db1)
    /\ ApplicationService_deleteApplication id db1 = (Ok true, db)
    /\ ApplicationService_deleteApplication id db = (Ok false, db).
Proof.
  intros Hj Hc.
  unfold ApplicationService_createApplication, Application_save. rewrite Hj, Hc.
  unfold insertOne. simpl.
  set (id := fresh (dom (applications db))).
  assert (Hid : applications db !! id = None) by apply fresh_lookup.
  do 3 eexists. split; [reflexivity|]. split; [done|]. split; [done|].
  split; [done|]. split; [apply lookup_insert_eq|].
  split; [|split].
  - unfold ApplicationService_checkExistingApplication. unfold_monad.
    rewrite bool_decide_eq_true_2; [done|].
    apply findOne_is_Some. do 2 eexists. split; [apply lookup_insert_eq|].
    simpl. by rewrite !bool_decide_eq_true_2.
  - unfold ApplicationService_deleteApplication, findById, findByIdAndDelete.
    unfold_monad. simpl. rewrite lookup_insert_eq. simpl.
    rewrite delete_insert_eq, delete_id by done. by destruct db.
  - unfold ApplicationService_deleteApplication, findById, findByIdAndDelete.
    unfold_monad. rewrite Hid. simpl. rewrite delete_id by done. by destruct db.
Qed.

Lemma application_service_round_trip_witness :
  let f := {| f_jobId := Some 12%nat; f_candidateId := Some 4%nat;
              f_coverLetter := None; f_resume := None;
              f_applicationStatus := None; f_appliedAt := None |} in
  exists id a db1,
    ApplicationService_createApplication 700 f sample_db = (Ok (id, a), db1)
    /\ ApplicationService_deleteApplication id db1 = (Ok true, sample_db).
Proof.
  intros f.
  destruct (application_service_round_trip 700 f 12%nat 4%nat sample_db eq_refl eq_refl)
    as (id & a & db1 & Hc & _ & _ & _ & _ & _ & Hd & _).
  exists id, a, db1. split; [exact Hc|exact Hd].
Defined.

(** [JobService.deleteJob] answers whether the job was stored; afterwards
    the job is gone and no application names it, every other job and
    application and every user is as before, and a store where every
    application named a stored job and candidate is still such a store. *)
Theorem JobService_deleteJob_keeps_references (jobId_ : ObjectId) (db : Db) :
  exists db',
    JobService_deleteJob jobId_ db = (Ok (bool_decide (is_Some (jobs db !! jobId_))), db')
    /\ users db' = users db
    /\ jobs db' = delete jobId_ (jobs db)
    /\ (forall id a, applications db' !! id = Some a <->
          applications db !! id = Some a /\ jobId a <> jobId_)
    /\ (references_intact db -> references_intact db').
Proof.
  eexists. split; [reflexivity|]. simpl. split; [done|]. split; [done|].
  assert (Ha : forall id a,
    deleteMany (fun a => bool_decide (jobId a = jobId_)) (applications db) !! id = Some a
    <-> applications db !! id = Some a /\ jobId a <> jobId_).
  { intros id a. by rewrite deleteMany_lookup, bool_decide_eq_false. }
  split; [exact Ha|].
  intros Hrefs i a Hi. simpl in *. apply Ha in Hi as [Hi Hne].
  destruct (Hrefs i a Hi) as [Hjob Hcand]. split; [|done].
  unfold findByIdAndDelete. by rewrite lookup_delete_ne.
Qed.

(** [UserService.deleteUser] removes the user document and nothing else:
    it answers true for a stored user, and every job that user created and
    every application that user made stays in the store, now naming a
    user that does not exist. *)
Theorem UserService_deleteUser_no_cascade (userId : ObjectId) (u : User) (db : Db) :
  users db !! userId = Some u ->
  exists db',
    UserService_deleteUser userId db = (Ok true, db')
    /\ users db' = delete userId (users db)
    /\ jobs db' = jobs db /\ applications db' = applications db
    /\ (forall id j, jobs db !! id = Some j -> createdBy j = userId ->
          jobs db' !! id = Some j /\ users db' !! createdBy j = None)
    /\ (forall id a, applications db !! id = Some a -> candidateId a = userId ->
          applications db' !! id = Some a /\ users db' !! candidateId a = None
          /\ ~ references_intact db').
Proof.
  intros Hu. eexists. split.
  { unfold UserService_deleteUser, findById. unfold_monad. rewrite Hu. reflexivity. }
  simpl. split; [done|]. split; [done|]. split; [done|].
  unfold findByIdAndDelete. split.
  - intros id j Hj ->. split; [done|]. apply lookup_delete_eq.
  - intros id a Ha Hc. split; [done|].
    assert (Hgone : delete userId (users db) !! candidateId a = None)
      by (rewrite Hc; apply lookup_delete_eq).
    split; [done|].
    intros Hrefs. destruct (Hrefs id a Ha) as [_ Hrole]. simpl in Hrole.
    by rewrite Hgone in Hrole.
Qed.

Lemma UserService_deleteUser_no_cascade_witness :
  exists db',
    UserService_deleteUser 4%nat sample_db = (Ok true, db')
    /\ applications db' = applications sample_db
    /\ users db' !! 4%nat = None.
Proof.
  destruct (UserService_deleteUser_no_cascade 4%nat (sample_user "c@x.com" candidate false)
              sample_db eq_refl)
    as (db' & Hrun & Hus & _ & Happs & _).
  exists db'. split; [exact Hrun|]. split; [exact Happs|].
  rewrite Hus. apply lookup_delete_eq.
Defined.

(** X25: [UserService.createUser] stores the hash of the password, never the
    password: with a role of the schema and a non-empty email no stored
    user has, the new user is stored and [findUserByEmail] finds it.
    bcrypt reads the first 72 bytes of a password: [validatePassword]
    accepts, against what is stored, the password and every password with
    the same first 72 bytes, and refuses a password that differs within
    those bytes (neither holding a NUL byte). With an email a stored user
    has, the unique index refuses the save and the store is unchanged. *)
Theorem UserService_createUser_outcomes now (e p r : string) (db : Db) :
  (email_taken db e ->
   UserService_createUser now e p r db = (Err (MongoDuplicateKey "email_1"), db)
   \/ exists field, UserService_createUser now e p r db
                    = (Err (MongooseValidationError field), db))
  /\ (~ email_taken db e -> e <> "" -> forall ro, role_of_string r = Some ro ->
      exists id u db',
        UserService_createUser now e p r db = (Ok (id, u), db')
        /\ users db !! id = None
        /\ db' = set_users (<[id := u]> (users db)) db
        /\ email u = e /\ role u = ro /\ isBanned u = false
        /\ UserService_validatePassword p (password u) = true
        /\ (forall p', bcrypt_key p' = bcrypt_key p ->
              UserService_validatePassword p' (password u) = true)
        /\ (forall p', no_nul p = true -> no_nul p' = true ->
              bcrypt_key p' <> bcrypt_key p ->
              UserService_validatePassword p' (password u) = false)
        /\ (emails_unique db ->
            UserService_findUserByEmail e db' = (Ok (Some (id, u)), db'))).
Proof.
  split.
  - intros Htaken. unfold UserService_createUser, User_save. simpl.
    case_bool_decide; [right; eauto|].
    destruct (role_of_string r) as [ro|]; [|right; eauto].
    left. destruct Htaken as (id & d & Hd & He).
    unfold insertOne, first_violation, UserSchema_indexes, violates. simpl.
    rewrite bool_decide_eq_true_2; [done|].
    intros Hnone. rewrite findOne_None in Hnone. specialize (Hnone id d Hd).
    apply bool_decide_eq_false in Hnone. apply Hnone. by rewrite He.
  - intros Hfree Hne ro Hro. unfold UserService_createUser, User_save. simpl.
    rewrite bool_decide_eq_false_2 by done. rewrite Hro.
    unfold insertOne.
    rewrite email_index_free; [|intros i d Hd Heq; apply Hfree; by exists i, d].
    set (id := fresh (dom (users db))).
    assert (Hid : users db !! id = None) by apply fresh_lookup.
    do 3 eexists. split; [reflexivity|]. split; [done|]. split; [done|].
    split; [done|]. split; [done|]. split; [done|]. simpl.
    unfold UserService_validatePassword. rewrite bcrypt_compare_key.
    split; [by rewrite bool_decide_eq_true_2|].
    split; [|split].
    + intros p' Hp'. rewrite bcrypt_compare_key. by rewrite bool_decide_eq_true_2.
    + intros p' _ _ Hp'. rewrite bcrypt_compare_key. by rewrite bool_decide_eq_false_2.
    + intros Huniq.
      set (u := {| email := e; password := bcrypt_hash p; firstName := None;
                   lastName := None; company := None; role := ro; isBanned := false;
                   u_createdAt := now; u_updatedAt := now |}).
      unfold UserService_findUserByEmail, gets.
      rewrite (findOne_unique_email (set_users (<[id := u]> (users db)) db) id u);
        [done| |apply lookup_insert_eq].
      intros i j x y Hx Hy Hxy. simpl in Hx, Hy.
      destruct (decide (i = id)) as [->|Hi], (decide (j = id)) as [->|Hj]; [done| | |].
      * rewrite lookup_insert_eq in Hx. rewrite lookup_insert_ne in Hy by done.
        injection Hx as <-. exfalso. apply Hfree. exists j, y. done.
      * rewrite lookup_insert_eq in Hy. rewrite lookup_insert_ne in Hx by done.
        injection Hy as <-. exfalso. apply Hfree. exists i, x. done.
      * rewrite lookup_insert_ne in Hx, Hy by done. by apply (Huniq i j x y).
Qed.

Lemma UserService_createUser_outcomes_witness :
  exists id u db',
    UserService_createUser 700 "new@x.com" "secret1" "candidate" sample_db
    = (Ok (id, u), db')
    /\ users db' !! id = Some u
    /\ UserService_validatePassword "secret1" (password u) = true
    /\ UserService_validatePassword "secret2" (password u) = false.
Proof.
  destruct (proj2 (UserService_createUser_outcomes 700 "new@x.com" "secret1" "candidate"
                     sample_db)) with (ro := candidate)
    as (id & u & db' & Hrun & _ & Hdb & _ & _ & _ & Hsame & _ & Hother & _).
  - rewrite <- email_query. vm_compute. discriminate.
  - discriminate.
  - reflexivity.
  - exists id, u, db'. split; [exact Hrun|]. split.
    + rewrite Hdb. apply lookup_insert_eq.
    + split; [exact Hsame|]. apply Hother; [reflexivity|reflexivity|discriminate].
Defined.

(** ** Who can change the store *)

Lemma gated_changes {A} env now auth roles (handler : IUser -> M A) db :
  (gated env now auth roles handler db).2 <> db ->
  exists u, authenticate env now auth db = (Ok u, db)
    /\ users db !! _id u = Some (doc u) /\ isBanned (doc u) = false
    /\ role (doc u) ∈ roles /\ (handler u db).2 <> db.
Proof.
  unfold gated, authorize, throw_if, throw, mbind, M_bind, mret, M_ret.
  destruct (authenticate_cases env now auth db) as [[m Ha]|(u & Ha & Hu & Hb)];
    rewrite Ha; [done|].
  destruct (decide (role (doc u) ∈ roles)) as [Hr|Hr].
  - rewrite (bool_decide_eq_true_2 _ Hr). simpl. intros H. exists u. done.
  - rewrite (bool_decide_eq_false_2 _ Hr). done.
Qed.

Lemma owns_or_admin_dec (u : IUser) (job : Job) :
  owns_or_admin u job \/ ~ owns_or_admin u job.
Proof.
  unfold owns_or_admin.
  destruct (decide (role (doc u) = admin)), (decide (_id u = createdBy job)); tauto.
Qed.

Lemma updateJob_changes now (u : IUser) id updates db :
  (updateJob now (Some u) id updates db).2 <> db ->
  exists job, jobs db !! id = Some job /\ owns_or_admin u job.
Proof.
  destruct (jobs db !! id) as [job|] eqn:Hj.
  - destruct (owns_or_admin_dec u job) as [Hown|Hown]; [eauto|].
    by rewrite (updateJob_refused now u id updates job db Hj Hown).
  - unfold updateJob, findById. unfold_monad. by rewrite Hj.
Qed.

Lemma deleteJob_changes (u : IUser) id db :
  (deleteJob (Some u) id db).2 <> db ->
  exists job, jobs db !! id = Some job /\ owns_or_admin u job.
Proof.
  destruct (jobs db !! id) as [job|] eqn:Hj.
  - destruct (owns_or_admin_dec u job) as [Hown|Hown]; [eauto|].
    by rewrite (deleteJob_refused u id job db Hj Hown).
  - unfold deleteJob, findById. unfold_monad. by rewrite Hj.
Qed.

Lemma deleteApplication_changes (u : IUser) id db :
  (deleteApplication (Some u) id db).2 <> db ->
  exists a, applications db !! id = Some a
            /\ (candidateId a = _id u \/ role (doc u) = admin).
Proof.
  unfold deleteApplication, findById. unfold_monad.
  destruct (applications db !! id) as [a|] eqn:Ha; [|done].
  destruct (negb _ && negb _) eqn:Hg; [done|].
  intros _. exists a. split; [done|]. by apply deleteApplication_guard.
Qed.

Lemma not_candidate_roles (u : IUser) :
  role (doc u) ∈ [employer; admin] -> role (doc u) <> candidate.
Proof.
  intros Hin Hr. rewrite Hr in Hin. revert Hin.
  apply (bool_decide_eq_false_1 _). reflexivity.
Qed.

Section Authority.
Variable regex_i : string -> string -> bool.
Variable seven_days_before : Date -> Date.

(** X26: No request changes the store without authority. A request after which
    the store differs is a registration, or it carries a token that
    authenticates as a stored user who is not banned and who has the
    authority the route asks for: no candidate for creating a job; no
    candidate, and the job's creator or an admin, for updating or deleting
    a stored job; a candidate for applying; the application's candidate or
    an admin for deleting a stored application; an admin for banning,
    unbanning and deleting users. Every other route, and every request
    without such a token, leaves the store as it was. *)
Theorem store_changes_need_authority env now (req : Request) (db : Db) :
  (serve regex_i seven_days_before env now req db).2 <> db ->
  (exists b, req = POST_auth_register b)
  \/ exists u, authenticate env now (request_auth req) db = (Ok u, db)
       /\ users db !! _id u = Some (doc u) /\ isBanned (doc u) = false
       /\ authority db u req.
Proof.
  destruct req; cbv beta iota delta [serve]; rewrite void_store; simpl request_auth;
    intros Hch.
  - left. eauto.
  - by rewrite login_read_only in Hch.
  - by rewrite route_getProfile_read_only in Hch.
  - by rewrite getAllJobs_read_only in Hch.
  - apply gated_changes in Hch as (u & _ & _ & _ & _ & Hch).
    by rewrite getMyJobs_read_only in Hch.
  - by rewrite getJobById_read_only in Hch.
  - apply gated_changes in Hch as (u & Ha & Hu & Hb & Hr & _).
    right. exists u. simpl. eauto using not_candidate_roles.
  - apply gated_changes in Hch as (u & Ha & Hu & Hb & Hr & Hch).
    apply updateJob_changes in Hch.
    right. exists u. simpl. eauto 6 using not_candidate_roles.
  - apply gated_changes in Hch as (u & Ha & Hu & Hb & Hr & Hch).
    apply deleteJob_changes in Hch.
    right. exists u. simpl. eauto 6 using not_candidate_roles.
  - apply gated_changes in Hch as (u & Ha & Hu & Hb & Hr & _).
    right. exists u. simpl. apply list_elem_of_singleton in Hr. eauto.
  - apply gated_changes in Hch as (u & _ & _ & _ & _ & Hch).
    by rewrite getMyApplications_read_only in Hch.
  - by rewrite route_getJobApplications_read_only in Hch.
  - apply gated_changes in Hch as (u & _ & _ & _ & _ & Hch).
    by rewrite getAllApplications_read_only in Hch.
  - revert Hch. unfold mbind, M_bind.
    destruct (authenticate_cases env now auth db) as [[m Ha]|(u & Ha & Hu & Hb)];
      rewrite Ha; [done|].
    intros Hch. apply deleteApplication_changes in Hch.
    right. exists u. simpl. eauto.
  - apply gated_changes in Hch as (u & _ & _ & _ & _ & Hch).
    by rewrite getAllUsers_read_only in Hch.
  - apply gated_changes in Hch as (u & _ & _ & _ & _ & Hch).
    by rewrite admin_getAllApplications_read_only in Hch.
  - apply gated_changes in Hch as (u & _ & _ & _ & _ & Hch).
    by rewrite admin_getAllJobs_read_only in Hch.
  - apply gated_changes in Hch as (u & Ha & Hu & Hb & Hr & _).
    right. exists u. simpl. apply list_elem_of_singleton in Hr. eauto.
  - apply gated_changes in Hch as (u & Ha & Hu & Hb & Hr & _).
    right. exists u. simpl. apply list_elem_of_singleton in Hr. eauto.
  - apply gated_changes in Hch as (u & Ha & Hu & Hb & Hr & _).
    right. exists u. simpl. apply list_elem_of_singleton in Hr. eauto.
  - apply gated_changes in Hch as (u & _ & _ & _ & _ & Hch).
    by rewrite getDashboardStats_read_only in Hch.
Qed.
End Authority.

Lemma store_changes_need_authority_witness :
  exists u, authenticate bootstrap_env 5000 (token_of 2) sample_db = (Ok u, sample_db)
    /\ authority sample_db u (DELETE_jobs_id (token_of 2) 10%nat).
Proof.
  destruct (store_changes_need_authority contains (fun now => now - 604800000)
              bootstrap_env 5000 (DELETE_jobs_id (token_of 2) 10%nat) sample_db)
    as [[b Hb]|(u & Ha & _ & _ & Hauth)].
  - intros Heq. apply (f_equal (fun d => jobs d !! 10%nat)) in Heq.
    vm_compute in Heq. discriminate Heq.
  - discriminate Hb.
  - exists u. split; [exact Ha|exact Hauth].
Defined.

(** ** The admin listings: users, and the edges of paging *)

Lemma paginate_sorted {A} (R : relation A) limit skip (l l' : list A) :
  paginate limit skip l = Ok l' -> StronglySorted R l -> StronglySorted R l'.
Proof.
  unfold paginate. case_bool_decide; [done|]. intros [= <-] Hs.
  assert (Hd : StronglySorted R (drop (Z.to_nat skip) l)).
  { rewrite <- (take_drop (Z.to_nat skip) l) in Hs.
    by apply StronglySorted_app_1_r in Hs. }
  case_bool_decide; [done|].
  rewrite <- (take_drop (Z.to_nat (Z.abs limit)) (drop (Z.to_nat skip) l)) in Hd.
  by apply StronglySorted_app_1_l in Hd.
Qed.

Lemma sorted_ids_strict {D} (l : list (ObjectId * D)) :
  StronglySorted (fun x y => Z.of_nat y.1 <= Z.of_nat x.1) l -> NoDup l.*1 ->
  StronglySorted (fun x y => (y.1 < x.1)%nat) l.
Proof.
  induction 1 as [|x l Hs IH Hx]; [constructor|]. intros Hnd.
  rewrite fmap_cons in Hnd. apply NoDup_cons in Hnd as [Hnot Hnd].
  constructor; [by apply IH|].
  apply Forall_forall. intros y Hy. rewrite Forall_forall in Hx.
  specialize (Hx y Hy). simpl in Hx.
  assert (y.1 <> x.1); [|lia].
  intros Heq. apply Hnot. rewrite <- Heq. apply list_elem_of_fmap. by exists y.
Qed.

Lemma find_sorted_by_id {D} (q : D -> bool) (c : gmap ObjectId D) :
  StronglySorted (fun x y => (y.1 < x.1)%nat)
    (sort_desc (fun kv : ObjectId * D => Z.of_nat kv.1) (find q c)).
Proof.
  apply sorted_ids_strict.
  - apply (sort_desc_sorted (fun kv : ObjectId * D => Z.of_nat kv.1)).
  - unfold sort_desc. rewrite merge_sort_Permutation. unfold find.
    apply NoDup_fst_map_to_list.
Qed.

(** X27: The listing of users: a principal that is no admin is refused. An
    admin gets views of stored users (the view has no password path), in
    strictly descending order of id; with a [role] of "admin", "employer"
    or "candidate" every user of the page has that role and [total] counts
    the users of that role; any other value of [role], or none, is
    ignored and [total] is the number of all users. *)
Theorem getAllUsers_filter (u : IUser) (q : AdminQuery) (db : Db) :
  (role (doc u) <> admin ->
   getAllUsers (Some u) q db
   = (Err (AuthorizationError "Only admins can access this route"), db))
  /\ (role (doc u) = admin ->
      0 <= (default 1 (aq_page q) - 1) * default 10 (aq_limit q) ->
      exists r,
        getAllUsers (Some u) q db = (Ok {| status := 200; json := r |}, db)
        /\ (forall x, x ∈ items r ->
              exists t, users db !! uv_id x = Some t
                        /\ x = select_without_password (uv_id x, t))
        /\ StronglySorted (fun x y => (uv_id y < uv_id x)%nat) (items r)
        /\ (forall ro, aq_filter q = Some (Role_to_string ro) ->
              (forall x, x ∈ items r -> uv_role x = ro)
              /\ total r = countDocuments (fun t => bool_decide (role t = ro)) (users db))
        /\ ((forall v, aq_filter q = Some v -> v ∉ ["admin"; "employer"; "candidate"]) ->
            total r = size (users db))).
Proof.
  unfold getAllUsers. rewrite admin_listing_run. split.
  - intros Hr. apply admin_guard_not in Hr. by rewrite Hr.
  - intros Hr Hskip. apply admin_guard in Hr. rewrite Hr.
    destruct (paginate _ _ _) as [l|e] eqn:Hp.
    2:{ pose proof (paginate_ok (default 10 (aq_limit q) * 1) _
                      (select_without_password <$>
                         sort_desc (fun kv => Z.of_nat kv.1)
                           (find (getAllUsers_query q) (users db))) Hskip) as Hok.
        by rewrite Hp in Hok. }
    eexists. split; [reflexivity|]. simpl.
    assert (Hitems : forall x, x ∈ l ->
              exists id t, x = select_without_password (id, t)
                /\ users db !! id = Some t /\ getAllUsers_query q t = true).
    { intros x Hx. apply (paginate_elem _ _ _ _ _ Hp) in Hx.
      apply list_elem_of_fmap in Hx as ([id t] & -> & Hin).
      apply sort_desc_elem, find_elem in Hin. eauto. }
    split; [|split; [|split]].
    + intros x Hx. destruct (Hitems x Hx) as (id & t & -> & Ht & _). simpl. eauto.
    + apply (paginate_sorted _ _ _ _ _ Hp).
      apply (StronglySorted_fmap select_without_password
               (fun x y : ObjectId * User => (y.1 < x.1)%nat)); [done|].
      apply find_sorted_by_id.
    + intros ro Hro. unfold getAllUsers_query in *. rewrite Hro in *. split.
      * intros x Hx. destruct (Hitems x Hx) as (id & t & -> & Ht & Hq).
        rewrite optional_filter_allowed in Hq;
          [|destruct ro; set_solver|by destruct ro].
        apply bool_decide_eq_true in Hq. simpl. by apply Role_to_string_inj.
      * apply countDocuments_ext. intros t.
        rewrite optional_filter_allowed; [|destruct ro; set_solver|by destruct ro].
        unfold compose. apply bool_decide_ext. split; [apply Role_to_string_inj|].
        by intros ->.
    + intros Hign. rewrite <- countDocuments_all. apply countDocuments_ext. intros t.
      by apply optional_filter_ignored.
Qed.

Lemma getAllUsers_filter_witness :
  let root := {| _id := 1%nat; doc := sample_user "root@x.com" admin false |} in
  let q := {| aq_page := None; aq_limit := None; aq_filter := Some "candidate" |} in
  exists r, getAllUsers (Some root) q sample_db
            = (Ok {| status := 200; json := r |}, sample_db)
    /\ uv_id <$> items r = [5%nat; 4%nat]
    /\ forall x, x ∈ items r -> uv_role x = candidate.
Proof.
  intros root q.
  destruct (proj2 (getAllUsers_filter root q sample_db) eq_refl ltac:(simpl; lia))
    as (r & Hrun & _ & _ & Hrole & _).
  exists r. split; [exact Hrun|]. split; [|exact (proj1 (Hrole candidate eq_refl))].
  assert (H0 : match (getAllUsers (Some root) q sample_db).1 with
               | Ok a => uv_id <$> items (json a)
               | Err _ => []
               end = [5%nat; 4%nat]) by (vm_compute; reflexivity).
  rewrite Hrun in H0. exact H0.
Defined.

Lemma respond_page_edges {A} (user : option IUser) (q : AdminQuery)
    (found : Db -> list A) (count : Db -> nat) msg db :
  user_role user = Some admin -> aq_limit q = Some 0 ->
  (throw_if (negb (bool_decide (user_role user = Some admin))) (AuthorizationError msg);;
   found_ ← gets found;
   total_ ← gets count;
   respond_page (default 1 (aq_page q)) (default 10 (aq_limit q)) found_ total_) db
  = (Ok {| status := 200;
           json := {| items := found db; totalPages := None;
                      currentPage := default 1 (aq_page q);
                      total := count db |} |}, db).
Proof.
  intros Hadmin Hl. rewrite admin_listing_run, Hadmin.
  rewrite bool_decide_eq_true_2 by done. simpl negb. cbv iota.
  rewrite Hl. simpl. unfold paginate, ceil_div.
  rewrite Z.mul_0_r. simpl. by rewrite drop_0.
Qed.

(** X28: The edge of paging in the three admin listings, for an admin: with
    a limit of zero the skip is zero whatever the page, the store applies
    no limit, and the answer holds every matching document, as many as
    [total] counts, in the order of the listing; [totalPages], the total
    divided by zero, is no finite number. *)
Theorem admin_listings_paging_edges (u : IUser) (q : AdminQuery) (db : Db) :
  role (doc u) = admin -> aq_limit q = Some 0 ->
  exists r1 r2 r3,
    getAllUsers (Some u) q db = (Ok {| status := 200; json := r1 |}, db)
    /\ admin_getAllApplications (Some u) q db = (Ok {| status := 200; json := r2 |}, db)
    /\ admin_getAllJobs (Some u) q db = (Ok {| status := 200; json := r3 |}, db)
    /\ totalPages r1 = None /\ totalPages r2 = None /\ totalPages r3 = None
    /\ length (items r1) = total r1 /\ length (items r2) = total r2
    /\ length (items r3) = total r3
    /\ (forall id t, users db !! id = Some t -> getAllUsers_query q t = true ->
          select_without_password (id, t) ∈ items r1)
    /\ (forall id a, applications db !! id = Some a ->
          admin_getAllApplications_query q a = true ->
          populate_admin_application db (id, a) ∈ items r2)
    /\ (forall id j, jobs db !! id = Some j -> admin_getAllJobs_query q j = true ->
          populate_admin_job db (id, j) ∈ items r3).
Proof.
  intros Hr Hl.
  assert (Hadmin : user_role (Some u) = Some admin).
  { unfold user_role, compose. simpl. by rewrite Hr. }
  unfold getAllUsers, admin_getAllApplications, admin_getAllJobs.
  do 3 eexists.
  split; [by apply respond_page_edges|]. split; [by apply respond_page_edges|].
  split; [by apply respond_page_edges|]. simpl.
  split; [done|]. split; [done|]. split; [done|].
  rewrite !length_fmap, !sort_desc_length, !find_length.
  split; [done|]. split; [done|]. split; [done|].
  split; [|split].
  - intros id t Ht Hq. apply list_elem_of_fmap. exists (id, t). split; [done|].
    by apply sort_desc_elem, find_elem.
  - intros id a Ha Hq. apply list_elem_of_fmap. exists (id, a). split; [done|].
    by apply sort_desc_elem, find_elem.
  - intros id j Hj Hq. apply list_elem_of_fmap. exists (id, j). split; [done|].
    by apply sort_desc_elem, find_elem.
Qed.

Lemma admin_listings_paging_edges_witness :
  let root := {| _id := 1%nat; doc := sample_user "root@x.com" admin false |} in
  let q := {| aq_page := Some 7; aq_limit := Some 0; aq_filter := None |} in
  exists r1, getAllUsers (Some root) q sample_db
             = (Ok {| status := 200; json := r1 |}, sample_db)
    /\ totalPages r1 = None /\ length (items r1) = 5%nat.
Proof.
  intros root q.
  destruct (admin_listings_paging_edges root q sample_db eq_refl eq_refl)
    as (r1 & r2 & r3 & Hrun & _ & _ & Hpages & _ & _ & Hlen & _).
  exists r1. split; [exact Hrun|]. split; [exact Hpages|].
  rewrite Hlen. vm_compute in Hrun. injection Hrun as <-. reflexivity.
Defined.

(** ** [validateEmail] and [generateSlug] *)

Local Open Scope list_scope.

Lemma span_plain_split l :
  l = (span_plain l).1 ++ (span_plain l).2 /\ forallb plain (span_plain l).1 = true.
Proof.
  induction l as [|a l [IH1 IH2]]; [done|]. simpl.
  destruct (plain a) eqn:Ha; [|done].
  destruct (span_plain l) as [p r]. simpl in *. rewrite Ha, IH2. by rewrite <- IH1.
Qed.

Lemma span_plain_app a x rest :
  forallb plain a = true -> plain x = false ->
  span_plain (a ++ x :: rest) = (a, x :: rest).
Proof.
  intros Ha Hx. induction a as [|y a IH]; simpl.
  - by rewrite Hx.
  - simpl in Ha. apply andb_true_iff in Ha as [Hy Ha]. rewrite Hy, (IH Ha). done.
Qed.

Lemma dot_inside (l : list ascii) :
  existsb (fun c => bool_decide (c = "."%char)) (removelast l) = true
  <-> exists u w, l = u ++ "."%char :: w /\ w <> [].
Proof.
  split.
  - intros Hex. destruct l as [|x l]; [done|].
    rewrite (app_removelast_last x (l := x :: l)) by done.
    apply existsb_exists in Hex as (c & Hin & Hc). apply bool_decide_eq_true in Hc.
    subst c. apply in_split in Hin as (u & w & Heq). rewrite Heq.
    exists u, (w ++ [List.last (x :: l) x]). split; [by rewrite <- app_assoc|].
    by destruct w.
  - intros (u & w & -> & Hw). rewrite removelast_app by done.
    rewrite existsb_app. apply orb_true_iff. right.
    destruct w; [done|]. simpl. done.
Qed.

(** X29: On ASCII text [validateEmail], and the same test in
    [validateRegistration], accepts exactly the strings of the form
    local@domain.rest in which the three parts are non-empty and contain
    neither white space nor another @. *)
Theorem validateEmail_shape (s : string) :
  is_ascii_text (String.list_ascii_of_string s) = true ->
  validateEmail s = true
  <-> exists a b c,
        String.list_ascii_of_string s = a ++ "@"%char :: b ++ "."%char :: c
        /\ a <> [] /\ b <> [] /\ c <> []
        /\ forallb plain (a ++ b ++ c) = true.
Proof.
  intros _. unfold validateEmail, emailRegex_test.
  set (l := String.list_ascii_of_string s). clearbody l. split.
  - intros Hok. destruct (span_plain_split l) as [Hl Hp].
    destruct (span_plain l) as [[|y p] [|x d]]; try done. simpl in Hl, Hp.
    apply andb_true_iff in Hok as [Hok Hdot]. apply andb_true_iff in Hok as [Hx Hd].
    apply bool_decide_eq_true in Hx. subst x.
    destruct d as [|z d]; [done|]. simpl in Hdot.
    apply dot_inside in Hdot as (u & w & -> & Hw).
    exists (y :: p), (z :: u), w. split; [done|]. split; [done|]. split; [done|].
    split; [done|].
    change (z :: u ++ "."%char :: w) with ((z :: u) ++ "."%char :: w) in Hd.
    rewrite forallb_app in Hd. apply andb_true_iff in Hd as [Hb Hc].
    simpl in Hc.
    rewrite !forallb_app.
    apply andb_true_iff; split; [exact Hp|]. apply andb_true_iff; split; [exact Hb|exact Hc].
  - intros (a & b & c & -> & Ha & Hb & Hc & Hall).
    rewrite !forallb_app in Hall.
    apply andb_true_iff in Hall as [Hpa Hall]. apply andb_true_iff in Hall as [Hpb Hpc].
    rewrite (span_plain_app a "@"%char (b ++ "."%char :: c)) by done.
    destruct a as [|y a]; [done|].
    rewrite bool_decide_eq_true_2 by done. simpl.
    rewrite forallb_app. simpl. rewrite Hpb, Hpc. simpl.
    destruct b as [|z b]; [done|]. simpl. apply dot_inside. eauto.
Qed.

Lemma validateEmail_shape_witness :
  exists a b c,
    String.list_ascii_of_string "dev@mail.example.org"
    = a ++ "@"%char :: b ++ "."%char :: c
    /\ a <> [] /\ b <> [] /\ c <> [] /\ forallb plain (a ++ b ++ c) = true.
Proof.
  apply (proj1 (validateEmail_shape "dev@mail.example.org" eq_refl)). reflexivity.
Defined.

Lemma lower_filter_char (a : ascii) :
  is_word (lower_ascii a) || is_space (lower_ascii a) || is_hyphen (lower_ascii a) = true ->
  is_slug_char (lower_ascii a) || is_separator (lower_ascii a) = true.
Proof. destruct a as [[] [] [] [] [] [] [] []]; vm_compute; done. Qed.

Lemma slug_char_fixed (a : ascii) :
  is_slug_char a = true ->
  lower_ascii a = a
  /\ is_word a || is_space a || is_hyphen a = true
  /\ is_separator a = is_hyphen a.
Proof. destruct a as [[] [] [] [] [] [] [] []]; vm_compute; done. Qed.

Lemma hyphen_separator (a : ascii) : is_separator a = false -> is_hyphen a = false.
Proof. unfold is_separator. intros H. by apply orb_false_iff in H as [_ ?]. Qed.

Lemma collapse_cons a l :
  collapse_separators (a :: l)
  = if is_separator a then
      match l with
      | b :: _ => if is_separator b then collapse_separators l
                  else "-"%char :: collapse_separators l
      | [] => ["-"%char]
      end
    else a :: collapse_separators l.
Proof. reflexivity. Qed.

Lemma no_double_cons a l :
  no_double_hyphen (a :: l)
  = match l with
    | b :: _ => negb (is_hyphen a && is_hyphen b)
    | [] => true
    end && no_double_hyphen l.
Proof. reflexivity. Qed.

Lemma filter_chars l :
  forallb (fun a => is_slug_char a || is_separator a)
    (List.filter (fun a => is_word a || is_space a || is_hyphen a) (map lower_ascii l))
  = true.
Proof.
  induction l as [|a l IH]; [done|]. simpl.
  destruct (is_word (lower_ascii a) || is_space (lower_ascii a)
            || is_hyphen (lower_ascii a)) eqn:Hk; [|done].
  simpl. by rewrite (lower_filter_char a Hk), IH.
Qed.

Lemma collapse_chars l :
  forallb (fun a => is_slug_char a || is_separator a) l = true ->
  forallb is_slug_char (collapse_separators l) = true.
Proof.
  induction l as [|a l IH]; [done|]. intros H. simpl in H.
  apply andb_true_iff in H as [Ha Hl]. specialize (IH Hl). rewrite collapse_cons.
  destruct (is_separator a) eqn:Hs.
  - destruct l as [|b l]; [done|]. destruct (is_separator b); [done|].
    cbn [forallb]. rewrite IH. reflexivity.
  - rewrite orb_false_r in Ha. cbn [forallb]. by rewrite Ha, IH.
Qed.

Lemma collapse_no_double l : no_double_hyphen (collapse_separators l) = true.
Proof.
  induction l as [|a l IH]; [done|]. rewrite collapse_cons.
  destruct (is_separator a) eqn:Hs.
  - destruct l as [|b l]; [done|]. destruct (is_separator b) eqn:Hb; [done|].
    rewrite collapse_cons, Hb in IH |- *. rewrite no_double_cons.
    rewrite (hyphen_separator b Hb), andb_false_r. simpl negb. by rewrite IH.
  - rewrite no_double_cons, IH, (hyphen_separator a Hs).
    by destruct (collapse_separators l).
Qed.

Lemma drop_hyphens_split l : exists h, l = h ++ drop_hyphens l.
Proof.
  induction l as [|a l [h IH]]; [by exists []|]. simpl.
  destruct (is_hyphen a); [|by exists []]. exists (a :: h). simpl. by rewrite <- IH.
Qed.

Lemma drop_hyphens_head l : hyphen_first (drop_hyphens l) = false.
Proof.
  induction l as [|a l IH]; [done|]. simpl. destruct (is_hyphen a) eqn:Ha; [done|].
  simpl. done.
Qed.

Lemma drop_hyphens_id l : hyphen_first l = false -> drop_hyphens l = l.
Proof. destruct l as [|a l]; [done|]. simpl. by intros ->. Qed.

Lemma trim_hyphens_split l : exists h t, l = h ++ trim_hyphens l ++ t.
Proof.
  unfold trim_hyphens. destruct (drop_hyphens_split l) as [h Hh].
  destruct (drop_hyphens_split (rev (drop_hyphens l))) as [t Ht].
  exists h, (rev t). rewrite <- rev_app_distr, <- Ht, rev_involutive. done.
Qed.

Lemma trim_hyphens_head l : hyphen_first (trim_hyphens l) = false.
Proof.
  unfold trim_hyphens.
  destruct (drop_hyphens_split (rev (drop_hyphens l))) as [t Ht].
  pose proof (drop_hyphens_head l) as Hd.
  apply (f_equal (@rev ascii)) in Ht. rewrite rev_involutive, rev_app_distr in Ht.
  destruct (rev (drop_hyphens (rev (drop_hyphens l)))) as [|x r]; [done|].
  rewrite Ht in Hd. done.
Qed.

Lemma trim_hyphens_last l : hyphen_first (rev (trim_hyphens l)) = false.
Proof. unfold trim_hyphens. rewrite rev_involutive. apply drop_hyphens_head. Qed.

Lemma no_double_app_r h l :
  no_double_hyphen (h ++ l) = true -> no_double_hyphen l = true.
Proof.
  induction h as [|a h IH]; [done|]. simpl app. rewrite no_double_cons.
  intros H. apply andb_true_iff in H as [_ H]. by apply IH.
Qed.

Lemma no_double_app_l l t :
  no_double_hyphen (l ++ t) = true -> no_double_hyphen l = true.
Proof.
  induction l as [|a l IH]; [done|]. simpl app. rewrite !no_double_cons.
  intros H. apply andb_true_iff in H as [H1 H2]. rewrite (IH H2), andb_true_r.
  by destruct l.
Qed.

Lemma generateSlug_chars_is_slug l : is_slug (generateSlug_chars l) = true.
Proof.
  unfold generateSlug_chars, is_slug.
  set (c := collapse_separators _).
  assert (Hc : forallb is_slug_char c = true) by apply collapse_chars, filter_chars.
  assert (Hd : no_double_hyphen c = true) by apply collapse_no_double.
  destruct (trim_hyphens_split c) as (h & t & Hsplit).
  rewrite Hsplit in Hc, Hd. rewrite !forallb_app in Hc.
  apply andb_true_iff in Hc as [_ Hc]. apply andb_true_iff in Hc as [Hc _].
  apply no_double_app_r, no_double_app_l in Hd.
  by rewrite Hc, Hd, trim_hyphens_head, trim_hyphens_last.
Qed.

Lemma hyphen_first_app l t : l <> [] -> hyphen_first (l ++ t) = hyphen_first l.
Proof. by destruct l. Qed.

Lemma hyphen_last_cons a b l :
  hyphen_first (rev (a :: b :: l)) = hyphen_first (rev (b :: l)).
Proof.
  change (rev (a :: b :: l)) with (rev (b :: l) ++ [a]).
  apply hyphen_first_app. simpl. by destruct (rev l).
Qed.

Lemma collapse_fixed l :
  forallb is_slug_char l = true -> no_double_hyphen l = true ->
  hyphen_first (rev l) = false ->
  collapse_separators l = l.
Proof.
  induction l as [|a l IH]; [done|]. intros Hc Hd Hlast.
  simpl in Hc. apply andb_true_iff in Hc as [Ha Hc].
  rewrite no_double_cons in Hd. apply andb_true_iff in Hd as [Hab Hd].
  destruct (slug_char_fixed a Ha) as (_ & _ & Hsep).
  rewrite collapse_cons, Hsep.
  destruct l as [|b l].
  - simpl in Hlast. by rewrite Hlast.
  - rewrite hyphen_last_cons in Hlast. rewrite (IH Hc Hd Hlast).
    destruct (is_hyphen a) eqn:Hh; [|done].
    simpl in Hc. apply andb_true_iff in Hc as [Hb _].
    destruct (slug_char_fixed b Hb) as (_ & _ & Hsepb). rewrite Hsepb.
    simpl in Hab. apply negb_true_iff in Hab. rewrite Hab.
    apply bool_decide_eq_true in Hh. by rewrite Hh.
Qed.

Lemma generateSlug_chars_fixed l : is_slug l = true -> generateSlug_chars l = l.
Proof.
  unfold is_slug. intros H.
  apply andb_true_iff in H as [H Hd]. apply andb_true_iff in H as [H Hlast].
  apply andb_true_iff in H as [Hc Hfirst].
  apply negb_true_iff in Hfirst, Hlast.
  assert (Hmap : map lower_ascii l = l).
  { clear -Hc. induction l as [|a l IH]; [done|]. simpl in *.
    apply andb_true_iff in Hc as [Ha Hc].
    destruct (slug_char_fixed a Ha) as (-> & _). by rewrite IH. }
  assert (Hfilter :
    List.filter (fun a => is_word a || is_space a || is_hyphen a) l = l).
  { clear -Hc. induction l as [|a l IH]; [done|]. simpl in *.
    apply andb_true_iff in Hc as [Ha Hc].
    destruct (slug_char_fixed a Ha) as (_ & -> & _). by rewrite IH. }
  unfold generateSlug_chars, trim_hyphens.
  rewrite Hmap, Hfilter, (collapse_fixed l Hc Hd Hlast).
  rewrite (drop_hyphens_id l Hfirst), (drop_hyphens_id (rev l) Hlast).
  apply rev_involutive.
Qed.

(** X30: On ASCII text, [generateSlug] answers a slug: lower-case letters,
    digits and hyphens only, no hyphen first or last, no two hyphens in a
    row. It leaves every slug as it is, so applying it twice is applying
    it once. *)
Theorem generateSlug_idempotent (text : string) :
  is_ascii_text (String.list_ascii_of_string text) = true ->
  is_slug (String.list_ascii_of_string (generateSlug text)) = true
  /\ generateSlug (generateSlug text) = generateSlug text
  /\ (is_slug (String.list_ascii_of_string text) = true -> generateSlug text = text).
Proof.
  intros _. unfold generateSlug.
  rewrite !String.list_ascii_of_string_of_list_ascii.
  split; [apply generateSlug_chars_is_slug|]. split.
  - f_equal. apply generateSlug_chars_fixed, generateSlug_chars_is_slug.
  - intros Hs. rewrite (generateSlug_chars_fixed _ Hs).
    apply String.string_of_list_ascii_of_string.
Qed.

Lemma generateSlug_idempotent_witness :
  generateSlug " Senior  Dev_Ops -- Engineer (C++)! " = "senior-dev-ops-engineer-c"
  /\ is_slug (String.list_ascii_of_string
                (generateSlug " Senior  Dev_Ops -- Engineer (C++)! ")) = true
  /\ generateSlug (generateSlug " Senior  Dev_Ops -- Engineer (C++)! ")
     = generateSlug " Senior  Dev_Ops -- Engineer (C++)! ".
Proof.
  split; [reflexivity|].
  destruct (generateSlug_idempotent " Senior  Dev_Ops -- Engineer (C++)! " eq_refl)
    as (H1 & H2 & _).
  split; [exact H1|exact H2].
Defined.
